(** * Administrative-code resolution and entity reconciliation scripts

    A shallow embedding of the core of four scripts,

      - [scripts/lookup_kecamatan_from_desa.py]   (name normalizer, village repair pass)
      - [scripts/update_faskes_kecamatan_desa.py] (hierarchical code resolver)
      - [scripts/sync_entity_uuids.py]            (entity identity reconciler)
      - [scripts/update_odk_entities.py]          (property sync engine)

    followed by the properties established about them.

    Conventions.  Python dictionaries are finite maps ([gmap]); values that
    come out of a JSON document keep their dynamic type ([pyval]); names are
    strings of ASCII characters, on which Python's Unicode-aware character
    classes ([str.isspace], [\s], [\w], [str.lower], [str.upper]) are the
    ones written out in [PyStr]. *)

From Stdlib Require Import ZArith Ascii String List Permutation.
From stdpp Require Import base option list gmap fin_maps strings pretty.

Local Open Scope string_scope.

(** ** Python string primitives *)

Module PyStr.

Definition code (c : ascii) : nat := nat_of_ascii c.

(** The functions of this module follow Python on the characters of ASCII.
    Above them Python's classes and case maps are those of Unicode (an
    accented letter is in [\w], the upper case of the sharp s is two
    characters), which the functions below do not follow: what is stated
    about the case of letters or about the alphabet of a result is stated
    for names made of ASCII characters, [ascii_only]. *)
Definition is_ascii (c : ascii) : bool := (code c <? 128)%nat.

Fixpoint ascii_only (s : string) : bool :=
  match s with
  | EmptyString => true
  | String c t => is_ascii c && ascii_only t
  end.

Definition is_upper (c : ascii) : bool :=
  (65 <=? code c)%nat && (code c <=? 90)%nat.

Definition is_lower (c : ascii) : bool :=
  (97 <=? code c)%nat && (code c <=? 122)%nat.

Definition is_digit (c : ascii) : bool :=
  (48 <=? code c)%nat && (code c <=? 57)%nat.

(** [str.isspace] and the regex class [\s] on ASCII: TAB, LF, VT, FF, CR,
    the four separators 0x1c-0x1f, and the blank. *)
Definition is_space (c : ascii) : bool :=
  ((9 <=? code c)%nat && (code c <=? 13)%nat)
  || ((28 <=? code c)%nat && (code c <=? 32)%nat).

(** The regex class [\w] on ASCII: letters, digits and the underscore. *)
Definition is_word (c : ascii) : bool :=
  is_upper c || is_lower c || is_digit c || (code c =? 95)%nat.

Definition lower_char (c : ascii) : ascii :=
  if is_upper c then ascii_of_nat (code c + 32) else c.

Definition upper_char (c : ascii) : ascii :=
  if is_lower c then ascii_of_nat (code c - 32) else c.

Fixpoint map_chars (f : ascii -> ascii) (s : string) : string :=
  match s with
  | EmptyString => EmptyString
  | String c t => String (f c) (map_chars f t)
  end.

Fixpoint filter_chars (keep : ascii -> bool) (s : string) : string :=
  match s with
  | EmptyString => EmptyString
  | String c t =>
      if keep c then String c (filter_chars keep t) else filter_chars keep t
  end.

(** [s.lower()], [s.upper()] *)
Definition lower (s : string) : string := map_chars lower_char s.
Definition upper (s : string) : string := map_chars upper_char s.

(** [s.lstrip()], [s.rstrip()], [s.strip()] *)
Fixpoint lstrip (s : string) : string :=
  match s with
  | EmptyString => EmptyString
  | String c t => if is_space c then lstrip t else s
  end.

Fixpoint rstrip (s : string) : string :=
  match s with
  | EmptyString => EmptyString
  | String c t =>
      match rstrip t with
      | EmptyString => if is_space c then EmptyString else String c EmptyString
      | r => String c r
      end
  end.

Definition strip (s : string) : string := lstrip (rstrip s).

(** [s.startswith(p)], and the rest of [s] after the literal [p]. *)
Fixpoint after_literal (p s : string) : option string :=
  match p with
  | EmptyString => Some s
  | String a p' =>
      match s with
      | EmptyString => None
      | String b s' => if Ascii.eqb a b then after_literal p' s' else None
      end
  end.

Definition startswith (s p : string) : bool :=
  match after_literal p s with Some _ => true | None => false end.

(** [s.replace(old, new)] for a one-character [old] and an empty [new]. *)
Definition remove_char (a : ascii) (s : string) : string :=
  filter_chars (fun c => negb (Ascii.eqb c a)) s.

(** [s.replace(old, new)] for a two-character [old = a b]: the scan goes
    left to right and resumes after each replaced occurrence. *)
Fixpoint replace_pair (a b : ascii) (new : string) (s : string) : string :=
  match s with
  | EmptyString => EmptyString
  | String c t =>
      match t with
      | EmptyString => String c EmptyString
      | String d u =>
          if Ascii.eqb c a && Ascii.eqb d b
          then new ++ replace_pair a b new u
          else String c (replace_pair a b new t)
      end
  end.

(** [s[:n]] *)
Fixpoint take_chars (n : nat) (s : string) : string :=
  match n, s with
  | S n', String c t => String c (take_chars n' t)
  | _, _ => EmptyString
  end.

(** Truth value of a string: [bool(s)]. *)
Definition nonempty (s : string) : bool :=
  match s with EmptyString => false | _ => true end.

End PyStr.

(** ** Values of dynamic type *)

(** What [json.loads] hands back for the scalars of a JSON document. *)
Inductive pyval : Type :=
  | PNone
  | PBool (b : bool)
  | PInt (z : Z)
  | PStr (s : string).

#[global] Instance pyval_eq_dec : EqDecision pyval.
Proof. solve_decision. Defined.

Module Py.

(** [bool(v)] *)
Definition truthy (v : pyval) : bool :=
  match v with
  | PNone => false
  | PBool b => b
  | PInt z => negb (z =? 0)%Z
  | PStr s => PyStr.nonempty s
  end.

(** [str(v)] *)
Definition str (v : pyval) : string :=
  match v with
  | PNone => "None"
  | PBool true => "True"
  | PBool false => "False"
  | PInt z => pretty z
  | PStr s => s
  end.

(** [v == w]; a Boolean compares equal to the integer it stands for. *)
Definition eqb (v w : pyval) : bool :=
  match v, w with
  | PNone, PNone => true
  | PBool a, PBool b => Bool.eqb a b
  | PInt a, PInt b => (a =? b)%Z
  | PBool a, PInt b | PInt b, PBool a => (Z.b2z a =? b)%Z
  | PStr a, PStr b => String.eqb a b
  | _, _ => false
  end.

(** [d.get(k, default)] *)
Definition get {K : Type} `{Countable K} {A : Type}
    (d : gmap K A) (k : K) (default : A) : A :=
  match d !! k with Some v => v | None => default end.

(** The body [if guard: d[key] = val] of a loop that fills a dictionary. *)
Definition put_row {R K A : Type} `{Countable K}
    (guard : R -> bool) (key : R -> K) (val : R -> A)
    (d : gmap K A) (row : R) : gmap K A :=
  if guard row then <[key row := val row]> d else d.

(** A dictionary filled by a loop [for row in rows: if guard: d[key] = val]. *)
Definition dict_of_rows {R K A : Type} `{Countable K}
    (guard : R -> bool) (key : R -> K) (val : R -> A) (rows : list R)
    : gmap K A :=
  fold_left (put_row guard key val) rows ∅.

End Py.

(** ** The backbone tables (provinsi.csv, kota_kab.csv, kecamatan.csv, desa.csv) *)

Record provinsi_row := { prov_kode : string; prov_nama : string }.
Record kota_kab_row :=
  { kab_kode : string; kab_nama : string; kab_id_provinsi : string }.
Record kecamatan_row :=
  { kec_kode : string; kec_nama : string; kec_id_kota_kab : string }.
Record desa_row :=
  { desa_kode : string; desa_nama : string; desa_id_kec : string }.

(** A row of Faskes_Kemenkes_Aceh.csv, by column. *)
Record faskes_row := {
  JENIS_FASYANKES : string;
  NAMA : string;
  PROVINSI : string;
  KABUPATEN : string;
  KECAMATAN : string;
  DESA : string
}.

(** ** scripts/lookup_kecamatan_from_desa.py *)

Module lookup_kecamatan_from_desa.
Import PyStr.

(** The alternatives of [^(desa|gampong|kelurahan|kp\.?|ds\.?)\s+] in the
    order in which the backtracking matcher tries them. *)
Definition prefix_alternatives : list string :=
  ["desa"; "gampong"; "kelurahan"; "kp."; "kp"; "ds."; "ds"].

(** [\s+] at the head of [s], greedy: the rest after the whole run. *)
Definition after_spaces (s : string) : option string :=
  match s with
  | String c t => if is_space c then Some (lstrip t) else None
  | EmptyString => None
  end.

Definition try_alternative (p s : string) : option string :=
  match after_literal p s with
  | Some rest => after_spaces rest
  | None => None
  end.

Fixpoint first_match (alts : list string) (s : string) : option string :=
  match alts with
  | [] => None
  | p :: alts' =>
      match try_alternative p s with
      | Some rest => Some rest
      | None => first_match alts' s
      end
  end.

(** [re.sub(r'^(desa|gampong|kelurahan|kp\.?|ds\.?)\s+', '', name)] *)
Definition sub_prefix (s : string) : string :=
  match first_match prefix_alternatives s with
  | Some rest => rest
  | None => s
  end.

(** [re.sub(r'\s+', ' ', name)]; [in_run] tells whether the previous
    character belonged to the run being replaced. *)
Fixpoint sub_spaces_from (in_run : bool) (s : string) : string :=
  match s with
  | EmptyString => EmptyString
  | String c t =>
      if is_space c
      then if in_run then sub_spaces_from true t
           else String " " (sub_spaces_from true t)
      else String c (sub_spaces_from false t)
  end.

Definition sub_spaces (s : string) : string := sub_spaces_from false s.

(** [re.sub(r'[^\w\s]', '', name)] *)
Definition sub_punct (s : string) : string :=
  filter_chars (fun c => is_word c || is_space c) s.

(** [normalize_name(name)]; [None] is Python's [None]. *)
Definition normalize_name (name : option string) : string :=
  match name with
  | None => ""
  | Some s =>
      if nonempty s
      then sub_punct (sub_spaces (sub_prefix (strip (lower s))))
      else ""
  end.

(** [normalize_for_fuzzy(name)] *)
Definition normalize_for_fuzzy (name : option string) : string :=
  match name with
  | None => ""
  | Some s =>
      if nonempty s
      then
        let name1 := normalize_name (Some s) in
        let name2 := remove_char " " name1 in
        let name3 := replace_pair "o" "e" "u" name2 in
        let name4 := replace_pair "d" "j" "j" name3 in
        replace_pair "t" "j" "c" name4
      else ""
  end.


(** The value [{'id_kec': id_kec, 'nama': nama}] of both village tables. *)
Record desa_info := { info_id_kec : string; info_nama : string }.

Definition desa_guard (row : desa_row) : bool :=
  nonempty (desa_nama row) && nonempty (desa_id_kec row).

Definition desa_info_of (row : desa_row) : desa_info :=
  {| info_id_kec := desa_id_kec row; info_nama := desa_nama row |}.

(** [load_desa_lookup()]: the exact and the fuzzy table. *)
Definition load_desa_lookup (rows : list desa_row)
    : gmap string desa_info * gmap string desa_info :=
  (Py.dict_of_rows desa_guard
     (fun row => normalize_name (Some (desa_nama row))) desa_info_of rows,
   Py.dict_of_rows desa_guard
     (fun row => normalize_for_fuzzy (Some (desa_nama row))) desa_info_of rows).

(** [load_kecamatan_lookup()]: kode -> nama. *)
Definition load_kecamatan_lookup (rows : list kecamatan_row)
    : gmap string string :=
  Py.dict_of_rows (fun row => nonempty (kec_kode row) && nonempty (kec_nama row))
    kec_kode kec_nama rows.

(** Lines 125-132 of [main]: exact lookup first, then the fuzzy one. *)
Definition find_desa (desa_lookup desa_fuzzy_lookup : gmap string desa_info)
    (desa : string) : option desa_info :=
  let desa_norm := normalize_name (Some desa) in
  match desa_lookup !! desa_norm with
  | Some info => Some info
  | None =>
      let desa_fuzzy := normalize_for_fuzzy (Some desa) in
      desa_fuzzy_lookup !! desa_fuzzy
  end.

Inductive row_result :=
  | NoDesa
  | DesaNotFound
  | KecNotFound
  | Looked_up.

(** The body of the loop of [main] over the rows of the facility file:
    the row as it is written back, and the branch taken. *)
Definition process_row
    (desa_lookup desa_fuzzy_lookup : gmap string desa_info)
    (kecamatan_lookup : gmap string string)
    (row : faskes_row) : faskes_row * row_result :=
  let desa := strip (DESA row) in
  if negb (nonempty desa) then (row, NoDesa)
  else
    match find_desa desa_lookup desa_fuzzy_lookup desa with
    | None => (row, DesaNotFound)
    | Some info =>
        let row1 :=
          {| JENIS_FASYANKES := JENIS_FASYANKES row; NAMA := NAMA row;
             PROVINSI := PROVINSI row; KABUPATEN := KABUPATEN row;
             KECAMATAN := KECAMATAN row; DESA := info_nama info |} in
        match kecamatan_lookup !! info_id_kec info with
        | None => (row1, KecNotFound)
        | Some kecamatan_nama =>
            if negb (nonempty kecamatan_nama) then (row1, KecNotFound)
            else
            ({| JENIS_FASYANKES := JENIS_FASYANKES row; NAMA := NAMA row;
                PROVINSI := PROVINSI row; KABUPATEN := KABUPATEN row;
                KECAMATAN := kecamatan_nama; DESA := info_nama info |},
             Looked_up)
        end
    end.

End lookup_kecamatan_from_desa.

(** ** The external platform, at its interface *)

(** The body of a PATCH on one entity, with its [baseVersion] parameter. *)
Record patch_request := {
  req_uuid : string;
  req_label : pyval;
  req_data : gmap string pyval;
  req_base_version : Z
}.

(** What the scripts read of a response: [status_code] and [text]. *)
Record patch_response := { status_code : Z; text : string }.

(** The ["currentVersion"] object of an entity. *)
Record current_version := { cv_version : option Z; cv_label : option string }.

(** An entity as the platform lists it; an absent key is [None]. *)
Record entity := {
  uuid : string;
  label : option string;
  currentVersion : option current_version;
  data : option (gmap string pyval)
}.

(** The response to a GET on one entity. *)
Record get_response := { get_status : Z; get_json : entity }.

(** The platform: some server state, and what it answers.  Every call is
    answered, with some status.  A call on which the transport fails
    (time-out, refused connection) raises in [requests]; the loops of the
    scripts over the entities have no handler for it, the script ends
    there, and such runs are not described here. *)
Record platform := {
  server : Type;
  http_get : server -> string -> get_response * server;
  http_patch : server -> patch_request -> patch_response * server
}.

(** The calls a run makes, in order. *)
Inductive http_call :=
  | GET (entity_uuid : string)
  | PATCH (request : patch_request).

Definition is_patch (c : http_call) : bool :=
  match c with PATCH _ => true | GET _ => false end.

Definition is_get (c : http_call) : bool :=
  match c with GET _ => true | PATCH _ => false end.

(** [update_entity], the same function in [update_odk_entities.py] and in
    [ODKCentralClient] of [update_faskes_kecamatan_desa.py]: the pair
    [(success, error)] read off the response. *)
Definition update_entity_result (response : patch_response)
    : bool * option string :=
  if ((status_code response =? 200) || (status_code response =? 201))%Z
  then (true, None)
  else (false,
        Some ("Status " ++ pretty (status_code response) ++ ": "
              ++ PyStr.take_chars 200 (text response))).

(** ** scripts/update_faskes_kecamatan_desa.py *)

Module update_faskes_kecamatan_desa.
Import PyStr.

Record kab_info := { kab_info_kode : string; kab_info_id_provinsi : string }.
Record kec_info :=
  { kec_info_kode : string; kec_info_id_kota_kab : string; kec_info_nama : string }.
Record desa_info :=
  { desa_info_kode : string; desa_info_id_kec : string; desa_info_nama : string }.

(** The four backbone files. *)
Record backbone := {
  provinsi_csv : list provinsi_row;
  kota_kab_csv : list kota_kab_row;
  kecamatan_csv : list kecamatan_row;
  desa_csv : list desa_row
}.

(** The dictionary [lookups]; the [*_by_kode] tables are filled in the
    same loops and read by nothing in this script. *)
Record lookups := {
  lk_provinsi : gmap string string;
  lk_kota_kab : gmap string kab_info;
  lk_kecamatan : gmap (string * string) kec_info;
  lk_desa : gmap (string * string) desa_info
}.

Definition provinsi_guard (row : provinsi_row) : bool :=
  nonempty (upper (prov_nama row)) && nonempty (prov_kode row).
Definition kota_kab_guard (row : kota_kab_row) : bool :=
  nonempty (upper (kab_nama row)) && nonempty (kab_kode row).
Definition kecamatan_guard (row : kecamatan_row) : bool :=
  nonempty (upper (kec_nama row)) && nonempty (kec_kode row).
Definition desa_guard (row : desa_row) : bool :=
  nonempty (upper (desa_nama row)) && nonempty (desa_kode row).

(** [load_location_lookups()] *)
Definition load_location_lookups (b : backbone) : lookups :=
  {| lk_provinsi :=
       Py.dict_of_rows provinsi_guard
         (fun row => upper (prov_nama row)) prov_kode (provinsi_csv b);
     lk_kota_kab :=
       Py.dict_of_rows kota_kab_guard
         (fun row => upper (kab_nama row))
         (fun row => {| kab_info_kode := kab_kode row;
                        kab_info_id_provinsi := kab_id_provinsi row |})
         (kota_kab_csv b);
     lk_kecamatan :=
       Py.dict_of_rows kecamatan_guard
         (fun row => (kec_id_kota_kab row, upper (kec_nama row)))
         (fun row => {| kec_info_kode := kec_kode row;
                        kec_info_id_kota_kab := kec_id_kota_kab row;
                        kec_info_nama := kec_nama row |})
         (kecamatan_csv b);
     lk_desa :=
       Py.dict_of_rows desa_guard
         (fun row => (desa_id_kec row, upper (desa_nama row)))
         (fun row => {| desa_info_kode := desa_kode row;
                        desa_info_id_kec := desa_id_kec row;
                        desa_info_nama := desa_nama row |})
         (desa_csv b) |}.

(** [normalize_kab_name(nama)] *)
Definition normalize_kab_name (nama : string) : string :=
  let nama := strip (upper nama) in
  if negb (startswith nama "KAB.") && negb (startswith nama "KOTA")
  then "KAB. " ++ nama
  else nama.

(** The four local variables [sel_*] of [load_faskes_data]; the empty
    string is the unresolved code. *)
Record selected := {
  sel_provinsi : string;
  sel_kota_kab : string;
  sel_kecamatan : string;
  sel_desa : string
}.

(** Lines 202-236 of [load_faskes_data]: the block "Look up IDs". *)
Definition look_up_ids (lk : lookups) (row : faskes_row) : selected :=
  let provinsi := strip (PROVINSI row) in
  let kabupaten := strip (KABUPATEN row) in
  let kecamatan := strip (KECAMATAN row) in
  let desa := strip (DESA row) in
  let sel_provinsi :=
    if nonempty provinsi then Py.get (lk_provinsi lk) (upper provinsi) ""
    else "" in
  let sel_kota_kab :=
    if nonempty kabupaten then
      match lk_kota_kab lk !! normalize_kab_name kabupaten with
      | Some kab_info => kab_info_kode kab_info
      | None => ""
      end
    else "" in
  let sel_kecamatan :=
    if nonempty kecamatan && nonempty sel_kota_kab then
      match lk_kecamatan lk !! (sel_kota_kab, upper kecamatan) with
      | Some kec_info => kec_info_kode kec_info
      | None => ""
      end
    else "" in
  let sel_desa :=
    if nonempty desa && nonempty sel_kecamatan then
      match lk_desa lk !! (sel_kecamatan, upper desa) with
      | Some desa_info => desa_info_kode desa_info
      | None => ""
      end
    else "" in
  {| sel_provinsi := sel_provinsi; sel_kota_kab := sel_kota_kab;
     sel_kecamatan := sel_kecamatan; sel_desa := sel_desa |}.

(** The value stored under [nama_faskes] in the result of
    [load_faskes_data], as a dictionary from field name to string. *)
Definition faskes_name (row : faskes_row) : string :=
  if String.eqb (JENIS_FASYANKES row) "Puskesmas"
     && negb (startswith (NAMA row) "Puskesmas")
  then "Puskesmas " ++ NAMA row
  else NAMA row.

Definition jenis_faskes_of (row : faskes_row) : string :=
  if String.eqb (JENIS_FASYANKES row) "Puskesmas" then "puskesmas"
  else if String.eqb (JENIS_FASYANKES row) "Rumah Sakit" then "rumah_sakit"
  else "".

Definition faskes_entry (lk : lookups) (row : faskes_row) : gmap string string :=
  let sel := look_up_ids lk row in
  <["nama_faskes" := faskes_name row]>
  (<["jenis_faskes" := jenis_faskes_of row]>
  (<["nama_kecamatan" := strip (KECAMATAN row)]>
  (<["nama_desa" := strip (DESA row)]>
  (<["nama_provinsi" := strip (PROVINSI row)]>
  (<["nama_kota_kab" := strip (KABUPATEN row)]>
  (<["id_desa" := sel_desa sel]> ∅)))))).

(** [load_faskes_data(lookups)] *)
Definition load_faskes_data (lk : lookups) (rows : list faskes_row)
    : gmap string (gmap string string) :=
  Py.dict_of_rows (fun _ => true) faskes_name (faskes_entry lk) rows.

Definition fields_to_update : list string :=
  ["nama_faskes"; "jenis_faskes"; "nama_kecamatan"; "nama_desa";
   "nama_provinsi"; "nama_kota_kab"; "id_desa"].

Inductive entity_result :=
  | Skipped_no_csv
  | Skipped_no_change
  | Updated
  | Error (error : option string).

(** [client.get_entity(entity_uuid)]: the JSON of a 200 response, and the
    empty dictionary otherwise. *)
Definition empty_entity : entity :=
  {| uuid := ""; label := None; currentVersion := None; data := None |}.

Definition get_entity (P : platform) (srv : server P) (entity_uuid : string)
    : entity * server P :=
  let '(response, srv) := http_get P srv entity_uuid in
  (if (get_status response =? 200)%Z then get_json response else empty_entity,
   srv).

(** The check "any field needs update" of [main]. *)
Definition needs_update (csv_info : gmap string string)
    (current_data : gmap string pyval) : bool :=
  existsb (fun field =>
             let new_val := Py.get csv_info field "" in
             let current_val := Py.get current_data field (PStr "") in
             nonempty new_val && negb (Py.eqb (PStr new_val) current_val))
          fields_to_update.

(** [update_data]: a copy of the current data with every non-empty value
    of the facility file written over it. *)
Definition merge_update (csv_info : gmap string string)
    (current_data : gmap string pyval) : gmap string pyval :=
  fold_left (fun update_data field =>
               let new_val := Py.get csv_info field "" in
               if nonempty new_val
               then <[field := PStr new_val]> update_data
               else update_data)
            fields_to_update current_data.

(** The body of the loop "Update entities" of [main]. *)
Definition update_one (P : platform)
    (faskes_data : gmap string (gmap string string))
    (srv : server P) (e : entity)
    : entity_result * list http_call * server P :=
  let entity_uuid := uuid e in
  let label :=
    match currentVersion e with
    | Some cv => default "" (cv_label cv)
    | None => ""
    end in
  let current_data := default ∅ (data e) in
  match faskes_data !! label with
  | None => (Skipped_no_csv, [], srv)
  | Some csv_info =>
      if negb (needs_update csv_info current_data)
      then (Skipped_no_change, [], srv)
      else
        let '(entity_detail, srv) := get_entity P srv entity_uuid in
        let base_version :=
          match currentVersion entity_detail with
          | Some cv => default 1%Z (cv_version cv)
          | None => 1%Z
          end in
        let current_data := default ∅ (data entity_detail) in
        let update_data := merge_update csv_info current_data in
        let request :=
          {| req_uuid := entity_uuid; req_label := PStr label;
             req_data := update_data; req_base_version := base_version |} in
        let '(response, srv) := http_patch P srv request in
        match update_entity_result response with
        | (true, _) => (Updated, [GET entity_uuid; PATCH request], srv)
        | (false, error) => (Error error, [GET entity_uuid; PATCH request], srv)
        end
  end.

End update_faskes_kecamatan_desa.

(** ** scripts/sync_entity_uuids.py *)

Module sync_entity_uuids.

(** A row of the table [locations]: its primary key, the name, the column
    [raw_data] (a JSON object, or [None] for SQL NULL: nothing in the
    scripts makes the column NOT NULL), whether [deleted_at] is set, and
    the time stamp [updated_at]. *)
Record location := {
  loc_id : string;
  loc_nama : string;
  raw_data : option (gmap string pyval);
  deleted : bool;
  updated_at : Z
}.

(** A row as [get_pg_locations] selects it. *)
Record pg_location := {
  id : string;
  nama : string;
  current_entity_id : option string
}.

(** What the scripts cannot decide about the store: the order in which a
    SELECT without ORDER BY returns the rows, whether the n-th call to
    [update_pg_entity_id] of a run raises an exception, and the value of
    NOW() at that call. *)
Record database := {
  scan : list location -> list location;
  scan_permutation : forall rows, Permutation (scan rows) rows;
  raises : nat -> bool;
  clock : nat -> Z
}.

(** The operator [->>] of the store: the text of a member of a JSON
    object, NULL for a missing or null member and on a NULL document. *)
Definition json_text (doc : option (gmap string pyval)) (key : string)
    : option string :=
  match doc with
  | None => None
  | Some object =>
      match object !! key with
      | None | Some PNone => None
      | Some (PStr s) => Some s
      | Some (PInt z) => Some (pretty z)
      | Some (PBool true) => Some "true"
      | Some (PBool false) => Some "false"
      end
  end.

(** The columns [id, nama, raw_data->>'_entity_id'] of a row. *)
Definition select_row (l : location) : pg_location :=
  {| id := loc_id l; nama := loc_nama l;
     current_entity_id := json_text (raw_data l) "_entity_id" |}.

(** [get_pg_locations()]: the rows with [deleted_at IS NULL], in the order
    the store returns them. *)
Definition get_pg_locations (db : database) (store : list location)
    : list pg_location :=
  map select_row (scan db (List.filter (fun l => negb (deleted l)) store)).

(** [SET raw_data = raw_data || '{"_entity_id": "<new_entity_id>"}'::jsonb,
    updated_at = NOW()] on one row.  On a JSON object the member
    [_entity_id] is set and the others are kept; the concatenation with
    NULL is NULL.  The identifiers of the platform are UUIDs, without
    quotation marks or backslashes, so that the JSON text built around one
    denotes it. *)
Definition set_entity_id (time : Z) (new_entity_id : string) (l : location)
    : location :=
  {| loc_id := loc_id l; loc_nama := loc_nama l;
     raw_data :=
       match raw_data l with
       | Some object => Some (<["_entity_id" := PStr new_entity_id]> object)
       | None => None
       end;
     deleted := deleted l;
     updated_at := time |}.

(** [update_pg_entity_id(location_id, new_entity_id)] when it does not
    raise: the UPDATE on the rows [WHERE id = location_id]. *)
Definition update_pg_entity_id (time : Z) (location_id new_entity_id : string)
    (store : list location) : list location :=
  map (fun l =>
         if String.eqb (loc_id l) location_id
         then set_entity_id time new_entity_id l
         else l)
      store.

(** "Build lookup by label": later entities overwrite earlier ones. *)
Definition build_odk_by_label (odk_entities : list entity) : gmap string string :=
  fold_left (fun odk_by_label e =>
               let label := default "" (label e) in
               if PyStr.nonempty label
               then <[label := uuid e]> odk_by_label
               else odk_by_label)
            odk_entities ∅.

(** The state of the loop "Match and update": the store, the counters, the
    list [no_match], and the calls made to [update_pg_entity_id] (the ones
    that raised included). *)
Record loop_state := {
  store_now : list location;
  updated : nat;
  already_match : nat;
  no_match : list string;
  updates : list (string * string)
}.

(** The body of the loop.  A call that raises (the connection, the
    statement or the commit failing) leaves the store and the counter
    [updated] as they were: the exception is caught and printed, and the
    row is counted nowhere. *)
Definition match_one (db : database) (odk_by_label : gmap string string)
    (st : loop_state) (loc : pg_location) : loop_state :=
  match odk_by_label !! nama loc with
  | Some odk_uuid =>
      if bool_decide (current_entity_id loc = Some odk_uuid)
      then {| store_now := store_now st; updated := updated st;
              already_match := S (already_match st);
              no_match := no_match st; updates := updates st |}
      else
        let n := length (updates st) in
        if raises db n
        then {| store_now := store_now st; updated := updated st;
                already_match := already_match st;
                no_match := no_match st;
                updates := updates st ++ [(id loc, odk_uuid)] |}
        else {| store_now :=
                  update_pg_entity_id (clock db n) (id loc) odk_uuid
                    (store_now st);
                updated := S (updated st);
                already_match := already_match st;
                no_match := no_match st;
                updates := updates st ++ [(id loc, odk_uuid)] |}
  | None =>
      {| store_now := store_now st; updated := updated st;
         already_match := already_match st;
         no_match := no_match st ++ [nama loc]; updates := updates st |}
  end.

Definition initial_state (store : list location) : loop_state :=
  {| store_now := store; updated := 0; already_match := 0;
     no_match := []; updates := [] |}.

(** The loop over [pg_locations]. *)
Definition match_all (db : database) (odk_by_label : gmap string string)
    (pg_locations : list pg_location) (st : loop_state) : loop_state :=
  fold_left (match_one db odk_by_label) pg_locations st.

(** [main()], from the fetched entities and the store it starts on. *)
Definition main (db : database) (odk_entities : list entity)
    (store : list location) : loop_state :=
  let odk_by_label := build_odk_by_label odk_entities in
  let pg_locations := get_pg_locations db store in
  match_all db odk_by_label pg_locations (initial_state store).

(** A row after the calls [calls] to [update_pg_entity_id], of which the
    first is the n-th call of the run. *)
Fixpoint row_after (db : database) (n : nat) (calls : list (string * string))
    (l : location) : location :=
  match calls with
  | [] => l
  | call :: calls' =>
      row_after db (S n) calls'
        (if raises db n then l
         else if String.eqb (loc_id l) (fst call)
              then set_entity_id (clock db n) (snd call) l
              else l)
  end.

(** What a run may not change in a row: the key, the name, the deletion
    mark, whether [raw_data] is NULL, and the members of [raw_data] other
    than [_entity_id]. *)
Definition keeps_columns (l l' : location) : Prop :=
  loc_id l' = loc_id l
  /\ loc_nama l' = loc_nama l
  /\ deleted l' = deleted l
  /\ (raw_data l' = None <-> raw_data l = None)
  /\ forall k, k <> "_entity_id" ->
       (raw_data l' ≫= fun object => object !! k)
       = (raw_data l ≫= fun object => object !! k).

(** The number of calls, among the first [n] of a run, that do not raise. *)
Definition calls_done (db : database) (n : nat) : nat :=
  length (List.filter (fun i => negb (raises db i)) (seq 0 n)).

End sync_entity_uuids.

(** ** scripts/update_odk_entities.py *)

Module update_odk_entities.

(** The cleaning loop of [get_pg_data_via_docker]: [None] becomes the
    empty string and every other value its [str]. *)
Definition clean_value (v : pyval) : pyval :=
  match v with
  | PNone => PStr ""
  | _ => PStr (Py.str v)
  end.

(** One parsed line of the query's output: [entity_id] is popped, and the
    rest is stored, cleaned, when the identifier is a non-empty text. *)
Definition add_row (data : gmap string (gmap string pyval))
    (row : gmap string pyval) : gmap string (gmap string pyval) :=
  match row !! "entity_id" with
  | Some (PStr entity_id) =>
      if PyStr.nonempty entity_id
      then <[entity_id := clean_value <$> delete "entity_id" row]> data
      else data
  | _ => data
  end.

(** [get_pg_data_via_docker()], from the parsed lines. *)
Definition get_pg_data_via_docker (rows : list (gmap string pyval))
    : gmap string (gmap string pyval) :=
  fold_left add_row rows ∅.

(** [get_entity_version(session, entity_uuid)] *)
Definition get_entity_version (P : platform) (srv : server P)
    (entity_uuid : string) : Z * server P :=
  let '(response, srv) := http_get P srv entity_uuid in
  (if (get_status response =? 200)%Z
   then match currentVersion (get_json response) with
        | Some cv => default 1%Z (cv_version cv)
        | None => 1%Z
        end
   else 1%Z,
   srv).

(** [update_entity(session, entity_uuid, label, data, base_version)] *)
Definition update_entity (P : platform) (srv : server P)
    (entity_uuid : string) (label : pyval) (data : gmap string pyval)
    (base_version : Z) : (bool * option string) * patch_request * server P :=
  let request :=
    {| req_uuid := entity_uuid; req_label := label;
       req_data := data; req_base_version := base_version |} in
  let '(response, srv) := http_patch P srv request in
  (update_entity_result response, request, srv).

Inductive entity_result :=
  | No_pg_data
  | Already_complete
  | Updated
  | Error (error : option string).

(** Lines 266-272: some field is empty on the platform and not in the
    relational store. *)
Definition has_missing_field (current_data loc_data : gmap string pyval) : bool :=
  existsb (fun '(key, pg_value) =>
             let odk_value := Py.get current_data key (PStr "") in
             negb (Py.truthy odk_value) && Py.truthy pg_value)
          (map_to_list loc_data).

(** The value of [entity.get('label')]. *)
Definition label_value (e : entity) : pyval :=
  match label e with Some s => PStr s | None => PNone end.

(** The body of the loop "Update entities" of [main]. *)
Definition sync_one (P : platform)
    (pg_data : gmap string (gmap string pyval))
    (srv : server P) (e : entity)
    : entity_result * list http_call * server P :=
  let entity_uuid := uuid e in
  let current_data := default ∅ (data e) in
  match pg_data !! entity_uuid with
  | None => (No_pg_data, [], srv)
  | Some loc_data =>
      let label := Py.get loc_data "nama_posko" (PStr "") in
      if negb (Py.truthy label) then (No_pg_data, [], srv)
      else
        let needs_update :=
          has_missing_field current_data loc_data
          || negb (Py.eqb (label_value e) label) in
        if negb needs_update then (Already_complete, [], srv)
        else
          let '(base_version, srv) := get_entity_version P srv entity_uuid in
          let '(result, request, srv) :=
            update_entity P srv entity_uuid label loc_data base_version in
          match result with
          | (true, _) => (Updated, [GET entity_uuid; PATCH request], srv)
          | (false, error) =>
              (Error error, [GET entity_uuid; PATCH request], srv)
          end
  end.

(** The counters of the summary, and the calls made so far. *)
Record run_state (P : platform) := {
  srv_now : server P;
  n_updated : nat;
  n_skipped : nat;
  n_errors : nat;
  n_no_pg_data : nat;
  calls : list http_call
}.
Arguments srv_now {P}. Arguments n_updated {P}. Arguments n_skipped {P}.
Arguments n_errors {P}. Arguments n_no_pg_data {P}. Arguments calls {P}.

Definition step (P : platform) (pg_data : gmap string (gmap string pyval))
    (st : run_state P) (e : entity) : run_state P :=
  let '(result, made, srv) := sync_one P pg_data (srv_now st) e in
  {| srv_now := srv;
     n_updated := match result with Updated => S (n_updated st) | _ => n_updated st end;
     n_skipped := match result with Already_complete => S (n_skipped st) | _ => n_skipped st end;
     n_errors := match result with Error _ => S (n_errors st) | _ => n_errors st end;
     n_no_pg_data := match result with No_pg_data => S (n_no_pg_data st) | _ => n_no_pg_data st end;
     calls := calls st ++ made |}.

(** [main()], from the fetched entities and the parsed rows. *)
Definition main (P : platform) (srv : server P)
    (odk_entities : list entity) (rows : list (gmap string pyval))
    : run_state P :=
  let pg_data := get_pg_data_via_docker rows in
  fold_left (step P pg_data) odk_entities
    {| srv_now := srv; n_updated := 0; n_skipped := 0; n_errors := 0;
       n_no_pg_data := 0; calls := [] |}.

End update_odk_entities.

(** ** Canonical forms of names *)

Module Canonical.
Import PyStr lookup_kecamatan_from_desa.

(** A lower-case word character: [a-z0-9_]. *)
Definition is_name_char (c : ascii) : bool :=
  is_lower c || is_digit c || (code c =? 95)%nat.

(** Words of such characters separated by single blanks; [prev_blank]
    tells whether a blank (or the start of the string) precedes [s]. *)
Fixpoint spaced_words_from (prev_blank : bool) (s : string) : bool :=
  match s with
  | EmptyString => negb prev_blank
  | String c t =>
      if Ascii.eqb c " "
      then negb prev_blank && spaced_words_from true t
      else is_name_char c && spaced_words_from false t
  end.

(** The canonical form of [normalize_name]: empty, or single-spaced
    lower-case words on which the prefix pattern does not match. *)
Definition canonical_name (s : string) : bool :=
  match s with
  | EmptyString => true
  | _ =>
      spaced_words_from true s
      && match first_match prefix_alternatives s with
         | Some _ => false
         | None => true
         end
  end.

Fixpoint all_chars (p : ascii -> bool) (s : string) : bool :=
  match s with
  | EmptyString => true
  | String c t => p c && all_chars p t
  end.

(** [a b] occurs in [s]. *)
Fixpoint has_pair (a b : ascii) (s : string) : bool :=
  match s with
  | EmptyString => false
  | String c t =>
      match t with
      | EmptyString => false
      | String d _ => (Ascii.eqb c a && Ascii.eqb d b) || has_pair a b t
      end
  end.

(** The canonical form of [normalize_for_fuzzy]: lower-case word
    characters only, with none of the old-spelling digraphs left. *)
Definition canonical_fuzzy (s : string) : bool :=
  all_chars is_name_char s
  && negb (has_pair "o" "e" s)
  && negb (has_pair "d" "j" s)
  && negb (has_pair "t" "j" s).

(** A name without punctuation: word characters and white space only. *)
Definition no_punctuation (s : string) : bool :=
  all_chars (fun c => is_word c || is_space c) s.

(** Lower-case, and a word character or white space: what is left of a
    character of a name without punctuation once it is lower-cased. *)
Definition plain_char (c : ascii) : bool :=
  negb (is_upper c) && (is_word c || is_space c).

Definition head_not_space (s : string) : bool :=
  match s with
  | EmptyString => true
  | String c _ => negb (is_space c)
  end.

End Canonical.

(** ** Concrete inputs *)

Module Examples.
Import update_faskes_kecamatan_desa.

Definition aceh_backbone : backbone :=
  {| provinsi_csv :=
       [ {| prov_kode := "11"; prov_nama := "ACEH" |};
         {| prov_kode := "12"; prov_nama := "SUMATERA UTARA" |} ];
     kota_kab_csv :=
       [ {| kab_kode := "11.06"; kab_nama := "KAB. ACEH BESAR";
            kab_id_provinsi := "11" |} ];
     kecamatan_csv :=
       [ {| kec_kode := "11.06.15"; kec_nama := "KUTA BARO";
            kec_id_kota_kab := "11.06" |} ];
     desa_csv :=
       [ {| desa_kode := "11.06.15.2001"; desa_nama := "LAM ASAN";
            desa_id_kec := "11.06.15" |} ] |}.

Definition aceh_lookups : lookups := load_location_lookups aceh_backbone.

Definition faskes (provinsi kabupaten kecamatan desa : string) : faskes_row :=
  {| JENIS_FASYANKES := "Puskesmas"; NAMA := "Kuta Baro";
     PROVINSI := provinsi; KABUPATEN := kabupaten;
     KECAMATAN := kecamatan; DESA := desa |}.

(** No province given, the regency given. *)
Definition row_without_province : faskes_row :=
  faskes "" "Aceh Besar" "Kuta Baro" "Lam Asan".

(** The regency of one province under the name of another province. *)
Definition row_other_province : faskes_row :=
  faskes "Sumatera Utara" "Aceh Besar" "Kuta Baro" "Lam Asan".


Definition sel_without_province : selected :=
  look_up_ids aceh_lookups row_without_province.
Definition sel_other_province : selected :=
  look_up_ids aceh_lookups row_other_province.

(** Scenario 3 of the specification. *)
Definition posko_blang : entity :=
  {| uuid := "A1"; label := Some "Posko Blang";
     currentVersion := Some {| cv_version := Some 3%Z;
                               cv_label := Some "Posko Blang" |};
     data := Some {[ "jumlah_kk" := PStr "12" ]} |}.

Definition posko_store : list sync_entity_uuids.location :=
  [ {| sync_entity_uuids.loc_id := "loc-1";
       sync_entity_uuids.loc_nama := "Posko Blang";
       sync_entity_uuids.raw_data := Some ∅;
       sync_entity_uuids.deleted := false;
       sync_entity_uuids.updated_at := 0 |};
    {| sync_entity_uuids.loc_id := "loc-2";
       sync_entity_uuids.loc_nama := "Posko Lama";
       sync_entity_uuids.raw_data := Some {[ "_entity_id" := PStr "B7" ]};
       sync_entity_uuids.deleted := true;
       sync_entity_uuids.updated_at := 0 |};
    {| sync_entity_uuids.loc_id := "loc-3";
       sync_entity_uuids.loc_nama := "Posko Tanpa Entitas";
       sync_entity_uuids.raw_data := Some ∅;
       sync_entity_uuids.deleted := false;
       sync_entity_uuids.updated_at := 0 |} ].

(** A store that answers every call, returns the rows in the order of the
    list, and whose clock advances with each call. *)
Definition steady_db : sync_entity_uuids.database :=
  {| sync_entity_uuids.scan := fun rows => rows;
     sync_entity_uuids.scan_permutation := fun rows => Permutation_refl rows;
     sync_entity_uuids.raises := fun _ => false;
     sync_entity_uuids.clock := fun n => (1000 + Z.of_nat n)%Z |}.

(** A location whose column [raw_data] is NULL. *)
Definition posko_without_raw_data : list sync_entity_uuids.location :=
  [ {| sync_entity_uuids.loc_id := "loc-1";
       sync_entity_uuids.loc_nama := "Posko Blang";
       sync_entity_uuids.raw_data := None;
       sync_entity_uuids.deleted := false;
       sync_entity_uuids.updated_at := 0 |} ].

(** The line of the query's output for the location of scenario 3. *)
Definition posko_rows : list (gmap string pyval) :=
  [ {[ "entity_id" := PStr "A1"; "nama_posko" := PStr "Posko Blang";
       "jumlah_kk" := PStr "20"; "kk_anak" := PStr "5";
       "kk_perempuan" := PNone ]} ].

(** The same location once the platform holds all its fields. *)
Definition posko_blang_complete : entity :=
  {| uuid := "A1"; label := Some "Posko Blang";
     currentVersion := Some {| cv_version := Some 4%Z;
                               cv_label := Some "Posko Blang" |};
     data := Some {[ "jumlah_kk" := PStr "12"; "kk_anak" := PStr "5";
                     "nama_posko" := PStr "Posko Blang" ]} |}.

Definition entity_at (version : Z) : entity :=
  {| uuid := "A1"; label := Some "Posko Blang";
     currentVersion := Some {| cv_version := Some version;
                               cv_label := Some "Posko Blang" |};
     data := Some {[ "jumlah_kk" := PStr "12" ]} |}.

Definition answer (version : Z) (request : patch_request) : patch_response * Z :=
  if (req_base_version request =? version)%Z
  then ({| status_code := 200; text := "{}" |}, (version + 1)%Z)
  else ({| status_code := 409; text := "version conflict" |}, version).

(** A platform that holds one entity, whose state is the version of that
    entity: an update is accepted when it names the current version. *)
Definition quiet_platform : platform :=
  {| server := Z;
     http_get := fun version _ =>
       ({| get_status := 200; get_json := entity_at version |}, version);
     http_patch := answer |}.

(** The same platform with another actor that updates the entity right
    after each read. *)
Definition busy_platform : platform :=
  {| server := Z;
     http_get := fun version _ =>
       ({| get_status := 200; get_json := entity_at version |},
        (version + 1)%Z);
     http_patch := answer |}.

(** A platform out of service. *)
Definition failing_platform : platform :=
  {| server := unit;
     http_get := fun _ _ =>
       ({| get_status := 503; get_json := entity_at 1 |}, tt);
     http_patch := fun _ _ =>
       ({| status_code := 503; text := "unavailable" |}, tt) |}.

Definition posko_data : gmap string (gmap string pyval) :=
  update_odk_entities.get_pg_data_via_docker posko_rows.

Definition posko_request (base_version : Z) : patch_request :=
  {| req_uuid := "A1"; req_label := PStr "Posko Blang";
     req_data := {[ "nama_posko" := PStr "Posko Blang";
                    "jumlah_kk" := PStr "20"; "kk_anak" := PStr "5";
                    "kk_perempuan" := PStr "" ]};
     req_base_version := base_version |}.

(** A facility entity as the platform lists it, and the table of the
    facility file with its row. *)
Definition puskesmas_entity : entity :=
  {| uuid := "F1"; label := None;
     currentVersion := Some {| cv_version := Some 2%Z;
                               cv_label := Some "Puskesmas Kuta Baro" |};
     data := Some {[ "nama_faskes" := PStr "Puskesmas Kuta Baro" ]} |}.

Definition puskesmas_table : gmap string (gmap string string) :=
  load_faskes_data aceh_lookups [row_other_province].

End Examples.

(** * Properties *)

Import PyStr lookup_kecamatan_from_desa Canonical.

(** ** Name normalizer *)

Section NameChars.

Lemma name_char_not_space c : is_name_char c = true -> is_space c = false.
Proof. destruct c as [[] [] [] [] [] [] [] []]; vm_compute; congruence. Qed.

Lemma name_char_not_upper c : is_name_char c = true -> is_upper c = false.
Proof. destruct c as [[] [] [] [] [] [] [] []]; vm_compute; congruence. Qed.

Lemma name_char_is_word c : is_name_char c = true -> is_word c = true.
Proof. destruct c as [[] [] [] [] [] [] [] []]; vm_compute; congruence. Qed.

Lemma name_char_not_blank c : is_name_char c = true -> Ascii.eqb c " " = false.
Proof. destruct c as [[] [] [] [] [] [] [] []]; vm_compute; congruence. Qed.

Lemma name_char_lower c : is_name_char c = true -> lower_char c = c.
Proof.
  intros H. unfold lower_char. now rewrite (name_char_not_upper c H).
Qed.

End NameChars.

Section SpacedWords.

Lemma spaced_words_lower b s : spaced_words_from b s = true -> lower s = s.
Proof.
  revert b. induction s as [|c t IH]; intros b H; [reflexivity|].
  simpl in H. unfold lower in *. simpl.
  destruct (Ascii.eqb c " ") eqn:Ec.
  - apply Ascii.eqb_eq in Ec. subst c.
    apply andb_true_iff in H as [_ H]. now rewrite (IH _ H).
  - apply andb_true_iff in H as [Hc H].
    now rewrite (name_char_lower c Hc), (IH _ H).
Qed.

Lemma spaced_words_rstrip b s : spaced_words_from b s = true -> rstrip s = s.
Proof.
  revert b. induction s as [|c t IH]; intros b H; [reflexivity|].
  simpl in H. simpl.
  destruct (Ascii.eqb c " ") eqn:Ec.
  - apply andb_true_iff in H as [_ H]. rewrite (IH _ H).
    destruct t; [discriminate H | reflexivity].
  - apply andb_true_iff in H as [Hc H]. rewrite (IH _ H).
    destruct t; [|reflexivity]. now rewrite (name_char_not_space c Hc).
Qed.

Lemma spaced_words_lstrip s : spaced_words_from true s = true -> lstrip s = s.
Proof.
  destruct s as [|c t]; [reflexivity|]. simpl.
  destruct (Ascii.eqb c " ") eqn:Ec; [discriminate|].
  intros H. apply andb_true_iff in H as [Hc _].
  now rewrite (name_char_not_space c Hc).
Qed.

Lemma spaced_words_sub_spaces b s :
  spaced_words_from b s = true ->
  forall in_run, (in_run = true -> b = true) -> sub_spaces_from in_run s = s.
Proof.
  revert b. induction s as [|c t IH]; intros b H in_run Hrun; [reflexivity|].
  simpl in H. simpl.
  destruct (Ascii.eqb c " ") eqn:Ec.
  - apply Ascii.eqb_eq in Ec. subst c.
    apply andb_true_iff in H as [Hb H].
    destruct in_run.
    + rewrite Hrun in Hb by reflexivity. discriminate.
    + change (is_space " ") with true. cbn iota.
      now rewrite (IH _ H true).
  - apply andb_true_iff in H as [Hc H].
    rewrite (name_char_not_space c Hc).
    rewrite (IH _ H false); [reflexivity | discriminate].
Qed.

Lemma spaced_words_sub_punct b s :
  spaced_words_from b s = true -> sub_punct s = s.
Proof.
  revert b. induction s as [|c t IH]; intros b H; [reflexivity|].
  simpl in H. unfold sub_punct in *. simpl.
  destruct (Ascii.eqb c " ") eqn:Ec.
  - apply Ascii.eqb_eq in Ec. subst c.
    apply andb_true_iff in H as [_ H].
    change (is_word " " || is_space " ") with true. cbn iota.
    now rewrite (IH _ H).
  - apply andb_true_iff in H as [Hc H].
    rewrite (name_char_is_word c Hc). simpl. now rewrite (IH _ H).
Qed.

(** A canonical name is a fixed point of [normalize_name]. *)
Lemma canonical_name_fixed s :
  canonical_name s = true -> normalize_name (Some s) = s.
Proof.
  destruct s as [|c t]; [reflexivity|].
  unfold canonical_name. intros H.
  apply andb_true_iff in H as [Hw Hp].
  unfold normalize_name. cbn [nonempty].
  rewrite (spaced_words_lower _ _ Hw).
  unfold strip. rewrite (spaced_words_rstrip _ _ Hw), (spaced_words_lstrip _ Hw).
  unfold sub_prefix.
  destruct (first_match prefix_alternatives (String c t)); [discriminate|].
  unfold sub_spaces.
  rewrite (spaced_words_sub_spaces _ _ Hw false); [|discriminate].
  apply (spaced_words_sub_punct _ _ Hw).
Qed.

End SpacedWords.

Section CharInvariants.

Lemma all_chars_impl (P Q : ascii -> bool) s :
  (forall c, P c = true -> Q c = true) ->
  all_chars P s = true -> all_chars Q s = true.
Proof.
  intros HPQ. induction s as [|c t IH]; simpl; [easy|].
  intros H. apply andb_true_iff in H as [Hc Ht].
  now rewrite (HPQ c Hc), (IH Ht).
Qed.

Lemma all_chars_map (P : ascii -> bool) f s :
  (forall c, P (f c) = true) -> all_chars P (map_chars f s) = true.
Proof.
  intros Hf. induction s as [|c t IH]; simpl; [easy|]. now rewrite Hf, IH.
Qed.

Lemma all_chars_map_from (P Q : ascii -> bool) f s :
  (forall c, P c = true -> Q (f c) = true) ->
  all_chars P s = true -> all_chars Q (map_chars f s) = true.
Proof.
  intros Hf. induction s as [|c t IH]; simpl; [easy|].
  intros H. apply andb_true_iff in H as [Hc Ht].
  now rewrite (Hf c Hc), (IH Ht).
Qed.

Lemma all_chars_filter (P keep : ascii -> bool) s :
  all_chars P s = true ->
  all_chars (fun c => P c && keep c) (filter_chars keep s) = true.
Proof.
  induction s as [|c t IH]; simpl; [easy|].
  intros H. apply andb_true_iff in H as [Hc Ht].
  destruct (keep c) eqn:Ek; simpl; [|auto].
  now rewrite Hc, Ek, (IH Ht).
Qed.

Lemma all_chars_lstrip (P : ascii -> bool) s :
  all_chars P s = true -> all_chars P (lstrip s) = true.
Proof.
  induction s as [|c t IH]; simpl; [easy|].
  intros H. destruct (is_space c); [|exact H].
  apply andb_true_iff in H as [_ Ht]. auto.
Qed.

Lemma all_chars_rstrip (P : ascii -> bool) s :
  all_chars P s = true -> all_chars P (rstrip s) = true.
Proof.
  induction s as [|c t IH]; simpl; [easy|].
  intros H. apply andb_true_iff in H as [Hc Ht]. specialize (IH Ht).
  destruct (rstrip t) as [|d r].
  - destruct (is_space c); simpl; [easy|]. now rewrite Hc.
  - cbn [all_chars]. rewrite Hc. exact IH.
Qed.

Lemma all_chars_after_literal (P : ascii -> bool) p s rest :
  after_literal p s = Some rest ->
  all_chars P s = true -> all_chars P rest = true.
Proof.
  revert s. induction p as [|a p IH]; intros s; simpl.
  - intros [= <-]. easy.
  - destruct s as [|b s]; [discriminate|].
    destruct (Ascii.eqb a b); [|discriminate].
    intros Hr H. simpl in H. apply andb_true_iff in H as [_ Ht]. eauto.
Qed.

Lemma all_chars_first_match (P : ascii -> bool) alts s rest :
  first_match alts s = Some rest ->
  all_chars P s = true -> all_chars P rest = true.
Proof.
  induction alts as [|p alts IH]; simpl; [discriminate|].
  unfold try_alternative.
  destruct (after_literal p s) as [r0|] eqn:El; [|exact IH].
  destruct (after_spaces r0) as [r1|] eqn:Es; [|exact IH].
  intros [= <-] H.
  pose proof (all_chars_after_literal P _ _ _ El H) as H0.
  destruct r0 as [|c t]; [discriminate|]. simpl in Es.
  destruct (is_space c); [|discriminate]. injection Es as <-.
  simpl in H0. apply andb_true_iff in H0 as [_ Ht].
  now apply all_chars_lstrip.
Qed.

Lemma all_chars_sub_prefix (P : ascii -> bool) s :
  all_chars P s = true -> all_chars P (sub_prefix s) = true.
Proof.
  intros H. unfold sub_prefix.
  destruct (first_match prefix_alternatives s) eqn:E; [|exact H].
  exact (all_chars_first_match P _ _ _ E H).
Qed.

Lemma all_chars_sub_spaces (P : ascii -> bool) in_run s :
  P " "%char = true ->
  all_chars P s = true ->
  all_chars (fun c => P c && (Ascii.eqb c " " || negb (is_space c)))
            (sub_spaces_from in_run s) = true.
Proof.
  intros Hb. revert in_run. induction s as [|c t IH]; intros in_run; simpl; [easy|].
  intros H. apply andb_true_iff in H as [Hc Ht].
  destruct (is_space c) eqn:Es.
  - destruct in_run; [auto|]. cbn [all_chars]. rewrite Hb. simpl. auto.
  - cbn [all_chars]. rewrite Hc, Es, orb_true_r. simpl. auto.
Qed.

(** Induction two characters at a time, as [replace_pair] recurses. *)
Lemma string_pair_ind (Q : string -> Prop) :
  Q EmptyString ->
  (forall c, Q (String c EmptyString)) ->
  (forall c d u, Q u -> Q (String d u) -> Q (String c (String d u))) ->
  forall s, Q s.
Proof.
  intros H0 H1 H2 s.
  enough (Q s /\ forall c, Q (String c s)) by tauto.
  induction s as [|d u [IHu IHc]]; split; auto.
Qed.

Lemma all_chars_app (P : ascii -> bool) s t :
  all_chars P (s ++ t) = all_chars P s && all_chars P t.
Proof.
  induction s as [|c s IH]; simpl; [reflexivity|].
  now rewrite IH, andb_assoc.
Qed.

Lemma replace_pair_cons a b new c d u :
  replace_pair a b new (String c (String d u)) =
  if Ascii.eqb c a && Ascii.eqb d b
  then String.append new (replace_pair a b new u)
  else String c (replace_pair a b new (String d u)).
Proof. reflexivity. Qed.

Lemma append_single r t : String.append (String r EmptyString) t = String r t.
Proof. reflexivity. Qed.

Lemma all_chars_replace_pair (P : ascii -> bool) a b new s :
  all_chars P new = true ->
  all_chars P s = true -> all_chars P (replace_pair a b new s) = true.
Proof.
  intros Hn. induction s as [|c|c d u IHu IHd] using string_pair_ind; auto.
  intros H. rewrite replace_pair_cons.
  destruct (Ascii.eqb c a && Ascii.eqb d b).
  - rewrite all_chars_app, Hn. simpl. apply IHu.
    simpl in H. apply andb_true_iff in H as [_ H].
    now apply andb_true_iff in H as [_ H].
  - cbn [all_chars] in *. apply andb_true_iff in H as [Hc H].
    rewrite Hc. simpl. now apply IHd.
Qed.

(** The first character left by a replacement is the original one or
    the inserted one. *)
Lemma replace_pair_head a b r d u :
  exists t, replace_pair a b (String r EmptyString) (String d u) = String d t
         \/ replace_pair a b (String r EmptyString) (String d u) = String r t.
Proof.
  destruct u as [|e v]; [simpl; eauto|]. rewrite replace_pair_cons.
  destruct (Ascii.eqb d a && Ascii.eqb e b); simpl; eauto.
Qed.

Lemma has_pair_cons x y c s :
  has_pair x y (String c s) =
  match s with
  | EmptyString => false
  | String d _ => (Ascii.eqb c x && Ascii.eqb d y) || has_pair x y s
  end.
Proof. reflexivity. Qed.

(** A replacement by a character other than [x] and [y] creates no new
    occurrence of [x y]. *)
Lemma has_pair_replace_pair x y a b r s :
  Ascii.eqb r x = false -> Ascii.eqb r y = false ->
  has_pair x y s = false ->
  has_pair x y (replace_pair a b (String r EmptyString) s) = false.
Proof.
  intros Hrx Hry.
  induction s as [|c|c d u IHu IHd] using string_pair_ind; auto.
  intros H. rewrite has_pair_cons in H.
  apply orb_false_iff in H as [Hcd Hd].
  rewrite replace_pair_cons.
  destruct (Ascii.eqb c a && Ascii.eqb d b) eqn:E.
  - rewrite append_single, has_pair_cons.
    assert (Hu : has_pair x y u = false).
    { rewrite has_pair_cons in Hd. destruct u; [reflexivity|].
      now apply orb_false_iff in Hd as [_ Hd]. }
    destruct (replace_pair a b (String r "") u); [reflexivity|].
    rewrite Hrx. simpl. now apply IHu.
  - rewrite has_pair_cons.
    specialize (IHd Hd).
    destruct (replace_pair_head a b r d u) as [t [Ht|Ht]]; rewrite Ht in *.
    + rewrite Hcd. simpl. exact IHd.
    + rewrite Hry, andb_false_r. simpl. exact IHd.
Qed.

(** After the replacement of [a b] by another character, with [a] and [b]
    distinct, no occurrence of [a b] is left. *)
Lemma has_pair_replaced a b r s :
  Ascii.eqb r a = false -> Ascii.eqb r b = false ->
  has_pair a b (replace_pair a b (String r EmptyString) s) = false.
Proof.
  intros Hra Hrb.
  induction s as [|c|c d u IHu IHd] using string_pair_ind; auto.
  rewrite replace_pair_cons.
  destruct (Ascii.eqb c a && Ascii.eqb d b) eqn:E.
  - rewrite append_single, has_pair_cons.
    destruct (replace_pair a b (String r "") u); [reflexivity|].
    rewrite Hra. simpl. exact IHu.
  - rewrite has_pair_cons.
    destruct (replace_pair_head a b r d u) as [t [Ht|Ht]]; rewrite Ht in *.
    + rewrite E. simpl. exact IHd.
    + rewrite Hrb, andb_false_r. simpl. exact IHd.
Qed.

Lemma replace_pair_absent a b new s :
  has_pair a b s = false -> replace_pair a b new s = s.
Proof.
  induction s as [|c|c d u IHu IHd] using string_pair_ind; auto.
  intros H. rewrite has_pair_cons in H.
  apply orb_false_iff in H as [Hcd Hd].
  rewrite replace_pair_cons, Hcd. now rewrite (IHd Hd).
Qed.

End CharInvariants.

Section NormalizedShape.

Lemma plain_char_name c :
  plain_char c = true -> is_space c = false -> is_name_char c = true.
Proof. destruct c as [[] [] [] [] [] [] [] []]; vm_compute; congruence. Qed.

Lemma plain_char_lower c :
  is_word c || is_space c = true -> plain_char (lower_char c) = true.
Proof. destruct c as [[] [] [] [] [] [] [] []]; vm_compute; congruence. Qed.

Lemma lower_char_not_upper c : negb (is_upper (lower_char c)) = true.
Proof. destruct c as [[] [] [] [] [] [] [] []]; vm_compute; congruence. Qed.

Lemma blank_is_space c : Ascii.eqb c " " = true -> is_space c = true.
Proof. intros H. apply Ascii.eqb_eq in H. now subst c. Qed.

Lemma lstrip_head s : head_not_space (lstrip s) = true.
Proof.
  induction s as [|c t IH]; simpl; [reflexivity|].
  destruct (is_space c) eqn:E; [exact IH|]. simpl. now rewrite E.
Qed.

Lemma rstrip_fixed_tail c t :
  rstrip (String c t) = String c t -> rstrip t = t.
Proof.
  simpl. destruct (rstrip t) as [|d r] eqn:E.
  - destruct (is_space c); [discriminate|]. now intros [= <-].
  - now intros [= <-].
Qed.

Lemma rstrip_idem s : rstrip (rstrip s) = rstrip s.
Proof.
  induction s as [|c t IH]; [reflexivity|]. simpl.
  destruct (rstrip t) as [|d r] eqn:E.
  - destruct (is_space c) eqn:Ec; [reflexivity|]. simpl. now rewrite Ec.
  - change (rstrip (String c (String d r))) with
      (match rstrip (String d r) with
       | EmptyString => if is_space c then EmptyString else String c EmptyString
       | r' => String c r'
       end).
    now rewrite IH.
Qed.

Lemma rstrip_fixed_lstrip s : rstrip s = s -> rstrip (lstrip s) = lstrip s.
Proof.
  induction s as [|c t IH]; [reflexivity|].
  intros H. cbn [lstrip]. destruct (is_space c); [|exact H].
  apply IH. exact (rstrip_fixed_tail _ _ H).
Qed.

Lemma rstrip_fixed_after_literal p s rest :
  after_literal p s = Some rest -> rstrip s = s -> rstrip rest = rest.
Proof.
  revert s. induction p as [|a p IH]; intros s; simpl.
  - now intros [= <-].
  - destruct s as [|b s]; [discriminate|].
    destruct (Ascii.eqb a b); [|discriminate].
    intros Hr H. apply (IH _ Hr). exact (rstrip_fixed_tail _ _ H).
Qed.

Lemma first_match_shape alts s rest :
  first_match alts s = Some rest ->
  rstrip s = s -> rstrip rest = rest /\ head_not_space rest = true.
Proof.
  induction alts as [|p alts IH]; simpl; [discriminate|].
  unfold try_alternative.
  destruct (after_literal p s) as [r0|] eqn:El; [|exact IH].
  destruct (after_spaces r0) as [r1|] eqn:Es; [|exact IH].
  intros [= <-] H.
  pose proof (rstrip_fixed_after_literal _ _ _ El H) as H0.
  destruct r0 as [|c t]; [discriminate|]. simpl in Es.
  destruct (is_space c); [|discriminate]. injection Es as <-.
  split; [|apply lstrip_head].
  apply rstrip_fixed_lstrip. exact (rstrip_fixed_tail _ _ H0).
Qed.

Lemma sub_prefix_shape s :
  rstrip s = s -> head_not_space s = true ->
  rstrip (sub_prefix s) = sub_prefix s /\ head_not_space (sub_prefix s) = true.
Proof.
  intros H Hh. unfold sub_prefix.
  destruct (first_match prefix_alternatives s) eqn:E; [|auto].
  exact (first_match_shape _ _ _ E H).
Qed.

Lemma strip_shape s :
  rstrip (strip s) = strip s /\ head_not_space (strip s) = true.
Proof.
  unfold strip. split; [|apply lstrip_head].
  apply rstrip_fixed_lstrip, rstrip_idem.
Qed.

(** Collapsing the white space of a plain string that does not end in
    white space leaves single-spaced words. *)
Lemma sub_spaces_spaced s :
  all_chars plain_char s = true -> rstrip s = s ->
  forall r, (r = true -> s <> EmptyString) ->
  spaced_words_from r (sub_spaces_from r s) = true.
Proof.
  induction s as [|c t IH]; intros Hp Hr r Hne.
  - destruct r; [now exfalso; apply Hne|reflexivity].
  - simpl in Hp. apply andb_true_iff in Hp as [Hc Hp].
    pose proof (rstrip_fixed_tail _ _ Hr) as Ht.
    cbn [sub_spaces_from]. destruct (is_space c) eqn:Es.
    + assert (Hnt : t <> EmptyString).
      { intros ->. simpl in Hr. rewrite Es in Hr. discriminate. }
      destruct r.
      * apply IH; auto.
      * cbn [spaced_words_from]. change (Ascii.eqb " " " ") with true.
        cbn iota. simpl negb. rewrite andb_true_l. apply IH; auto.
    + cbn [spaced_words_from].
      destruct (Ascii.eqb c " ") eqn:Eb.
      { apply blank_is_space in Eb. congruence. }
      rewrite (plain_char_name c Hc Es). rewrite andb_true_l.
      apply IH; [exact Hp|exact Ht|discriminate].
Qed.

(** The normal form of a name without punctuation: empty, or
    single-spaced lower-case words. *)
Lemma normalize_name_spaced x :
  no_punctuation x = true ->
  normalize_name (Some x) = EmptyString
  \/ spaced_words_from true (normalize_name (Some x)) = true.
Proof.
  intros Hx. unfold normalize_name.
  destruct (nonempty x); [|now left].
  set (a := lower x).
  assert (Ha : all_chars plain_char a = true).
  { apply (all_chars_map_from _ _ _ _ plain_char_lower Hx). }
  set (b := strip a).
  assert (Hb : all_chars plain_char b = true).
  { unfold b, strip. now apply all_chars_lstrip, all_chars_rstrip. }
  destruct (strip_shape a) as [Hb1 Hb2]. fold b in Hb1, Hb2.
  set (c := sub_prefix b).
  assert (Hc : all_chars plain_char c = true) by now apply all_chars_sub_prefix.
  destruct (sub_prefix_shape b Hb1 Hb2) as [Hc1 Hc2]. fold c in Hc1, Hc2.
  clearbody c. clear Hb Hb1 Hb2 b Ha a Hx.
  assert (Hd : sub_spaces c = EmptyString
               \/ spaced_words_from true (sub_spaces c) = true).
  { destruct c as [|h t]; [now left|right].
    unfold sub_spaces. simpl in Hc2.
    apply negb_true_iff in Hc2.
    cbn [sub_spaces_from]. rewrite Hc2.
    cbn [spaced_words_from].
    simpl in Hc. apply andb_true_iff in Hc as [Hh Ht].
    destruct (Ascii.eqb h " ") eqn:Eb.
    { apply blank_is_space in Eb. congruence. }
    rewrite (plain_char_name h Hh Hc2), andb_true_l.
    apply sub_spaces_spaced; [exact Ht| |discriminate].
    exact (rstrip_fixed_tail _ _ Hc1). }
  destruct Hd as [Hd|Hd].
  - left. now rewrite Hd.
  - right. now rewrite (spaced_words_sub_punct _ _ Hd).
Qed.

End NormalizedShape.

Section FuzzyShape.

Lemma fuzzy_char_name c :
  negb (is_upper c) && (Ascii.eqb c " " || negb (is_space c))
  && (is_word c || is_space c) && negb (Ascii.eqb c " ") = true ->
  is_name_char c = true.
Proof. destruct c as [[] [] [] [] [] [] [] []]; vm_compute; congruence. Qed.

(** Once the blanks are removed, a normal form holds lower-case word
    characters only. *)
Lemma normalize_name_unspaced_chars s :
  all_chars is_name_char (remove_char " " (normalize_name (Some s))) = true.
Proof.
  unfold normalize_name. destruct (nonempty s); [|reflexivity].
  unfold remove_char, sub_punct, sub_spaces, strip.
  eapply all_chars_impl; [exact fuzzy_char_name|].
  apply all_chars_filter, all_chars_filter.
  apply (all_chars_sub_spaces (fun c => negb (is_upper c))); [reflexivity|].
  apply all_chars_sub_prefix, all_chars_lstrip, all_chars_rstrip.
  apply all_chars_map, lower_char_not_upper.
Qed.

Lemma fuzzy_chars x : all_chars is_name_char (normalize_for_fuzzy x) = true.
Proof.
  destruct x as [s|]; [|reflexivity]. unfold normalize_for_fuzzy.
  destruct (nonempty s) eqn:En; [|reflexivity]. cbv zeta.
  repeat (apply all_chars_replace_pair; [reflexivity|]).
  apply normalize_name_unspaced_chars.
Qed.

Lemma fuzzy_no_oe x : has_pair "o" "e" (normalize_for_fuzzy x) = false.
Proof.
  destruct x as [s|]; [|reflexivity]. unfold normalize_for_fuzzy.
  destruct (nonempty s); [|reflexivity]. cbv zeta.
  do 2 (apply has_pair_replace_pair; [reflexivity|reflexivity|]).
  apply has_pair_replaced; reflexivity.
Qed.

Lemma fuzzy_no_tj x : has_pair "t" "j" (normalize_for_fuzzy x) = false.
Proof.
  destruct x as [s|]; [|reflexivity]. unfold normalize_for_fuzzy.
  destruct (nonempty s); [|reflexivity]. cbv zeta.
  apply has_pair_replaced; reflexivity.
Qed.

Lemma name_chars_spaced s b :
  all_chars is_name_char s = true ->
  (b = true -> s <> EmptyString) ->
  spaced_words_from b s = true.
Proof.
  revert b. induction s as [|c t IH]; intros b H Hb.
  - destruct b; [now exfalso; apply Hb|reflexivity].
  - simpl in H. apply andb_true_iff in H as [Hc Ht].
    cbn [spaced_words_from]. rewrite (name_char_not_blank c Hc), Hc.
    apply IH; [exact Ht|discriminate].
Qed.

Lemma name_chars_no_match alts s :
  all_chars is_name_char s = true -> first_match alts s = None.
Proof.
  intros H. induction alts as [|p alts IH]; [reflexivity|].
  simpl. unfold try_alternative.
  destruct (after_literal p s) as [r0|] eqn:El; [|exact IH].
  pose proof (all_chars_after_literal _ _ _ _ El H) as H0.
  destruct r0 as [|c t]; [exact IH|].
  simpl in H0. apply andb_true_iff in H0 as [Hc _].
  simpl. now rewrite (name_char_not_space c Hc).
Qed.

Lemma name_chars_remove_blank s :
  all_chars is_name_char s = true -> remove_char " " s = s.
Proof.
  unfold remove_char. induction s as [|c t IH]; [reflexivity|].
  simpl. intros H. apply andb_true_iff in H as [Hc Ht].
  rewrite (name_char_not_blank c Hc). simpl. now rewrite (IH Ht).
Qed.

(** A canonical fuzzy key is a fixed point of [normalize_for_fuzzy]. *)
Lemma canonical_fuzzy_fixed s :
  canonical_fuzzy s = true -> normalize_for_fuzzy (Some s) = s.
Proof.
  unfold canonical_fuzzy. intros H.
  apply andb_true_iff in H as [H Htj].
  apply andb_true_iff in H as [H Hdj].
  apply andb_true_iff in H as [Hn Hoe].
  apply negb_true_iff in Htj, Hdj, Hoe.
  unfold normalize_for_fuzzy.
  destruct (nonempty s) eqn:En; [|now destruct s]. cbv zeta.
  rewrite canonical_name_fixed.
  - rewrite (name_chars_remove_blank _ Hn).
    rewrite (replace_pair_absent _ _ _ _ Hoe).
    rewrite (replace_pair_absent _ _ _ _ Hdj).
    exact (replace_pair_absent _ _ _ _ Htj).
  - destruct s as [|c t]; [discriminate|].
    unfold canonical_name.
    rewrite (name_chars_spaced _ true Hn) by discriminate.
    now rewrite (name_chars_no_match _ _ Hn).
Qed.

End FuzzyShape.

Section Shrinking.

Lemma filter_chars_length keep s :
  (String.length (filter_chars keep s) <= String.length s)%nat.
Proof.
  induction s as [|c t IH]; simpl; [lia|]. destruct (keep c); simpl; lia.
Qed.

Lemma sub_spaces_length in_run s :
  (String.length (sub_spaces_from in_run s) <= String.length s)%nat.
Proof.
  revert in_run. induction s as [|c t IH]; intros in_run; simpl; [lia|].
  pose proof (IH true). pose proof (IH false).
  destruct (is_space c); [destruct in_run|]; simpl; lia.
Qed.

Lemma lstrip_length s : (String.length (lstrip s) <= String.length s)%nat.
Proof.
  induction s as [|c t IH]; simpl; [lia|]. destruct (is_space c); simpl; lia.
Qed.

Lemma after_literal_length p s rest :
  after_literal p s = Some rest -> (String.length rest <= String.length s)%nat.
Proof.
  revert s. induction p as [|a p IH]; intros s; simpl.
  - intros [= <-]. lia.
  - destruct s as [|b s]; [discriminate|].
    destruct (Ascii.eqb a b); [|discriminate].
    intros H. apply IH in H. simpl. lia.
Qed.

(** A match of the prefix pattern takes at least its white space away. *)
Lemma first_match_length alts s rest :
  first_match alts s = Some rest -> (String.length rest < String.length s)%nat.
Proof.
  induction alts as [|p alts IH]; simpl; [discriminate|].
  unfold try_alternative.
  destruct (after_literal p s) as [r0|] eqn:El; [|exact IH].
  destruct (after_spaces r0) as [r1|] eqn:Es; [|exact IH].
  intros [= <-]. apply after_literal_length in El.
  destruct r0 as [|c t]; [discriminate|]. simpl in Es.
  destruct (is_space c); [|discriminate]. injection Es as <-.
  pose proof (lstrip_length t). simpl in El. lia.
Qed.

Lemma replace_pair_length a b r s :
  (String.length (replace_pair a b (String r EmptyString) s)
   <= String.length s)%nat.
Proof.
  induction s as [|c|c d u IHu IHd] using string_pair_ind; [simpl; lia..|].
  rewrite replace_pair_cons.
  destruct (Ascii.eqb c a && Ascii.eqb d b).
  - rewrite append_single. simpl in *. lia.
  - simpl in *. lia.
Qed.

(** Where the digraph occurs, its replacement makes the string shorter. *)
Lemma replace_pair_shorter a b r s :
  has_pair a b s = true ->
  (String.length (replace_pair a b (String r EmptyString) s)
   < String.length s)%nat.
Proof.
  induction s as [|c|c d u IHu IHd] using string_pair_ind; [discriminate..|].
  rewrite has_pair_cons, replace_pair_cons.
  destruct (Ascii.eqb c a && Ascii.eqb d b).
  - intros _. rewrite append_single.
    pose proof (replace_pair_length a b r u). simpl in *. lia.
  - cbn [orb]. intros H. apply IHd in H. simpl in *. lia.
Qed.

(** A single-spaced name on which the prefix pattern matches is made
    shorter by [normalize_name]. *)
Lemma spaced_prefixed_shorter s rest :
  spaced_words_from true s = true ->
  first_match prefix_alternatives s = Some rest ->
  (String.length (normalize_name (Some s)) < String.length s)%nat.
Proof.
  intros Hw Hm. unfold normalize_name.
  destruct s as [|c t]; [discriminate|]. cbn [nonempty].
  rewrite (spaced_words_lower _ _ Hw).
  unfold strip. rewrite (spaced_words_rstrip _ _ Hw), (spaced_words_lstrip _ Hw).
  unfold sub_prefix. rewrite Hm.
  apply first_match_length in Hm.
  unfold sub_punct, sub_spaces.
  pose proof (filter_chars_length (fun c => is_word c || is_space c)
                (sub_spaces_from false rest)).
  pose proof (sub_spaces_length false rest). lia.
Qed.

(** A fuzzy key that holds "dj" is made shorter by [normalize_for_fuzzy]. *)
Lemma fuzzy_dj_shorter x :
  has_pair "d" "j" (normalize_for_fuzzy x) = true ->
  (String.length (normalize_for_fuzzy (Some (normalize_for_fuzzy x)))
   < String.length (normalize_for_fuzzy x))%nat.
Proof.
  pose proof (fuzzy_chars x) as Hn. pose proof (fuzzy_no_oe x) as Hoe.
  set (y := normalize_for_fuzzy x) in *. intros Hdj.
  unfold normalize_for_fuzzy.
  destruct y as [|c t] eqn:Ey; [discriminate|]. rewrite <- Ey in *.
  assert (En : nonempty y = true) by now rewrite Ey.
  rewrite En. cbv zeta.
  rewrite canonical_name_fixed.
  - rewrite (name_chars_remove_blank _ Hn).
    rewrite (replace_pair_absent _ _ _ _ Hoe).
    pose proof (replace_pair_shorter "d" "j" "j" y Hdj).
    pose proof (replace_pair_length "t" "j" "c" (replace_pair "d" "j" "j" y)).
    lia.
  - unfold canonical_name. rewrite Ey. rewrite <- Ey.
    rewrite (name_chars_spaced _ true Hn) by (rewrite Ey; discriminate).
    now rewrite (name_chars_no_match _ _ Hn).
Qed.

End Shrinking.

(** C4, as the code has it.  Both transforms are functions defined on every
    input, and give the empty string on [None] and on the empty string.
    For a name without punctuation, [normalize_name] is idempotent exactly
    when the normal form does not again begin with one of the prefixes
    followed by white space; [normalize_for_fuzzy] is idempotent at a name
    exactly when its fuzzy key holds no digraph "dj". *)
Theorem normalize_idempotent_on_canonical (x : string) :
  normalize_name None = "" /\ normalize_name (Some "") = ""
  /\ normalize_for_fuzzy None = "" /\ normalize_for_fuzzy (Some "") = ""
  /\ (no_punctuation x = true ->
      (normalize_name (Some (normalize_name (Some x))) = normalize_name (Some x)
       <-> first_match prefix_alternatives (normalize_name (Some x)) = None))
  /\ (normalize_for_fuzzy (Some (normalize_for_fuzzy (Some x)))
      = normalize_for_fuzzy (Some x)
      <-> has_pair "d" "j" (normalize_for_fuzzy (Some x)) = false).
Proof.
  split; [reflexivity|]. split; [reflexivity|].
  split; [reflexivity|]. split; [reflexivity|]. split.
  - intros Hx. destruct (normalize_name_spaced x Hx) as [E|E].
    + rewrite E. split; reflexivity.
    + split.
      * intros Hid.
        destruct (first_match prefix_alternatives (normalize_name (Some x)))
          as [rest|] eqn:Hm; [|reflexivity].
        pose proof (spaced_prefixed_shorter _ _ E Hm) as Hlt.
        rewrite Hid in Hlt. lia.
      * intros Hm. apply canonical_name_fixed. unfold canonical_name.
        destruct (normalize_name (Some x)) eqn:Ey; [reflexivity|].
        now rewrite E, Hm.
  - split.
    + intros Hid.
      destruct (has_pair "d" "j" (normalize_for_fuzzy (Some x))) eqn:Hdj;
        [|reflexivity].
      pose proof (fuzzy_dj_shorter (Some x) Hdj) as Hlt.
      rewrite Hid in Hlt. lia.
    + intros Hdj. apply canonical_fuzzy_fixed. unfold canonical_fuzzy.
      now rewrite fuzzy_chars, fuzzy_no_oe, fuzzy_no_tj, Hdj.
Qed.

Lemma normalize_idempotent_on_canonical_witness :
  no_punctuation " Gampong  Lam Djeuram" = true
  /\ first_match prefix_alternatives
       (normalize_name (Some " Gampong  Lam Djeuram")) = None
  /\ has_pair "d" "j" (normalize_for_fuzzy (Some " Gampong  Lam Djeuram")) = false
  /\ normalize_name (Some (normalize_name (Some " Gampong  Lam Djeuram")))
     = normalize_name (Some " Gampong  Lam Djeuram")
  /\ normalize_for_fuzzy (Some (normalize_for_fuzzy (Some " Gampong  Lam Djeuram")))
     = normalize_for_fuzzy (Some " Gampong  Lam Djeuram").
Proof.
  pose proof (normalize_idempotent_on_canonical " Gampong  Lam Djeuram")
    as (_ & _ & _ & _ & Hn & Hf).
  split; [reflexivity|]. split; [reflexivity|]. split; [reflexivity|].
  split; [apply Hn; reflexivity | apply Hf; reflexivity].
Defined.

(** C4, as the specification has it, fails: a repeated prefix is stripped
    once per call, punctuation next to white space leaves white space that
    the next call removes, and replacing "dj" can leave a new "dj". *)
Lemma normalize_not_idempotent :
  normalize_name (Some (normalize_name (Some "desa desa x")))
    <> normalize_name (Some "desa desa x")
  /\ normalize_name (Some (normalize_name (Some "a . b")))
    <> normalize_name (Some "a . b")
  /\ normalize_for_fuzzy (Some (normalize_for_fuzzy (Some "ddj")))
    <> normalize_for_fuzzy (Some "ddj").
Proof. repeat split; discriminate. Qed.

(** ** Hierarchical code resolver *)

Section DictOfRows.
Context {R K A : Type} `{Countable K}.
Variables (guard : R -> bool) (key : R -> K) (val : R -> A).

Lemma fold_rows_lookup_Some rows (d : gmap K A) k v :
  fold_left (Py.put_row guard key val) rows d !! k = Some v ->
  d !! k = Some v
  \/ exists row, In row rows /\ guard row = true /\ key row = k /\ val row = v.
Proof.
  revert d. induction rows as [|row rows IH]; intros d; simpl; [auto|].
  intros Hl. destruct (IH _ Hl) as [Hd|(r & Hin & Hg & Hk & Hv)].
  - unfold Py.put_row in Hd. destruct (guard row) eqn:Hg; [|auto].
    destruct (decide (key row = k)) as [Ek|Nk].
    + subst k. rewrite lookup_insert_eq in Hd. injection Hd as <-.
      right. exists row. auto.
    + rewrite lookup_insert_ne in Hd by exact Nk. auto.
  - right. exists r. auto.
Qed.

Lemma fold_rows_lookup_keeps rows (d : gmap K A) k :
  is_Some (d !! k) -> is_Some (fold_left (Py.put_row guard key val) rows d !! k).
Proof.
  revert d. induction rows as [|row rows IH]; intros d Hd; simpl; [exact Hd|].
  apply IH. unfold Py.put_row. destruct (guard row); [|exact Hd].
  destruct (decide (key row = k)) as [Ek|Nk].
  - subst k. rewrite lookup_insert_eq. eauto.
  - now rewrite lookup_insert_ne.
Qed.

(** What a table holds under a key was put there by a row with that key. *)
Lemma dict_of_rows_Some rows k v :
  Py.dict_of_rows guard key val rows !! k = Some v ->
  exists row, In row rows /\ guard row = true /\ key row = k /\ val row = v.
Proof.
  intros Hl. apply fold_rows_lookup_Some in Hl as [Hl|Hl]; [|exact Hl].
  rewrite lookup_empty in Hl. discriminate.
Qed.

(** Every row that passes the guard has its key in the table. *)
Lemma dict_of_rows_is_Some rows row :
  In row rows -> guard row = true ->
  is_Some (Py.dict_of_rows guard key val rows !! key row).
Proof.
  unfold Py.dict_of_rows. generalize (∅ : gmap K A).
  induction rows as [|r rows IH]; intros d Hin Hg; [destruct Hin|].
  simpl. destruct Hin as [->|Hin].
  - apply fold_rows_lookup_keeps. unfold Py.put_row. rewrite Hg.
    rewrite lookup_insert_eq. eauto.
  - now apply IH.
Qed.

Lemma dict_of_rows_None rows k :
  (forall row, In row rows -> guard row = true -> key row <> k) ->
  Py.dict_of_rows guard key val rows !! k = None.
Proof.
  intros Hno. destruct (Py.dict_of_rows guard key val rows !! k) eqn:E; [|reflexivity].
  apply dict_of_rows_Some in E as (row & Hin & Hg & Hk & _).
  now destruct (Hno row Hin Hg).
Qed.

End DictOfRows.

Section Resolver.
Import update_faskes_kecamatan_desa.

Lemma nonempty_true s : nonempty s = true <-> s <> "".
Proof. destruct s; simpl; split; congruence. Qed.

Lemma nonempty_false s : nonempty s = false <-> s = "".
Proof. destruct s; simpl; split; congruence. Qed.

(** The subdistrict code comes from the table entry under the pair of the
    regency code and the upper-cased name. *)
Lemma look_up_ids_kecamatan lk row :
  let sel := look_up_ids lk row in
  sel_kecamatan sel <> "" ->
  sel_kota_kab sel <> ""
  /\ exists info,
       lk_kecamatan lk !! (sel_kota_kab sel, upper (strip (KECAMATAN row)))
         = Some info
       /\ kec_info_kode info = sel_kecamatan sel.
Proof.
  unfold look_up_ids. cbn -[upper strip normalize_kab_name Py.get].
  set (kab := if nonempty (strip (KABUPATEN row)) then _ else _).
  destruct (nonempty (strip (KECAMATAN row))); [|easy].
  destruct (nonempty kab) eqn:Ek; [|easy]. cbn [andb].
  apply nonempty_true in Ek.
  destruct (lk_kecamatan lk !! _) as [info|] eqn:El; [|easy].
  intros _. split; [exact Ek|]. exists info. auto.
Qed.

Lemma look_up_ids_desa lk row :
  let sel := look_up_ids lk row in
  sel_desa sel <> "" ->
  sel_kecamatan sel <> ""
  /\ exists info,
       lk_desa lk !! (sel_kecamatan sel, upper (strip (DESA row))) = Some info
       /\ desa_info_kode info = sel_desa sel.
Proof.
  unfold look_up_ids. cbn -[upper strip normalize_kab_name Py.get].
  set (kab := if nonempty (strip (KABUPATEN row)) then _ else _).
  set (kec := if nonempty (strip (KECAMATAN row)) && nonempty kab then _ else _).
  destruct (nonempty (strip (DESA row))); [|easy].
  destruct (nonempty kec) eqn:Ek; [|easy]. cbn [andb].
  apply nonempty_true in Ek.
  destruct (lk_desa lk !! _) as [info|] eqn:El; [|easy].
  intros _. split; [exact Ek|]. exists info. auto.
Qed.

Lemma look_up_ids_kota_kab lk row :
  let sel := look_up_ids lk row in
  sel_kota_kab sel <> "" ->
  exists info,
    lk_kota_kab lk !! normalize_kab_name (strip (KABUPATEN row)) = Some info
    /\ kab_info_kode info = sel_kota_kab sel.
Proof.
  unfold look_up_ids. cbn -[upper strip normalize_kab_name Py.get].
  destruct (nonempty (strip (KABUPATEN row))); [|easy].
  destruct (lk_kota_kab lk !! _) as [info|] eqn:El; [|easy].
  intros _. exists info. auto.
Qed.

Lemma look_up_ids_provinsi lk row :
  let sel := look_up_ids lk row in
  sel_provinsi sel <> "" ->
  lk_provinsi lk !! upper (strip (PROVINSI row)) = Some (sel_provinsi sel).
Proof.
  unfold look_up_ids. cbn -[upper strip normalize_kab_name].
  destruct (nonempty (strip (PROVINSI row))); [|easy].
  unfold Py.get. destruct (lk_provinsi lk !! _); easy.
Qed.

(** The regency code does not depend on the province column. *)
Lemma look_up_ids_kota_kab_any_province lk row p :
  sel_kota_kab (look_up_ids lk row)
  = sel_kota_kab
      (look_up_ids lk
         {| JENIS_FASYANKES := JENIS_FASYANKES row; NAMA := NAMA row;
            PROVINSI := p; KABUPATEN := KABUPATEN row;
            KECAMATAN := KECAMATAN row; DESA := DESA row |}).
Proof. reflexivity. Qed.

End Resolver.

(** C2, as the code has it.  A subdistrict code is produced only under a
    resolved regency, and a village code only under a resolved subdistrict
    and regency; the regency code is looked up by the regency name alone,
    whatever the province column holds. *)
Theorem resolver_levels_below_regency
    (lk : update_faskes_kecamatan_desa.lookups) (row : faskes_row) :
  let sel := update_faskes_kecamatan_desa.look_up_ids lk row in
  (update_faskes_kecamatan_desa.sel_kecamatan sel <> "" ->
   update_faskes_kecamatan_desa.sel_kota_kab sel <> "")
  /\ (update_faskes_kecamatan_desa.sel_desa sel <> "" ->
      update_faskes_kecamatan_desa.sel_kecamatan sel <> ""
      /\ update_faskes_kecamatan_desa.sel_kota_kab sel <> "")
  /\ (forall p,
        update_faskes_kecamatan_desa.sel_kota_kab
          (update_faskes_kecamatan_desa.look_up_ids lk
             {| JENIS_FASYANKES := JENIS_FASYANKES row; NAMA := NAMA row;
                PROVINSI := p; KABUPATEN := KABUPATEN row;
                KECAMATAN := KECAMATAN row; DESA := DESA row |})
        = update_faskes_kecamatan_desa.sel_kota_kab sel).
Proof.
  intros sel. split; [|split].
  - intros H. now apply look_up_ids_kecamatan in H as [H _].
  - intros H. apply look_up_ids_desa in H as [H _]. split; [exact H|].
    now apply look_up_ids_kecamatan in H as [H _].
  - intros p. symmetry. apply look_up_ids_kota_kab_any_province.
Qed.

Lemma resolver_levels_below_regency_witness :
  update_faskes_kecamatan_desa.sel_desa Examples.sel_without_province <> ""
  /\ update_faskes_kecamatan_desa.sel_kecamatan Examples.sel_without_province <> ""
  /\ update_faskes_kecamatan_desa.sel_kota_kab Examples.sel_without_province <> "".
Proof.
  assert (Hd : update_faskes_kecamatan_desa.sel_desa
                 Examples.sel_without_province <> "")
    by (vm_compute; discriminate).
  split; [exact Hd|].
  exact (proj1 (proj2 (resolver_levels_below_regency
                         Examples.aceh_lookups Examples.row_without_province))
               Hd).
Defined.

(** C2, as the specification has it, fails: a record without a province is
    given the code of its regency, and below it of its subdistrict. *)
Lemma regency_resolved_without_province :
  update_faskes_kecamatan_desa.sel_provinsi Examples.sel_without_province = ""
  /\ update_faskes_kecamatan_desa.sel_kota_kab Examples.sel_without_province
     = "11.06"
  /\ update_faskes_kecamatan_desa.sel_kecamatan Examples.sel_without_province
     = "11.06.15".
Proof. vm_compute. auto. Qed.

Section ResolverTables.
Import update_faskes_kecamatan_desa.

Lemma kecamatan_row_of_code b row :
  let sel := look_up_ids (load_location_lookups b) row in
  sel_kecamatan sel <> "" ->
  exists r, In r (kecamatan_csv b)
    /\ kec_kode r = sel_kecamatan sel
    /\ kec_id_kota_kab r = sel_kota_kab sel
    /\ upper (kec_nama r) = upper (strip (KECAMATAN row)).
Proof.
  intros sel H. apply look_up_ids_kecamatan in H as (_ & info & Hl & Hk).
  fold sel in Hl, Hk. cbn [load_location_lookups lk_kecamatan] in Hl.
  apply dict_of_rows_Some in Hl as (r & Hin & _ & Hkey & Hval).
  exists r. injection Hkey as H1 H2. subst info. auto.
Qed.

Lemma desa_row_of_code b row :
  let sel := look_up_ids (load_location_lookups b) row in
  sel_desa sel <> "" ->
  exists r, In r (desa_csv b)
    /\ desa_kode r = sel_desa sel
    /\ desa_id_kec r = sel_kecamatan sel
    /\ upper (desa_nama r) = upper (strip (DESA row)).
Proof.
  intros sel H. apply look_up_ids_desa in H as (_ & info & Hl & Hk).
  fold sel in Hl, Hk. cbn [load_location_lookups lk_desa] in Hl.
  apply dict_of_rows_Some in Hl as (r & Hin & _ & Hkey & Hval).
  exists r. injection Hkey as H1 H2. subst info. auto.
Qed.

Lemma kota_kab_row_of_code b row :
  let sel := look_up_ids (load_location_lookups b) row in
  sel_kota_kab sel <> "" ->
  exists r, In r (kota_kab_csv b)
    /\ kab_kode r = sel_kota_kab sel
    /\ upper (kab_nama r) = normalize_kab_name (strip (KABUPATEN row)).
Proof.
  intros sel H. apply look_up_ids_kota_kab in H as (info & Hl & Hk).
  fold sel in Hk. cbn [load_location_lookups lk_kota_kab] in Hl.
  apply dict_of_rows_Some in Hl as (r & Hin & _ & Hkey & Hval).
  exists r. subst info. auto.
Qed.

Lemma provinsi_row_of_code b row :
  let sel := look_up_ids (load_location_lookups b) row in
  sel_provinsi sel <> "" ->
  exists r, In r (provinsi_csv b)
    /\ prov_kode r = sel_provinsi sel
    /\ upper (prov_nama r) = upper (strip (PROVINSI row)).
Proof.
  intros sel H. apply look_up_ids_provinsi in H.
  fold sel in H. cbn [load_location_lookups lk_provinsi] in H.
  apply dict_of_rows_Some in H as (r & Hin & _ & Hkey & Hval).
  exists r. auto.
Qed.

(** What the repair pass finds for a village name was put in one of its
    two tables by a row with the same normal form or the same fuzzy key. *)
Lemma find_desa_row rows desa info :
  find_desa (fst (load_desa_lookup rows)) (snd (load_desa_lookup rows)) desa
    = Some info ->
  exists r, In r rows /\ desa_info_of r = info
    /\ (normalize_name (Some (desa_nama r)) = normalize_name (Some desa)
        \/ normalize_for_fuzzy (Some (desa_nama r))
           = normalize_for_fuzzy (Some desa)).
Proof.
  unfold find_desa, load_desa_lookup. cbn [fst snd].
  destruct (Py.dict_of_rows _ _ _ rows !! normalize_name (Some desa))
    as [i|] eqn:E.
  - intros [= <-].
    apply dict_of_rows_Some in E as (r & Hin & _ & Hkey & Hval). eauto.
  - intros E2.
    apply dict_of_rows_Some in E2 as (r & Hin & _ & Hkey & Hval). eauto.
Qed.

End ResolverTables.

(** C3, as the code has it.  With the tables of [load_location_lookups], a
    subdistrict code is that of a backbone row under the resolved regency
    with the same upper-cased name, and a village code that of a row under
    the resolved subdistrict with the same upper-cased name.  The province
    and the regency are matched by name alone, and so is the village in the
    tables of [load_desa_lookup], by normal form or by fuzzy key. *)
Theorem lookups_scoped_below_regency
    (b : update_faskes_kecamatan_desa.backbone) (row : faskes_row)
    (rows : list desa_row) (desa : string) (info : desa_info) :
  let sel := update_faskes_kecamatan_desa.look_up_ids
               (update_faskes_kecamatan_desa.load_location_lookups b) row in
  (update_faskes_kecamatan_desa.sel_kecamatan sel <> "" ->
   exists r, In r (update_faskes_kecamatan_desa.kecamatan_csv b)
     /\ kec_kode r = update_faskes_kecamatan_desa.sel_kecamatan sel
     /\ kec_id_kota_kab r = update_faskes_kecamatan_desa.sel_kota_kab sel
     /\ upper (kec_nama r) = upper (strip (KECAMATAN row)))
  /\ (update_faskes_kecamatan_desa.sel_desa sel <> "" ->
      exists r, In r (update_faskes_kecamatan_desa.desa_csv b)
        /\ desa_kode r = update_faskes_kecamatan_desa.sel_desa sel
        /\ desa_id_kec r = update_faskes_kecamatan_desa.sel_kecamatan sel
        /\ upper (desa_nama r) = upper (strip (DESA row)))
  /\ (update_faskes_kecamatan_desa.sel_kota_kab sel <> "" ->
      exists r, In r (update_faskes_kecamatan_desa.kota_kab_csv b)
        /\ kab_kode r = update_faskes_kecamatan_desa.sel_kota_kab sel
        /\ upper (kab_nama r)
           = update_faskes_kecamatan_desa.normalize_kab_name
               (strip (KABUPATEN row)))
  /\ (update_faskes_kecamatan_desa.sel_provinsi sel <> "" ->
      exists r, In r (update_faskes_kecamatan_desa.provinsi_csv b)
        /\ prov_kode r = update_faskes_kecamatan_desa.sel_provinsi sel
        /\ upper (prov_nama r) = upper (strip (PROVINSI row)))
  /\ (find_desa (fst (load_desa_lookup rows)) (snd (load_desa_lookup rows)) desa
        = Some info ->
      exists r, In r rows /\ desa_info_of r = info
        /\ (normalize_name (Some (desa_nama r)) = normalize_name (Some desa)
            \/ normalize_for_fuzzy (Some (desa_nama r))
               = normalize_for_fuzzy (Some desa))).
Proof.
  intros sel. repeat apply conj.
  - apply kecamatan_row_of_code.
  - apply desa_row_of_code.
  - apply kota_kab_row_of_code.
  - apply provinsi_row_of_code.
  - apply find_desa_row.
Qed.

Lemma lookups_scoped_below_regency_witness :
  (update_faskes_kecamatan_desa.sel_kecamatan Examples.sel_other_province <> ""
   /\ update_faskes_kecamatan_desa.sel_desa Examples.sel_other_province <> ""
   /\ update_faskes_kecamatan_desa.sel_kota_kab Examples.sel_other_province <> ""
   /\ update_faskes_kecamatan_desa.sel_provinsi Examples.sel_other_province <> ""
   /\ find_desa
        (fst (load_desa_lookup
                (update_faskes_kecamatan_desa.desa_csv Examples.aceh_backbone)))
        (snd (load_desa_lookup
                (update_faskes_kecamatan_desa.desa_csv Examples.aceh_backbone)))
        "Gampong Lamasan"
      = Some {| info_id_kec := "11.06.15"; info_nama := "LAM ASAN" |})
  /\ (exists r,
        In r (update_faskes_kecamatan_desa.kecamatan_csv Examples.aceh_backbone)
        /\ kec_kode r
           = update_faskes_kecamatan_desa.sel_kecamatan Examples.sel_other_province
        /\ kec_id_kota_kab r
           = update_faskes_kecamatan_desa.sel_kota_kab Examples.sel_other_province
        /\ upper (kec_nama r) = upper (strip (KECAMATAN Examples.row_other_province))).
Proof.
  pose proof (lookups_scoped_below_regency
                Examples.aceh_backbone Examples.row_other_province
                (update_faskes_kecamatan_desa.desa_csv Examples.aceh_backbone)
                "Gampong Lamasan"
                {| info_id_kec := "11.06.15"; info_nama := "LAM ASAN" |})
    as (Hkec & Hdesa & Hkab & Hprov & Hfind).
  assert (H1 : update_faskes_kecamatan_desa.sel_kecamatan
                 Examples.sel_other_province <> "")
    by (vm_compute; discriminate).
  assert (H2 : update_faskes_kecamatan_desa.sel_desa
                 Examples.sel_other_province <> "")
    by (vm_compute; discriminate).
  assert (H3 : update_faskes_kecamatan_desa.sel_kota_kab
                 Examples.sel_other_province <> "")
    by (vm_compute; discriminate).
  assert (H4 : update_faskes_kecamatan_desa.sel_provinsi
                 Examples.sel_other_province <> "")
    by (vm_compute; discriminate).
  assert (H5 : find_desa
        (fst (load_desa_lookup
                (update_faskes_kecamatan_desa.desa_csv Examples.aceh_backbone)))
        (snd (load_desa_lookup
                (update_faskes_kecamatan_desa.desa_csv Examples.aceh_backbone)))
        "Gampong Lamasan"
      = Some {| info_id_kec := "11.06.15"; info_nama := "LAM ASAN" |})
    by (vm_compute; reflexivity).
  pose proof (Hdesa H2) as _. pose proof (Hkab H3) as _.
  pose proof (Hprov H4) as _. pose proof (Hfind H5) as _.
  split; [auto|]. exact (Hkec H1).
Defined.

(** C3, as the specification has it, fails: the regency table is keyed by
    the name alone, so a record whose province resolves to 12 is given the
    code of a regency of province 11. *)
Lemma regency_matched_outside_province :
  update_faskes_kecamatan_desa.sel_provinsi Examples.sel_other_province = "12"
  /\ update_faskes_kecamatan_desa.sel_kota_kab Examples.sel_other_province
     = "11.06"
  /\ (forall r,
        In r (update_faskes_kecamatan_desa.kota_kab_csv Examples.aceh_backbone) ->
        kab_kode r = "11.06" -> kab_id_provinsi r = "11").
Proof.
  split; [vm_compute; reflexivity|]. split; [vm_compute; reflexivity|].
  intros r [<-|[]] _. reflexivity.
Qed.

Section ExactLookups.
Import update_faskes_kecamatan_desa.







Lemma find_desa_by_fuzzy_key rows desa r :
  In r rows -> lookup_kecamatan_from_desa.desa_guard r = true ->
  normalize_for_fuzzy (Some (desa_nama r)) = normalize_for_fuzzy (Some desa) ->
  is_Some (find_desa (fst (load_desa_lookup rows))
                     (snd (load_desa_lookup rows)) desa).
Proof.
  intros Hin Hg Hk. unfold find_desa, load_desa_lookup. cbn [fst snd].
  destruct (Py.dict_of_rows _ _ _ rows !! normalize_name (Some desa)); [eauto|].
  rewrite <- Hk.
  exact (dict_of_rows_is_Some lookup_kecamatan_from_desa.desa_guard
           (fun row => normalize_for_fuzzy (Some (desa_nama row)))
           desa_info_of rows r Hin Hg).
Qed.

End ExactLookups.




(** ** Entity identity reconciler *)

Section Reconciler.
Import sync_entity_uuids.
Local Open Scope list_scope.

Variable db : database.
Variable odk_by_label : gmap string string.

(** The calls the loop makes for one row do not depend on the store. *)
Lemma match_one_emitted st x :
  updates (match_one db odk_by_label st x)
  = updates st
    ++ match odk_by_label !! nama x with
       | Some u =>
           if bool_decide (current_entity_id x = Some u) then []
           else [(id x, u)]
       | None => []
       end.
Proof.
  unfold match_one. destruct (odk_by_label !! nama x) as [u|]; simpl.
  - destruct (bool_decide _); simpl; [now rewrite app_nil_r |].
    now destruct (raises db _).
  - now rewrite app_nil_r.
Qed.

Lemma match_one_updates st x :
  updates (match_one db odk_by_label st x)
  = updates st ++ updates (match_one db odk_by_label (initial_state []) x).
Proof. now rewrite (match_one_emitted (initial_state [])), match_one_emitted. Qed.

Lemma match_one_no_match st x :
  no_match (match_one db odk_by_label st x)
  = no_match st ++ no_match (match_one db odk_by_label (initial_state []) x).
Proof.
  unfold match_one. destruct (odk_by_label !! nama x) as [u|]; simpl.
  - destruct (bool_decide _); simpl; [now rewrite app_nil_r |].
    destruct (raises db _), (raises db _); simpl; now rewrite app_nil_r.
  - reflexivity.
Qed.

Lemma match_all_updates l st :
  updates (match_all db odk_by_label l st)
  = updates st ++ updates (match_all db odk_by_label l (initial_state [])).
Proof.
  revert st. induction l as [|x l IH]; intros st; simpl.
  - now rewrite app_nil_r.
  - rewrite (IH (match_one _ _ st x)), (IH (match_one _ _ (initial_state []) x)).
    rewrite match_one_updates. now rewrite app_assoc.
Qed.

Lemma match_all_no_match l st :
  no_match (match_all db odk_by_label l st)
  = no_match st ++ no_match (match_all db odk_by_label l (initial_state [])).
Proof.
  revert st. induction l as [|x l IH]; intros st; simpl.
  - now rewrite app_nil_r.
  - rewrite (IH (match_one _ _ st x)), (IH (match_one _ _ (initial_state []) x)).
    rewrite match_one_no_match. now rewrite app_assoc.
Qed.

Lemma match_all_app l1 l2 st :
  match_all db odk_by_label (l1 ++ l2) st
  = match_all db odk_by_label l2 (match_all db odk_by_label l1 st).
Proof. apply fold_left_app. Qed.

(** The calls made for a list of rows are those of rows that have a
    counterpart under another identifier than the stored one. *)
Lemma updates_elem l i v :
  In (i, v) (updates (match_all db odk_by_label l (initial_state []))) <->
  exists x, In x l /\ i = id x /\ odk_by_label !! nama x = Some v
            /\ current_entity_id x <> Some v.
Proof.
  induction l as [|x l IH].
  - simpl. split; [easy|]. now intros (x & [] & _).
  - change (match_all db odk_by_label (x :: l) (initial_state []))
      with (match_all db odk_by_label l
              (match_one db odk_by_label (initial_state []) x)).
    rewrite match_all_updates, in_app_iff, IH. clear IH.
    rewrite match_one_emitted. cbn [updates initial_state app].
    split.
    + intros [H|(y & Hy & H)]; [|exists y; simpl; tauto].
      exists x. split; [now left|].
      destruct (odk_by_label !! nama x) as [u|]; [|easy].
      destruct (bool_decide _) eqn:E; [easy|].
      apply bool_decide_eq_false in E.
      simpl in H. destruct H as [[= <- <-]|[]]. auto.
    + intros (y & [<-|Hy] & Hi & Ho & Hc); [left|right; eauto].
      rewrite Ho.
      rewrite bool_decide_eq_false_2 by exact Hc. simpl. left. now subst i.
Qed.

(** Rows that are unmatched or carry the identifier found for their name
    cause no call. *)
Lemma match_all_settled l st :
  (forall x v, In x l -> odk_by_label !! nama x = Some v ->
               current_entity_id x = Some v) ->
  updates (match_all db odk_by_label l st) = updates st.
Proof.
  revert st. induction l as [|x l IH]; intros st Hs; [reflexivity|].
  simpl. rewrite IH by (intros; eapply Hs; [right|]; eauto).
  rewrite match_one_emitted.
  destruct (odk_by_label !! nama x) as [u|] eqn:Eo; [|apply app_nil_r].
  rewrite bool_decide_eq_true_2; [apply app_nil_r|].
  apply Hs; [now left | exact Eo].
Qed.

Lemma row_after_app n us vs l :
  row_after db n (us ++ vs) l
  = row_after db (n + length us) vs (row_after db n us l).
Proof.
  revert n l. induction us as [|c us IH]; intros n l.
  - simpl. now rewrite Nat.add_0_r.
  - cbn [app row_after length]. rewrite IH. now rewrite Nat.add_succ_r.
Qed.

Lemma set_entity_id_columns time u l :
  loc_id (set_entity_id time u l) = loc_id l
  /\ loc_nama (set_entity_id time u l) = loc_nama l
  /\ deleted (set_entity_id time u l) = deleted l.
Proof. easy. Qed.

Lemma row_after_columns n us l :
  loc_id (row_after db n us l) = loc_id l
  /\ loc_nama (row_after db n us l) = loc_nama l
  /\ deleted (row_after db n us l) = deleted l.
Proof.
  revert n l. induction us as [|[i v] us IH]; intros n l; [easy|].
  cbn [row_after fst snd].
  destruct (raises db n); [apply IH|].
  destruct (String.eqb (loc_id l) i); [|apply IH].
  destruct (IH (S n) (set_entity_id (clock db n) v l)) as (-> & -> & ->). easy.
Qed.

Lemma match_one_store st x :
  store_now (match_one db odk_by_label st x)
  = map (row_after db (length (updates st))
           (updates (match_one db odk_by_label (initial_state []) x)))
        (store_now st).
Proof.
  rewrite match_one_emitted. cbn [updates initial_state app].
  unfold match_one. destruct (odk_by_label !! nama x) as [u|]; simpl.
  - destruct (bool_decide _); simpl.
    + symmetry. apply map_id.
    + destruct (raises db (length (updates st))); simpl.
      * symmetry. apply map_id.
      * reflexivity.
  - symmetry. apply map_id.
Qed.

(** The store after the loop: every row after the calls the loop made. *)
Lemma match_all_store l st :
  store_now (match_all db odk_by_label l st)
  = map (row_after db (length (updates st))
           (updates (match_all db odk_by_label l (initial_state []))))
        (store_now st).
Proof.
  revert st. induction l as [|x l IH]; intros st.
  - simpl. symmetry. apply map_id.
  - change (match_all db odk_by_label (x :: l) ?s)
      with (match_all db odk_by_label l (match_one db odk_by_label s x)).
    rewrite IH, match_one_store, map_map.
    rewrite (match_all_updates l (match_one db odk_by_label (initial_state []) x)).
    apply map_ext. intros r. rewrite row_after_app.
    rewrite (match_one_updates st), length_app. reflexivity.
Qed.

(** A NULL document stays NULL, whatever the calls. *)
Lemma row_after_null n us l :
  raw_data l = None -> raw_data (row_after db n us l) = None.
Proof.
  revert n l. induction us as [|[i v] us IH]; intros n l Hl; [exact Hl|].
  cbn [row_after fst snd].
  destruct (raises db n); [now apply IH|].
  destruct (String.eqb (loc_id l) i); apply IH; [|exact Hl].
  unfold set_entity_id. cbn. now rewrite Hl.
Qed.

(** When no call raises and every call on the row [l] carries [u], and [l]
    holds [u] already, or holds a JSON object and is the target of one of
    the calls, [l] holds [u] afterwards. *)
Lemma row_after_settles n us l u :
  (forall m, raises db m = false) ->
  (forall i v, In (i, v) us -> i = loc_id l -> v = u) ->
  (In (loc_id l, u) us /\ raw_data l <> None)
  \/ json_text (raw_data l) "_entity_id" = Some u ->
  json_text (raw_data (row_after db n us l)) "_entity_id" = Some u.
Proof.
  intros Hok. revert n l. induction us as [|[i v] us IH]; intros n l Hall Hor.
  - destruct Hor as [[[] _]|H]. exact H.
  - cbn [row_after fst snd]. rewrite Hok.
    destruct (String.eqb (loc_id l) i) eqn:E.
    + apply String.eqb_eq in E.
      assert (v = u) by (apply (Hall i v); [now left | now symmetry]).
      subst v. apply IH.
      * intros j w Hin Hj. apply (Hall j w); [now right | exact Hj].
      * right. unfold set_entity_id. cbn [raw_data].
        destruct (raw_data l) as [object|] eqn:Er.
        -- cbn. now rewrite lookup_insert_eq.
        -- destruct Hor as [[_ H]|H]; [now destruct H | discriminate H].
    + apply String.eqb_neq in E. apply IH.
      * intros j w Hin Hj. apply (Hall j w); [now right | exact Hj].
      * destruct Hor as [[[[= H1 H2]|H] Hr]|H];
          [now destruct E | left; now split | now right].
Qed.

Lemma in_get_pg_locations store x :
  In x (get_pg_locations db store) <->
  exists l, In l store /\ deleted l = false /\ x = select_row l.
Proof.
  unfold get_pg_locations. rewrite in_map_iff. split.
  - intros (l & <- & Hl).
    apply (Permutation_in _ (scan_permutation db _)) in Hl.
    apply filter_In in Hl as [Hl Hd].
    apply negb_true_iff in Hd. eauto.
  - intros (l & Hl & Hd & ->). exists l. split; [reflexivity|].
    apply (Permutation_in _ (Permutation_sym (scan_permutation db _))).
    apply filter_In. split; [exact Hl|]. now rewrite Hd.
Qed.

End Reconciler.

Section ReconcilerStore.
Import sync_entity_uuids.
Local Open Scope list_scope.

Lemma NoDup_map_eq {A B : Type} (f : A -> B) (l : list A) x y :
  List.NoDup (map f l) -> In x l -> In y l -> f x = f y -> x = y.
Proof.
  induction l as [|a l IH]; [easy|]. simpl.
  intros Hnd Hx Hy Hf. apply List.NoDup_cons_iff in Hnd as [Hna Hnd].
  destruct Hx as [->|Hx], Hy as [->|Hy]; auto.
  - destruct Hna. rewrite Hf. now apply in_map.
  - destruct Hna. rewrite <- Hf. now apply in_map.
Qed.

(** The calls of a run, told from the rows of the store. *)
Lemma main_updates_elem db odk_entities store i v :
  In (i, v) (updates (main db odk_entities store)) <->
  exists q, In q store /\ deleted q = false /\ i = loc_id q
    /\ build_odk_by_label odk_entities !! loc_nama q = Some v
    /\ json_text (raw_data q) "_entity_id" <> Some v.
Proof.
  unfold main. rewrite match_all_updates. cbn [updates initial_state app].
  rewrite updates_elem. split.
  - intros (y & Hy & Hid & Hv & Hc).
    apply in_get_pg_locations in Hy as (q & Hq & Hdq & ->). eauto 10.
  - intros (q & Hq & Hdq & Hid & Hv & Hc). exists (select_row q).
    split; [apply in_get_pg_locations; eauto|]. auto.
Qed.

(** The store a run leaves. *)
Lemma main_store db odk_entities store :
  store_now (main db odk_entities store)
  = map (row_after db 0 (updates (main db odk_entities store))) store.
Proof.
  unfold main. rewrite match_all_store.
  rewrite (match_all_updates db _ _ (initial_state store)). reflexivity.
Qed.

End ReconcilerStore.

(** C6.  For every row of the store that is not deleted, at its place in the
    loop, whatever the order in which the store returns the rows and
    whichever calls fail: when its name is not a label of the entity map it
    is appended to [no_match] and no call is made for it; when the
    identifier found for its name is the one it stores, no call is made;
    otherwise exactly the call [update_pg_entity_id(id, found)] is made,
    also when it stores no identifier. *)
Theorem reconciler_cases
    (db : sync_entity_uuids.database)
    (odk_entities : list entity) (store : list sync_entity_uuids.location)
    (l : sync_entity_uuids.location) :
  In l store -> sync_entity_uuids.deleted l = false ->
  let odk := sync_entity_uuids.build_odk_by_label odk_entities in
  exists l1 l2,
    sync_entity_uuids.get_pg_locations db store
      = (l1 ++ sync_entity_uuids.select_row l :: l2)%list
    /\ let before := sync_entity_uuids.match_all db odk l1
                       (sync_entity_uuids.initial_state store) in
       let rest := sync_entity_uuids.match_all db odk l2
                     (sync_entity_uuids.initial_state []) in
       let final := sync_entity_uuids.main db odk_entities store in
       match odk !! sync_entity_uuids.loc_nama l with
       | None =>
           sync_entity_uuids.no_match final
           = (sync_entity_uuids.no_match before
              ++ sync_entity_uuids.loc_nama l :: sync_entity_uuids.no_match rest)%list
           /\ sync_entity_uuids.updates final
              = (sync_entity_uuids.updates before
                 ++ sync_entity_uuids.updates rest)%list
       | Some found =>
           sync_entity_uuids.no_match final
           = (sync_entity_uuids.no_match before
              ++ sync_entity_uuids.no_match rest)%list
           /\ if bool_decide
                   (sync_entity_uuids.json_text (sync_entity_uuids.raw_data l)
                      "_entity_id" = Some found)
              then sync_entity_uuids.updates final
                   = (sync_entity_uuids.updates before
                      ++ sync_entity_uuids.updates rest)%list
              else sync_entity_uuids.updates final
                   = (sync_entity_uuids.updates before
                      ++ (sync_entity_uuids.loc_id l, found)
                         :: sync_entity_uuids.updates rest)%list
       end.
Proof.
  intros Hin Hd odk.
  assert (Hx : In (sync_entity_uuids.select_row l)
                  (sync_entity_uuids.get_pg_locations db store)).
  { apply in_get_pg_locations. eauto. }
  apply in_split in Hx as (l1 & l2 & Hsplit).
  exists l1, l2. split; [exact Hsplit|].
  intros before rest final.
  assert (Hfinal : final
            = sync_entity_uuids.match_all db odk l2
                (sync_entity_uuids.match_one db odk before
                   (sync_entity_uuids.select_row l))).
  { unfold final, sync_entity_uuids.main. fold odk. rewrite Hsplit.
    now rewrite match_all_app. }
  rewrite Hfinal, match_all_no_match, match_all_updates. fold rest.
  rewrite match_one_emitted, match_one_no_match.
  unfold sync_entity_uuids.match_one.
  cbn [sync_entity_uuids.nama sync_entity_uuids.select_row
       sync_entity_uuids.current_entity_id sync_entity_uuids.id].
  destruct (odk !! sync_entity_uuids.loc_nama l) as [found|].
  - destruct (bool_decide _); cbn.
    + rewrite !app_nil_r. auto.
    + destruct (sync_entity_uuids.raises db 0); cbn;
        rewrite !app_nil_r, <- ?app_assoc; auto.
  - cbn. rewrite !app_nil_r, <- ?app_assoc. auto.
Qed.

Lemma reconciler_cases_witness :
  exists l1 l2,
    sync_entity_uuids.get_pg_locations Examples.steady_db Examples.posko_store
      = (l1 ++ sync_entity_uuids.select_row
                 {| sync_entity_uuids.loc_id := "loc-1";
                    sync_entity_uuids.loc_nama := "Posko Blang";
                    sync_entity_uuids.raw_data := Some ∅;
                    sync_entity_uuids.deleted := false;
                    sync_entity_uuids.updated_at := 0 |} :: l2)%list
    /\ sync_entity_uuids.updates
         (sync_entity_uuids.main Examples.steady_db [Examples.posko_blang]
            Examples.posko_store)
       = (sync_entity_uuids.updates
            (sync_entity_uuids.match_all Examples.steady_db
               (sync_entity_uuids.build_odk_by_label [Examples.posko_blang]) l1
               (sync_entity_uuids.initial_state Examples.posko_store))
          ++ ("loc-1", "A1")
             :: sync_entity_uuids.updates
                  (sync_entity_uuids.match_all Examples.steady_db
                     (sync_entity_uuids.build_odk_by_label [Examples.posko_blang])
                     l2 (sync_entity_uuids.initial_state [])))%list.
Proof.
  destruct (reconciler_cases Examples.steady_db
              [Examples.posko_blang] Examples.posko_store
              {| sync_entity_uuids.loc_id := "loc-1";
                 sync_entity_uuids.loc_nama := "Posko Blang";
                 sync_entity_uuids.raw_data := Some ∅;
                 sync_entity_uuids.deleted := false;
                 sync_entity_uuids.updated_at := 0 |})
    as (l1 & l2 & Hsplit & Hcase).
  - left. reflexivity.
  - reflexivity.
  - exists l1, l2. split; [exact Hsplit|].
    cbv zeta in Hcase.
    change (sync_entity_uuids.build_odk_by_label [Examples.posko_blang]
              !! sync_entity_uuids.loc_nama
                   {| sync_entity_uuids.loc_id := "loc-1";
                      sync_entity_uuids.loc_nama := "Posko Blang";
                      sync_entity_uuids.raw_data := Some ∅;
                      sync_entity_uuids.deleted := false;
                      sync_entity_uuids.updated_at := 0 |})
      with (Some "A1") in Hcase.
    exact (proj2 Hcase).
Defined.

(** C5.  The reconciler is not idempotent on a row whose column [raw_data]
    is NULL: on the store of one such row, named as an entity, the first
    run calls [update_pg_entity_id] and counts the row as updated, the
    UPDATE leaves the column NULL, and the second run, on the store the
    first run left and with the same entities, makes the same call again. *)
Theorem reconcile_twice_updates_null_raw_data :
  let first := sync_entity_uuids.main Examples.steady_db
                 [Examples.posko_blang] Examples.posko_without_raw_data in
  let second := sync_entity_uuids.main Examples.steady_db
                  [Examples.posko_blang] (sync_entity_uuids.store_now first) in
  sync_entity_uuids.updates first = [("loc-1", "A1")]
  /\ sync_entity_uuids.updated first = 1
  /\ map sync_entity_uuids.raw_data (sync_entity_uuids.store_now first) = [None]
  /\ sync_entity_uuids.updates second = [("loc-1", "A1")]
  /\ sync_entity_uuids.updated second = 1.
Proof.
  cbv zeta. repeat split; vm_compute; reflexivity.
Qed.

(** ** Property sync engine *)

Example scenario_3_sync :
  update_odk_entities.sync_one Examples.quiet_platform Examples.posko_data
    3%Z Examples.posko_blang
  = (update_odk_entities.Updated,
     [GET "A1"; PATCH (Examples.posko_request 3)], 4%Z).
Proof. vm_compute. reflexivity. Qed.

Example scenario_4_sync :
  update_odk_entities.sync_one Examples.busy_platform Examples.posko_data
    3%Z Examples.posko_blang
  = (update_odk_entities.Error (Some "Status 409: version conflict"),
     [GET "A1"; PATCH (Examples.posko_request 3)], 4%Z).
Proof. vm_compute. reflexivity. Qed.

Section PropertySync.
Import update_odk_entities.
Local Open Scope list_scope.

Variable P : platform.
Variable pg_data : gmap string (gmap string pyval).

(** The check of lines 266-272, as a statement about the two maps. *)
Lemma has_missing_field_spec (current_data loc_data : gmap string pyval) :
  has_missing_field current_data loc_data = true <->
  exists key pg_value,
    loc_data !! key = Some pg_value
    /\ Py.truthy pg_value = true
    /\ Py.truthy (Py.get current_data key (PStr "")) = false.
Proof.
  unfold has_missing_field. rewrite existsb_exists. split.
  - intros ([key pg_value] & Hin & Hb).
    apply list_elem_of_In, elem_of_map_to_list in Hin.
    apply andb_true_iff in Hb as [Hodk Hpg].
    apply negb_true_iff in Hodk. eauto.
  - intros (key & pg_value & Hl & Hpg & Hodk).
    exists (key, pg_value). split.
    + now apply list_elem_of_In, elem_of_map_to_list.
    + now rewrite Hodk, Hpg.
Qed.

(** What [sync_one] does, branch by branch. *)
Lemma sync_one_cases srv e :
  (sync_one P pg_data srv e = (No_pg_data, [], srv)
   /\ (pg_data !! uuid e = None
       \/ exists loc_data, pg_data !! uuid e = Some loc_data
            /\ Py.truthy (Py.get loc_data "nama_posko" (PStr "")) = false))
  \/ (exists loc_data,
        pg_data !! uuid e = Some loc_data
        /\ Py.truthy (Py.get loc_data "nama_posko" (PStr "")) = true
        /\ has_missing_field (default ∅ (data e)) loc_data = false
        /\ Py.eqb (label_value e) (Py.get loc_data "nama_posko" (PStr "")) = true
        /\ sync_one P pg_data srv e = (Already_complete, [], srv))
  \/ (exists loc_data,
        pg_data !! uuid e = Some loc_data
        /\ Py.truthy (Py.get loc_data "nama_posko" (PStr "")) = true
        /\ (has_missing_field (default ∅ (data e)) loc_data = true
            \/ Py.eqb (label_value e) (Py.get loc_data "nama_posko" (PStr ""))
               = false)
        /\ let request :=
             {| req_uuid := uuid e;
                req_label := Py.get loc_data "nama_posko" (PStr "");
                req_data := loc_data;
                req_base_version :=
                  fst (get_entity_version P srv (uuid e)) |} in
           let response :=
             fst (http_patch P (snd (get_entity_version P srv (uuid e)))
                    request) in
           let srv' :=
             snd (http_patch P (snd (get_entity_version P srv (uuid e)))
                    request) in
           sync_one P pg_data srv e
           = (match update_entity_result response with
              | (true, _) => Updated
              | (false, error) => Error error
              end,
              [GET (uuid e); PATCH request], srv')).
Proof.
  unfold sync_one.
  destruct (pg_data !! uuid e) as [loc_data|] eqn:Epg; [|left; auto].
  set (label := Py.get loc_data "nama_posko" (PStr "")).
  destruct (Py.truthy label) eqn:El; cbn [negb].
  2:{ left. split; [reflexivity|]. right. exists loc_data. auto. }
  destruct (has_missing_field (default ∅ (data e)) loc_data) eqn:Em;
    cbn [orb negb].
  - right. right. exists loc_data. repeat split; auto.
    cbv zeta. unfold update_entity.
    destruct (get_entity_version P srv (uuid e)) as [bv srv1]. cbn [fst snd].
    destruct (http_patch P srv1 _) as [response srv2]. cbn [fst snd].
    destruct (update_entity_result response) as [[] error]; reflexivity.
  - destruct (Py.eqb (label_value e) label) eqn:Eq; cbn [negb].
    + right. left. exists loc_data. auto.
    + right. right. exists loc_data. repeat split; auto.
      cbv zeta. unfold update_entity.
      destruct (get_entity_version P srv (uuid e)) as [bv srv1]. cbn [fst snd].
      destruct (http_patch P srv1 _) as [response srv2]. cbn [fst snd].
      destruct (update_entity_result response) as [[] error]; reflexivity.
Qed.

Lemma step_calls st e :
  calls (step P pg_data st e)
  = calls st ++ snd (fst (sync_one P pg_data (srv_now st) e)).
Proof.
  unfold step. destruct (sync_one P pg_data (srv_now st) e) as [[r made] s].
  reflexivity.
Qed.

(** Every call of a run is made by [sync_one] for one of the entities. *)
Lemma run_calls_elem es st c :
  In c (calls (fold_left (step P pg_data) es st)) ->
  In c (calls st)
  \/ exists e srv, In e es /\ In c (snd (fst (sync_one P pg_data srv e))).
Proof.
  revert st. induction es as [|e es IH]; intros st; simpl; [auto|].
  intros H. apply IH in H as [H|(e' & srv & Hin & Hc)].
  - rewrite step_calls in H. apply in_app_iff in H as [H|H]; [auto|].
    right. exists e, (srv_now st). auto.
  - right. exists e', srv. auto.
Qed.

End PropertySync.

Section PgData.
Import update_odk_entities.

Lemma clean_value_str v : exists s, clean_value v = PStr s.
Proof. destruct v; simpl; eauto. Qed.

Lemma fold_add_row_lookup rows d entity_uuid loc_data :
  fold_left add_row rows d !! entity_uuid = Some loc_data ->
  d !! entity_uuid = Some loc_data
  \/ exists row, In row rows
       /\ row !! "entity_id" = Some (PStr entity_uuid)
       /\ loc_data = clean_value <$> delete "entity_id" row.
Proof.
  revert d. induction rows as [|row rows IH]; intros d; simpl; [auto|].
  intros H. apply IH in H as [H|(r & Hin & Hr)]; [|right; exists r; tauto].
  unfold add_row in H.
  destruct (row !! "entity_id") as [[| | |entity_id]|] eqn:Eid; auto.
  destruct (nonempty entity_id); auto.
  destruct (decide (entity_id = entity_uuid)) as [->|Hne].
  - rewrite lookup_insert_eq in H. injection H as <-.
    right. exists row. auto.
  - rewrite lookup_insert_ne in H by exact Hne. auto.
Qed.

(** Every entry of [pg_data] is a cleaned row of the query. *)
Lemma pg_data_cleaned rows entity_uuid loc_data :
  get_pg_data_via_docker rows !! entity_uuid = Some loc_data ->
  exists row, In row rows
    /\ row !! "entity_id" = Some (PStr entity_uuid)
    /\ loc_data = clean_value <$> delete "entity_id" row.
Proof.
  intros H. apply fold_add_row_lookup in H as [H|H]; [|exact H].
  rewrite lookup_empty in H. discriminate.
Qed.

Lemma cleaned_values_str (row : gmap string pyval) key v :
  (clean_value <$> row) !! key = Some v -> exists s, v = PStr s.
Proof.
  rewrite lookup_fmap. destruct (row !! key) as [w|]; [|discriminate].
  intros [= <-]. apply clean_value_str.
Qed.

End PgData.

(** Where an update made for one entity comes from. *)
Lemma patch_of_sync_one
    (P : platform) (pg_data : gmap string (gmap string pyval))
    (srv : server P) (e : entity) (request : patch_request) :
  In (PATCH request) (snd (fst (update_odk_entities.sync_one P pg_data srv e))) ->
  exists loc_data,
    pg_data !! uuid e = Some loc_data
    /\ request
       = {| req_uuid := uuid e;
            req_label := Py.get loc_data "nama_posko" (PStr "");
            req_data := loc_data;
            req_base_version :=
              fst (update_odk_entities.get_entity_version P srv (uuid e)) |}
    /\ (update_odk_entities.has_missing_field (default ∅ (data e)) loc_data = true
        \/ Py.eqb (update_odk_entities.label_value e)
                  (Py.get loc_data "nama_posko" (PStr "")) = false).
Proof.
  intros Hc.
  destruct (sync_one_cases P pg_data srv e)
    as [[E _]|[(loc & _ & _ & _ & _ & E)|(loc & Hpg & _ & Htrig & E)]].
  - rewrite E in Hc. destruct Hc.
  - rewrite E in Hc. destruct Hc.
  - cbv zeta in E. rewrite E in Hc. cbn [fst snd] in Hc.
    destruct Hc as [Hc|[Hc|[]]]; [discriminate|]. injection Hc as <-.
    exists loc. auto.
Qed.

(** C1, as the code has it.  Every update a run submits carries the cleaned
    map of the relational store for that entity, as it is, and the label the
    store gives: the values held by the platform are read to decide whether
    to submit, never to build what is submitted.  An update is submitted
    only when some field is empty on the platform and not in the store, or
    when the label differs; a field that is not empty on the platform never
    causes one. *)
Theorem sync_submits_store_map
    (P : platform) (srv : server P) (odk_entities : list entity)
    (rows : list (gmap string pyval)) (request : patch_request) :
  In (PATCH request)
     (update_odk_entities.calls
        (update_odk_entities.main P srv odk_entities rows)) ->
  exists e loc_data,
    In e odk_entities
    /\ update_odk_entities.get_pg_data_via_docker rows !! uuid e = Some loc_data
    /\ req_uuid request = uuid e
    /\ req_data request = loc_data
    /\ req_label request = Py.get loc_data "nama_posko" (PStr "")
    /\ ((exists key pg_value,
           loc_data !! key = Some pg_value
           /\ Py.truthy pg_value = true
           /\ Py.truthy (Py.get (default ∅ (data e)) key (PStr "")) = false)
        \/ Py.eqb (update_odk_entities.label_value e)
                  (Py.get loc_data "nama_posko" (PStr "")) = false).
Proof.
  unfold update_odk_entities.main. intros H.
  apply run_calls_elem in H as [[]|(e & srv' & Hin & Hc)].
  apply patch_of_sync_one in Hc as (loc_data & Hpg & -> & Htrig).
  exists e, loc_data. cbn [req_uuid req_data req_label].
  repeat split; auto.
  destruct Htrig as [Hm|Hl]; [left|now right].
  now apply has_missing_field_spec.
Qed.

Lemma sync_submits_store_map_witness :
  In (PATCH (Examples.posko_request 3))
     (update_odk_entities.calls
        (update_odk_entities.main Examples.quiet_platform 3%Z
           [Examples.posko_blang] Examples.posko_rows))
  /\ exists e loc_data,
       In e [Examples.posko_blang]
       /\ update_odk_entities.get_pg_data_via_docker Examples.posko_rows
            !! uuid e = Some loc_data
       /\ req_data (Examples.posko_request 3) = loc_data.
Proof.
  assert (H : In (PATCH (Examples.posko_request 3))
     (update_odk_entities.calls
        (update_odk_entities.main Examples.quiet_platform 3%Z
           [Examples.posko_blang] Examples.posko_rows))).
  { vm_compute. right. left. reflexivity. }
  split; [exact H|].
  destruct (sync_submits_store_map Examples.quiet_platform 3%Z
              [Examples.posko_blang] Examples.posko_rows
              (Examples.posko_request 3) H)
    as (e & loc_data & He & Hpg & _ & Hd & _).
  exists e, loc_data. auto.
Defined.

(** C1, as the specification has it, fails: the platform holds "12" for
    [jumlah_kk], the store holds "20", a field is missing on the platform,
    and the update that is submitted carries "20" for [jumlah_kk]. *)
Lemma sync_overwrites_external_value :
  default ∅ (data Examples.posko_blang) !! "jumlah_kk" = Some (PStr "12")
  /\ update_odk_entities.calls
       (update_odk_entities.main Examples.quiet_platform 3%Z
          [Examples.posko_blang] Examples.posko_rows)
     = [GET "A1"; PATCH (Examples.posko_request 3)]
  /\ req_data (Examples.posko_request 3) !! "jumlah_kk" = Some (PStr "20").
Proof. vm_compute. auto. Qed.

(** C9.  For an entity with a row in the relational store, when the label
    computed from the store equals the label of the entity and every field
    that is not empty in the store is not empty on the platform, no call is
    made to the platform and the server is left as it was; the entity is
    counted "already complete" (when the computed label is empty, the code
    counts it under "no PG data" instead, still without any call). *)
Theorem sync_no_change_needed
    (P : platform) (pg_data : gmap string (gmap string pyval))
    (st : update_odk_entities.run_state P) (e : entity)
    (loc_data : gmap string pyval) :
  pg_data !! uuid e = Some loc_data ->
  Py.eqb (update_odk_entities.label_value e)
         (Py.get loc_data "nama_posko" (PStr "")) = true ->
  (forall key pg_value,
      loc_data !! key = Some pg_value -> Py.truthy pg_value = true ->
      Py.truthy (Py.get (default ∅ (data e)) key (PStr "")) = true) ->
  let st' := update_odk_entities.step P pg_data st e in
  snd (fst (update_odk_entities.sync_one P pg_data
              (update_odk_entities.srv_now st) e)) = []
  /\ update_odk_entities.calls st' = update_odk_entities.calls st
  /\ update_odk_entities.srv_now st' = update_odk_entities.srv_now st
  /\ update_odk_entities.n_updated st' = update_odk_entities.n_updated st
  /\ update_odk_entities.n_errors st' = update_odk_entities.n_errors st
  /\ (Py.truthy (Py.get loc_data "nama_posko" (PStr "")) = true ->
      fst (fst (update_odk_entities.sync_one P pg_data
                  (update_odk_entities.srv_now st) e))
      = update_odk_entities.Already_complete
      /\ update_odk_entities.n_skipped st'
         = S (update_odk_entities.n_skipped st)).
Proof.
  intros Hpg Hlabel Hfields st'.
  assert (Hm : update_odk_entities.has_missing_field (default ∅ (data e)) loc_data
               = false).
  { destruct (update_odk_entities.has_missing_field _ _) eqn:E; [|reflexivity].
    apply has_missing_field_spec in E as (key & v & Hk & Hv & Ho).
    rewrite (Hfields key v Hk Hv) in Ho. discriminate. }
  assert (Hone :
    update_odk_entities.sync_one P pg_data (update_odk_entities.srv_now st) e
    = (if Py.truthy (Py.get loc_data "nama_posko" (PStr ""))
       then update_odk_entities.Already_complete
       else update_odk_entities.No_pg_data,
       [], update_odk_entities.srv_now st)).
  { unfold update_odk_entities.sync_one. rewrite Hpg.
    destruct (Py.truthy (Py.get loc_data "nama_posko" (PStr ""))); cbn [negb];
      [|reflexivity].
    now rewrite Hm, Hlabel. }
  unfold st', update_odk_entities.step. rewrite Hone. cbn.
  rewrite app_nil_r.
  destruct (Py.truthy (Py.get loc_data "nama_posko" (PStr "")));
    repeat split; auto; discriminate.
Qed.

Lemma sync_no_change_needed_witness :
  fst (fst (update_odk_entities.sync_one Examples.quiet_platform
              Examples.posko_data 4%Z Examples.posko_blang_complete))
  = update_odk_entities.Already_complete
  /\ snd (fst (update_odk_entities.sync_one Examples.quiet_platform
                 Examples.posko_data 4%Z Examples.posko_blang_complete))
     = [].
Proof.
  pose (st := {| update_odk_entities.srv_now := 4%Z : server Examples.quiet_platform;
                 update_odk_entities.n_updated := 0;
                 update_odk_entities.n_skipped := 0;
                 update_odk_entities.n_errors := 0;
                 update_odk_entities.n_no_pg_data := 0;
                 update_odk_entities.calls := [] |}).
  destruct (sync_no_change_needed Examples.quiet_platform Examples.posko_data
              st Examples.posko_blang_complete
              (Examples.posko_request 0).(req_data))
    as (Hcalls & _ & _ & _ & _ & Hdone).
  - vm_compute. reflexivity.
  - vm_compute. reflexivity.
  - intros key pg_value Hk Hv.
    destruct (Py.truthy (Py.get _ key (PStr ""))) eqn:Ho; [reflexivity|].
    assert (Hm : update_odk_entities.has_missing_field
                   (default ∅ (data Examples.posko_blang_complete))
                   (req_data (Examples.posko_request 0)) = true)
      by (apply has_missing_field_spec; eauto).
    vm_compute in Hm. discriminate Hm.
  - split; [|exact Hcalls]. apply Hdone. reflexivity.
Defined.

(** C10.  Every update a run submits carries, for the row of the query with
    that entity identifier, the row without [entity_id] and with every
    value cleaned: the empty string for a null, the [str] of the value
    otherwise.  All its values, and its label, are strings. *)
Theorem submitted_values_are_strings
    (P : platform) (srv : server P) (odk_entities : list entity)
    (rows : list (gmap string pyval)) (request : patch_request) :
  In (PATCH request)
     (update_odk_entities.calls
        (update_odk_entities.main P srv odk_entities rows)) ->
  (exists row,
     In row rows
     /\ row !! "entity_id" = Some (PStr (req_uuid request))
     /\ req_data request
        = update_odk_entities.clean_value <$> delete "entity_id" row
     /\ (forall key, key <> "entity_id" -> row !! key = Some PNone ->
                     req_data request !! key = Some (PStr ""))
     /\ (forall key v, key <> "entity_id" -> row !! key = Some v -> v <> PNone ->
                       req_data request !! key = Some (PStr (Py.str v))))
  /\ (forall key v, req_data request !! key = Some v -> exists s, v = PStr s)
  /\ (exists s, req_label request = PStr s).
Proof.
  intros H.
  unfold update_odk_entities.main in H.
  apply run_calls_elem in H as [[]|(e & srv' & _ & Hc)].
  apply patch_of_sync_one in Hc as (loc & Hpg & Hreq & _).
  assert (Hu : req_uuid request = uuid e) by now rewrite Hreq.
  assert (Hd : req_data request = loc) by now rewrite Hreq.
  assert (Hl : req_label request = Py.get loc "nama_posko" (PStr ""))
    by now rewrite Hreq.
  clear Hreq.
  apply pg_data_cleaned in Hpg as (row & Hin & Hid & Hloc).
  rewrite <- Hu in Hid. rewrite <- Hd in Hloc, Hl.
  split; [|split].
  - exists row. repeat split; auto.
    + intros key Hk Hr. rewrite Hloc, lookup_fmap, lookup_delete_ne by congruence.
      now rewrite Hr.
    + intros key v Hk Hr Hv.
      rewrite Hloc, lookup_fmap, lookup_delete_ne by congruence.
      rewrite Hr. now destruct v.
  - intros key v. rewrite Hloc. apply cleaned_values_str.
  - rewrite Hl. unfold Py.get.
    destruct (req_data request !! "nama_posko") as [v|] eqn:E; [|eauto].
    rewrite Hloc in E. exact (cleaned_values_str _ _ _ E).
Qed.

Lemma submitted_values_are_strings_witness :
  In (PATCH (Examples.posko_request 3))
     (update_odk_entities.calls
        (update_odk_entities.main Examples.quiet_platform 3%Z
           [Examples.posko_blang] Examples.posko_rows))
  /\ forall key v,
       req_data (Examples.posko_request 3) !! key = Some v ->
       exists s, v = PStr s.
Proof.
  assert (H : In (PATCH (Examples.posko_request 3))
     (update_odk_entities.calls
        (update_odk_entities.main Examples.quiet_platform 3%Z
           [Examples.posko_blang] Examples.posko_rows))).
  { vm_compute. right. left. reflexivity. }
  split; [exact H|].
  exact (proj1 (proj2 (submitted_values_are_strings Examples.quiet_platform 3%Z
                         [Examples.posko_blang] Examples.posko_rows
                         (Examples.posko_request 3) H))).
Defined.

Section Conflicts.
Local Open Scope list_scope.

Lemma update_entity_result_rejected response :
  status_code response <> 200%Z -> status_code response <> 201%Z ->
  update_entity_result response
  = (false,
     Some ("Status " +:+ pretty (status_code response) +:+ ": "
           +:+ take_chars 200 (text response))).
Proof.
  intros H0 H1. unfold update_entity_result.
  apply Z.eqb_neq in H0, H1. now rewrite H0, H1.
Qed.

Lemma update_entity_result_accepted response :
  status_code response = 200%Z \/ status_code response = 201%Z ->
  update_entity_result response = (true, None).
Proof.
  intros [H|H]; unfold update_entity_result; rewrite H; reflexivity.
Qed.

(** The facility script makes no call, or one read and one update. *)
Lemma update_one_calls P faskes_data srv e :
  snd (fst (update_faskes_kecamatan_desa.update_one P faskes_data srv e)) = []
  \/ exists request,
       snd (fst (update_faskes_kecamatan_desa.update_one P faskes_data srv e))
       = [GET (uuid e); PATCH request].
Proof.
  unfold update_faskes_kecamatan_desa.update_one.
  destruct (faskes_data !! _) as [csv_info|]; [|now left].
  destruct (update_faskes_kecamatan_desa.needs_update _ _); cbn [negb];
    [|now left].
  destruct (update_faskes_kecamatan_desa.get_entity P srv (uuid e))
    as [detail srv1].
  destruct (http_patch P srv1 _) as [response srv2] eqn:Ep.
  right. eexists.
  destruct (update_entity_result response) as [[] error]; reflexivity.
Qed.

End Conflicts.

(** C7, as the code has it.  A response to an update with any status other
    than 200 and 201, the one of a stale version among them, is reported as
    the failure [(False, "Status <code>: <first 200 characters>")] and
    counted as an error.  For one entity a run makes no call at all, or one
    read of the version followed by one update: an update that is rejected
    is not read again and not retried, in either script. *)
Theorem rejected_update_is_error_without_retry
    (P : platform) (pg_data : gmap string (gmap string pyval))
    (faskes_data : gmap string (gmap string string))
    (srv : server P) (e : entity) (response : patch_response) :
  (status_code response <> 200%Z -> status_code response <> 201%Z ->
   update_entity_result response
   = (false,
      Some ("Status " +:+ pretty (status_code response) +:+ ": "
            +:+ take_chars 200 (text response))))
  /\ (snd (fst (update_odk_entities.sync_one P pg_data srv e)) = []
      /\ (fst (fst (update_odk_entities.sync_one P pg_data srv e))
            = update_odk_entities.No_pg_data
          \/ fst (fst (update_odk_entities.sync_one P pg_data srv e))
            = update_odk_entities.Already_complete)
      \/ exists request,
           snd (fst (update_odk_entities.sync_one P pg_data srv e))
             = [GET (uuid e); PATCH request]
           /\ fst (fst (update_odk_entities.sync_one P pg_data srv e))
              = match update_entity_result
                        (fst (http_patch P
                                (snd (update_odk_entities.get_entity_version
                                        P srv (uuid e)))
                                request)) with
                | (true, _) => update_odk_entities.Updated
                | (false, error) => update_odk_entities.Error error
                end)
  /\ (length (List.filter is_patch
                (snd (fst (update_odk_entities.sync_one P pg_data srv e))))
      <= 1)%nat
  /\ (length (List.filter is_patch
                (snd (fst (update_faskes_kecamatan_desa.update_one
                             P faskes_data srv e))))
      <= 1)%nat.
Proof.
  split; [apply update_entity_result_rejected|].
  assert (Hc := sync_one_cases P pg_data srv e).
  split; [|split].
  - destruct Hc as [[E _]|[(loc & _ & _ & _ & _ & E)|(loc & _ & _ & _ & E)]].
    + left. rewrite E. auto.
    + left. rewrite E. auto.
    + right. cbv zeta in E. eexists. rewrite E. cbn [fst snd]. split; reflexivity.
  - destruct Hc as [[E _]|[(loc & _ & _ & _ & _ & E)|(loc & _ & _ & _ & E)]];
      cbv zeta in E; rewrite E; cbn; auto.
  - destruct (update_one_calls P faskes_data srv e) as [E|[request E]];
      rewrite E; cbn; auto.
Qed.

Lemma rejected_update_is_error_without_retry_witness :
  update_entity_result {| status_code := 409; text := "version conflict" |}
  = (false, Some "Status 409: version conflict").
Proof.
  exact (proj1 (rejected_update_is_error_without_retry
                  Examples.busy_platform Examples.posko_data ∅ 3%Z
                  Examples.posko_blang
                  {| status_code := 409; text := "version conflict" |})
           ltac:(discriminate) ltac:(discriminate)).
Defined.

(** C7, as the specification has it, fails: an update that names a version
    the platform has left behind comes back as the same error outcome as an
    update on a platform out of service, it is counted with the errors, and
    nothing is read again or sent again. *)
Lemma stale_version_is_plain_error :
  update_odk_entities.sync_one Examples.busy_platform Examples.posko_data
    3%Z Examples.posko_blang
  = (update_odk_entities.Error (Some "Status 409: version conflict"),
     [GET "A1"; PATCH (Examples.posko_request 3)], 4%Z)
  /\ update_odk_entities.sync_one Examples.failing_platform Examples.posko_data
       tt Examples.posko_blang
     = (update_odk_entities.Error (Some "Status 503: unavailable"),
        [GET "A1"; PATCH (Examples.posko_request 1)], tt)
  /\ update_odk_entities.n_errors
       (update_odk_entities.main Examples.busy_platform 3%Z
          [Examples.posko_blang] Examples.posko_rows)
     = 1%nat.
Proof. vm_compute. auto. Qed.

(** * Further properties *)

(** ** Name normalizer: case, margins, alphabet *)

Section Margins.

Lemma lower_upper_char c : lower_char (upper_char c) = lower_char c.
Proof. destruct c as [[] [] [] [] [] [] [] []]; reflexivity. Qed.

Lemma upper_upper_char c : upper_char (upper_char c) = upper_char c.
Proof. destruct c as [[] [] [] [] [] [] [] []]; reflexivity. Qed.

Lemma upper_lower_char c : upper_char (lower_char c) = upper_char c.
Proof. destruct c as [[] [] [] [] [] [] [] []]; reflexivity. Qed.

Lemma is_space_lower_char c : is_space (lower_char c) = is_space c.
Proof. destruct c as [[] [] [] [] [] [] [] []]; reflexivity. Qed.

Lemma is_space_upper_char c : is_space (upper_char c) = is_space c.
Proof. destruct c as [[] [] [] [] [] [] [] []]; reflexivity. Qed.

Lemma map_chars_compose f g h s :
  (forall c, f (g c) = h c) -> map_chars f (map_chars g s) = map_chars h s.
Proof.
  intros Hc. induction s as [|c t IH]; simpl; [reflexivity|].
  now rewrite Hc, IH.
Qed.

Lemma map_chars_nonempty f s : nonempty (map_chars f s) = nonempty s.
Proof. now destruct s. Qed.

Lemma lstrip_map f s :
  (forall c, is_space (f c) = is_space c) ->
  lstrip (map_chars f s) = map_chars f (lstrip s).
Proof.
  intros Hf. induction s as [|c t IH]; simpl; [reflexivity|].
  rewrite Hf. now destruct (is_space c).
Qed.

Lemma rstrip_map f s :
  (forall c, is_space (f c) = is_space c) ->
  rstrip (map_chars f s) = map_chars f (rstrip s).
Proof.
  intros Hf. induction s as [|c t IH]; simpl; [reflexivity|].
  rewrite IH, Hf. destruct (rstrip t); simpl; [|reflexivity].
  now destruct (is_space c).
Qed.

Lemma strip_map f s :
  (forall c, is_space (f c) = is_space c) ->
  strip (map_chars f s) = map_chars f (strip s).
Proof.
  intros Hf. unfold strip. now rewrite rstrip_map, lstrip_map.
Qed.

Lemma lstrip_fixed s : head_not_space s = true -> lstrip s = s.
Proof.
  destruct s as [|c t]; simpl; [reflexivity|].
  intros H. apply negb_true_iff in H. now rewrite H.
Qed.

Lemma strip_idem s : strip (strip s) = strip s.
Proof.
  destruct (strip_shape s) as [Hr Hh].
  unfold strip at 1. rewrite Hr. now apply lstrip_fixed.
Qed.

Lemma strip_fixed s :
  rstrip s = s -> head_not_space s = true -> strip s = s.
Proof. intros Hr Hh. unfold strip. rewrite Hr. now apply lstrip_fixed. Qed.

(** [normalize_name] on a name that is all white space. *)
Lemma normalize_name_blank s :
  strip s = "" -> normalize_name (Some s) = "".
Proof.
  intros Hs. unfold normalize_name. destruct (nonempty s); [|reflexivity].
  unfold lower. rewrite (strip_map lower_char s is_space_lower_char), Hs.
  reflexivity.
Qed.

Lemma normalize_name_strip s :
  normalize_name (Some (strip s)) = normalize_name (Some s).
Proof.
  destruct (strip s) as [|c t] eqn:Es.
  - symmetry. now apply normalize_name_blank.
  - rewrite <- Es. unfold normalize_name.
    assert (nonempty (strip s) = true) as -> by now rewrite Es.
    assert (nonempty s = true) as -> by (destruct s; [discriminate Es|reflexivity]).
    unfold lower.
    rewrite !(strip_map lower_char _ is_space_lower_char).
    now rewrite strip_idem.
Qed.

Lemma normalize_name_upper s :
  normalize_name (Some (upper s)) = normalize_name (Some s).
Proof.
  unfold normalize_name, upper, lower. rewrite map_chars_nonempty.
  now rewrite (map_chars_compose _ _ _ s lower_upper_char).
Qed.

(** The fuzzy key is computed from the normal form alone. *)
Lemma fuzzy_of_normal_form s :
  normalize_for_fuzzy (Some s)
  = replace_pair "t" "j" "c"
      (replace_pair "d" "j" "j"
         (replace_pair "o" "e" "u"
            (remove_char " " (normalize_name (Some s))))).
Proof.
  unfold normalize_for_fuzzy, normalize_name. now destruct (nonempty s).
Qed.

Lemma same_normal_form_same_fuzzy_key s t :
  normalize_name (Some s) = normalize_name (Some t) ->
  normalize_for_fuzzy (Some s) = normalize_for_fuzzy (Some t).
Proof. intros H. now rewrite !fuzzy_of_normal_form, H. Qed.

End Margins.

(** X1.  On a name of ASCII characters both name transforms ignore the
    case of the letters.  On every name they ignore the white space around
    it, and two names with the same normal form have the same fuzzy key:
    what the exact lookup matches, the fuzzy one matches. *)
Theorem normalizer_ignores_case_and_margins (x y : string) :
  (ascii_only x = true ->
   normalize_name (Some (upper x)) = normalize_name (Some x)
   /\ normalize_name (Some (lower x)) = normalize_name (Some x)
   /\ normalize_for_fuzzy (Some (upper x)) = normalize_for_fuzzy (Some x))
  /\ normalize_name (Some (strip x)) = normalize_name (Some x)
  /\ normalize_for_fuzzy (Some (strip x)) = normalize_for_fuzzy (Some x)
  /\ (normalize_name (Some x) = normalize_name (Some y) ->
      normalize_for_fuzzy (Some x) = normalize_for_fuzzy (Some y)).
Proof.
  assert (Hl : normalize_name (Some (lower x)) = normalize_name (Some x)).
  { rewrite <- (normalize_name_upper (lower x)), <- (normalize_name_upper x).
    unfold upper, lower.
    now rewrite (map_chars_compose _ _ _ x upper_lower_char). }
  split; [intros _; split; [|split]|split; [|split]].
  - apply normalize_name_upper.
  - exact Hl.
  - apply same_normal_form_same_fuzzy_key, normalize_name_upper.
  - apply normalize_name_strip.
  - apply same_normal_form_same_fuzzy_key, normalize_name_strip.
  - apply same_normal_form_same_fuzzy_key.
Qed.

Lemma normalizer_ignores_case_and_margins_witness :
  ascii_only "Desa Lam Asan" = true
  /\ normalize_name (Some "DESA LAM ASAN") = normalize_name (Some "Desa Lam Asan")
  /\ normalize_name (Some "Desa Lam Asan") = normalize_name (Some "  LAM asan ")
  /\ normalize_for_fuzzy (Some "Desa Lam Asan")
     = normalize_for_fuzzy (Some "  LAM asan ").
Proof.
  destruct (normalizer_ignores_case_and_margins "Desa Lam Asan" "  LAM asan ")
    as (Hcase & _ & _ & Hkey).
  split; [reflexivity|]. split; [|split].
  - exact (proj1 (Hcase eq_refl)).
  - reflexivity.
  - apply Hkey. reflexivity.
Defined.

(** X2.  For a name of ASCII characters, the fuzzy key is made of the
    characters [a-z0-9_] only (no white space, no punctuation, no capital)
    and holds neither "oe" nor "tj"; and when the name has no punctuation
    its normal form is empty or made of such words separated by single
    blanks. *)
Theorem normalizer_output_alphabet (x : string) :
  ascii_only x = true ->
  let key := normalize_for_fuzzy (Some x) in
  all_chars is_name_char key = true
  /\ has_pair "o" "e" key = false
  /\ has_pair "t" "j" key = false
  /\ remove_char " " key = key
  /\ lower key = key
  /\ (no_punctuation x = true ->
      normalize_name (Some x) = ""
      \/ spaced_words_from true (normalize_name (Some x)) = true).
Proof.
  intros _ key. unfold key.
  pose proof (fuzzy_chars (Some x)) as Hc.
  split; [exact Hc|]. split; [apply fuzzy_no_oe|]. split; [apply fuzzy_no_tj|].
  split; [now apply name_chars_remove_blank|]. split.
  - destruct (normalize_for_fuzzy (Some x)) as [|c t] eqn:E; [reflexivity|].
    rewrite <- E in *. apply (spaced_words_lower true).
    apply name_chars_spaced; [exact Hc|]. intros _. now rewrite E.
  - apply normalize_name_spaced.
Qed.

Lemma normalizer_output_alphabet_witness :
  ascii_only "Kp  Tjot OE" = true
  /\ no_punctuation "Kp  Tjot OE" = true
  /\ all_chars is_name_char (normalize_for_fuzzy (Some "Kp  Tjot OE")) = true
  /\ spaced_words_from true (normalize_name (Some "Kp  Tjot OE")) = true.
Proof.
  destruct (normalizer_output_alphabet "Kp  Tjot OE" eq_refl)
    as (Hchars & _ & _ & _ & _ & Hwords).
  split; [reflexivity|]. split; [reflexivity|]. split; [exact Hchars|].
  destruct (Hwords eq_refl) as [H|H]; [discriminate H|exact H].
Defined.

(** ** Lookup tables: the last row wins *)

Section LastRow.
Context {R K A : Type} `{Countable K}.
Variables (guard : R -> bool) (key : R -> K) (val : R -> A).
Local Open Scope list_scope.

Lemma dict_of_rows_snoc rows row :
  Py.dict_of_rows guard key val (rows ++ [row])
  = Py.put_row guard key val (Py.dict_of_rows guard key val rows) row.
Proof. unfold Py.dict_of_rows. now rewrite fold_left_app. Qed.

Lemma fold_rows_later rows (d : gmap K A) k :
  (forall r, In r rows -> guard r = true -> key r <> k) ->
  fold_left (Py.put_row guard key val) rows d !! k = d !! k.
Proof.
  revert d. induction rows as [|row rows IH]; intros d Hno; [reflexivity|].
  simpl. rewrite IH by (intros r Hr; apply Hno; now right).
  unfold Py.put_row. destruct (guard row) eqn:Hg; [|reflexivity].
  apply lookup_insert_ne. apply Hno; [now left|exact Hg].
Qed.

(** The entry under a key is the value of the last row that passes the
    guard and has that key. *)
Lemma dict_of_rows_last rows k v :
  Py.dict_of_rows guard key val rows !! k = Some v <->
  exists l1 r l2,
    rows = l1 ++ r :: l2 /\ guard r = true /\ key r = k /\ val r = v
    /\ (forall r', In r' l2 -> guard r' = true -> key r' <> k).
Proof.
  split.
  - induction rows as [|row rows IH] using rev_ind.
    + unfold Py.dict_of_rows. simpl. now rewrite lookup_empty.
    + rewrite dict_of_rows_snoc. unfold Py.put_row.
      destruct (guard row) eqn:Hg.
      * destruct (decide (key row = k)) as [Ek|Nk].
        -- subst k. rewrite lookup_insert_eq. intros [= <-].
           exists rows, row, []. repeat split; auto; now intros r' [].
        -- rewrite lookup_insert_ne by exact Nk. intros Hl.
           destruct (IH Hl) as (l1 & r & l2 & -> & Hgr & Hk & Hv & Hno).
           exists l1, r, (l2 ++ [row]). rewrite <- app_assoc. repeat split; auto.
           intros r' Hr'. apply in_app_iff in Hr' as [Hr'|[<-|[]]]; auto.
      * intros Hl.
        destruct (IH Hl) as (l1 & r & l2 & -> & Hgr & Hk & Hv & Hno).
        exists l1, r, (l2 ++ [row]). rewrite <- app_assoc. repeat split; auto.
        intros r' Hr'. apply in_app_iff in Hr' as [Hr'|[<-|[]]]; auto.
        congruence.
  - intros (l1 & r & l2 & -> & Hg & Hk & Hv & Hno).
    unfold Py.dict_of_rows. rewrite fold_left_app. simpl.
    rewrite fold_rows_later by exact Hno.
    unfold Py.put_row. rewrite Hg, Hk, Hv. apply lookup_insert_eq.
Qed.

End LastRow.

Section FinerKey.
Context {R K A : Type} `{Countable K}.
Variables (guard : R -> bool) (key key2 : R -> K) (val : R -> A).

(** When a second key is a function of the first, an entry found under the
    second key is also the entry under the first key of its row. *)
Lemma dict_of_rows_finer rows k2 v :
  (forall r r', key r = key r' -> key2 r = key2 r') ->
  Py.dict_of_rows guard key2 val rows !! k2 = Some v ->
  exists r, In r rows /\ guard r = true /\ key2 r = k2 /\ val r = v
    /\ Py.dict_of_rows guard key val rows !! key r = Some v.
Proof.
  intros Hfun Hl.
  apply dict_of_rows_last in Hl as (l1 & r & l2 & -> & Hg & Hk & Hv & Hno).
  exists r. split; [apply in_elt|]. repeat split; auto.
  apply dict_of_rows_last. exists l1, r, l2. repeat split; auto.
  intros r' Hr' Hg' Hkey. apply (Hno r' Hr' Hg'). rewrite <- Hk.
  now apply Hfun.
Qed.

End FinerKey.

(** X3.  In the tables built from the backbone files a key belongs to the
    last row of the file that has it: the entry under a key is the value of
    a row with a name and a code after which no row with a name and a code
    has the same key.  Rows without a name or without a code are in no
    table. *)
Theorem tables_last_row_wins
    (b : update_faskes_kecamatan_desa.backbone) (rows : list desa_row) :
  (forall n kode,
      update_faskes_kecamatan_desa.lk_provinsi
        (update_faskes_kecamatan_desa.load_location_lookups b) !! n = Some kode <->
      exists l1 r l2,
        update_faskes_kecamatan_desa.provinsi_csv b = (l1 ++ r :: l2)%list
        /\ update_faskes_kecamatan_desa.provinsi_guard r = true
        /\ upper (prov_nama r) = n /\ prov_kode r = kode
        /\ forall r', In r' l2 ->
             update_faskes_kecamatan_desa.provinsi_guard r' = true ->
             upper (prov_nama r') <> n)
  /\ (forall p n info,
        update_faskes_kecamatan_desa.lk_kecamatan
          (update_faskes_kecamatan_desa.load_location_lookups b) !! (p, n)
        = Some info <->
        exists l1 r l2,
          update_faskes_kecamatan_desa.kecamatan_csv b = (l1 ++ r :: l2)%list
          /\ update_faskes_kecamatan_desa.kecamatan_guard r = true
          /\ (kec_id_kota_kab r, upper (kec_nama r)) = (p, n)
          /\ {| update_faskes_kecamatan_desa.kec_info_kode := kec_kode r;
                update_faskes_kecamatan_desa.kec_info_id_kota_kab :=
                  kec_id_kota_kab r;
                update_faskes_kecamatan_desa.kec_info_nama := kec_nama r |}
             = info
          /\ forall r', In r' l2 ->
               update_faskes_kecamatan_desa.kecamatan_guard r' = true ->
               (kec_id_kota_kab r', upper (kec_nama r')) <> (p, n))
  /\ (forall k info,
        fst (load_desa_lookup rows) !! k = Some info <->
        exists l1 r l2,
          rows = (l1 ++ r :: l2)%list
          /\ lookup_kecamatan_from_desa.desa_guard r = true
          /\ normalize_name (Some (desa_nama r)) = k
          /\ desa_info_of r = info
          /\ forall r', In r' l2 ->
               lookup_kecamatan_from_desa.desa_guard r' = true ->
               normalize_name (Some (desa_nama r')) <> k)
  /\ (forall k,
        (forall r, In r rows ->
           lookup_kecamatan_from_desa.desa_guard r = true ->
           normalize_name (Some (desa_nama r)) <> k) ->
        fst (load_desa_lookup rows) !! k = None).
Proof.
  split; [|split; [|split]].
  - intros n kode. apply dict_of_rows_last.
  - intros p n info. apply dict_of_rows_last.
  - intros k info. apply dict_of_rows_last.
  - intros k Hno. unfold load_desa_lookup. cbn [fst].
    now apply dict_of_rows_None.
Qed.

Lemma tables_last_row_wins_witness :
  fst (load_desa_lookup
         [ {| desa_kode := "1"; desa_nama := "Lam Asan"; desa_id_kec := "A" |};
           {| desa_kode := "2"; desa_nama := "LAM ASAN"; desa_id_kec := "B" |};
           {| desa_kode := "3"; desa_nama := ""; desa_id_kec := "C" |} ])
    !! "lam asan"
  = Some {| info_id_kec := "B"; info_nama := "LAM ASAN" |}.
Proof.
  apply (proj1 (proj2 (proj2 (tables_last_row_wins Examples.aceh_backbone _)))).
  exists [ {| desa_kode := "1"; desa_nama := "Lam Asan"; desa_id_kec := "A" |} ],
         {| desa_kode := "2"; desa_nama := "LAM ASAN"; desa_id_kec := "B" |},
         [ {| desa_kode := "3"; desa_nama := ""; desa_id_kec := "C" |} ].
  repeat split.
  intros r' [<-|[]] Hg. discriminate Hg.
Defined.

(** ** The village repair pass *)

Section RepairPass.
Local Open Scope list_scope.

Variable rows : list desa_row.

(** What is found for a village is found again, in the exact table, for the
    official name it carries. *)
Lemma find_desa_official desa info :
  find_desa (fst (load_desa_lookup rows)) (snd (load_desa_lookup rows)) desa = Some info ->
  fst (load_desa_lookup rows) !! normalize_name (Some (info_nama info)) = Some info.
Proof.
  unfold find_desa, load_desa_lookup.
  cbn [fst snd].
  destruct (Py.dict_of_rows _ _ _ rows !! normalize_name (Some desa))
    as [i|] eqn:E.
  - intros [= <-].
    pose proof E as E'.
    apply dict_of_rows_Some in E' as (r & _ & _ & Hk & Hv).
    rewrite <- Hv at 1. cbn [desa_info_of info_nama]. now rewrite Hk.
  - intros E2.
    apply (dict_of_rows_finer lookup_kecamatan_from_desa.desa_guard
             (fun row => normalize_name (Some (desa_nama row)))) in E2
      as (r & _ & _ & _ & Hv & Hl).
    + rewrite <- Hv at 1. cbn [desa_info_of info_nama]. exact Hl.
    + intros r r'. apply same_normal_form_same_fuzzy_key.
Qed.

Lemma find_desa_again desa info :
  find_desa (fst (load_desa_lookup rows)) (snd (load_desa_lookup rows)) desa = Some info ->
  find_desa (fst (load_desa_lookup rows)) (snd (load_desa_lookup rows)) (strip (info_nama info)) = Some info.
Proof.
  intros Hf. apply find_desa_official in Hf.
  unfold find_desa. now rewrite normalize_name_strip, Hf.
Qed.

End RepairPass.

(** X4.  The repair pass never touches the type, the name, the province or
    the regency of a facility.  A row without a village, or whose village is
    in neither table, is written back as it was.  Otherwise the village
    becomes the official name of a backbone row with the same normal form or
    fuzzy key, and the subdistrict becomes the name of the backbone
    subdistrict whose code is the parent code of that row; when no such
    subdistrict is in the table the subdistrict column is kept. *)
Theorem repair_pass_result
    (rows : list desa_row) (kecs : list kecamatan_row) (row : faskes_row) :
  let out := process_row (fst (load_desa_lookup rows)) (snd (load_desa_lookup rows))
               (load_kecamatan_lookup kecs) row in
  JENIS_FASYANKES (fst out) = JENIS_FASYANKES row
  /\ NAMA (fst out) = NAMA row
  /\ PROVINSI (fst out) = PROVINSI row
  /\ KABUPATEN (fst out) = KABUPATEN row
  /\ match snd out with
     | NoDesa => fst out = row /\ strip (DESA row) = ""
     | DesaNotFound =>
         fst out = row
         /\ forall r, In r rows ->
              lookup_kecamatan_from_desa.desa_guard r = true ->
              normalize_name (Some (desa_nama r))
                <> normalize_name (Some (strip (DESA row)))
              /\ normalize_for_fuzzy (Some (desa_nama r))
                <> normalize_for_fuzzy (Some (strip (DESA row)))
     | KecNotFound =>
         KECAMATAN (fst out) = KECAMATAN row
         /\ exists r, In r rows /\ DESA (fst out) = desa_nama r
              /\ (normalize_name (Some (desa_nama r))
                    = normalize_name (Some (strip (DESA row)))
                  \/ normalize_for_fuzzy (Some (desa_nama r))
                    = normalize_for_fuzzy (Some (strip (DESA row))))
              /\ forall k, In k kecs -> kec_kode k = desa_id_kec r ->
                   kec_kode k = "" \/ kec_nama k = ""
     | Looked_up =>
         exists r k,
           In r rows /\ In k kecs
           /\ DESA (fst out) = desa_nama r
           /\ KECAMATAN (fst out) = kec_nama k
           /\ kec_kode k = desa_id_kec r
           /\ (normalize_name (Some (desa_nama r))
                 = normalize_name (Some (strip (DESA row)))
               \/ normalize_for_fuzzy (Some (desa_nama r))
                 = normalize_for_fuzzy (Some (strip (DESA row))))
     end.
Proof.
  unfold process_row.
  destruct (nonempty (strip (DESA row))) eqn:En; cbn [negb].
  2:{ cbn. repeat split; auto. now apply nonempty_false. }
  destruct (find_desa _ _ (strip (DESA row))) as [info|] eqn:Ef.
  2:{ cbn. repeat split; auto.
      - intros Hk.
        destruct (find_desa_by_fuzzy_key rows (strip (DESA row)) r) as [i Hi];
          auto; [|congruence].
        now apply same_normal_form_same_fuzzy_key.
      - intros Hk.
        destruct (find_desa_by_fuzzy_key rows (strip (DESA row)) r) as [i Hi];
          auto. congruence. }
  apply find_desa_row in Ef as (r & Hr & <- & Hmatch).
  cbn [desa_info_of info_nama info_id_kec].
  destruct (load_kecamatan_lookup kecs !! desa_id_kec r) as [kn|] eqn:Ek.
  - apply dict_of_rows_Some in Ek as (k & Hk & Hg & Hkode & <-).
    apply andb_true_iff in Hg as [_ Hn]. rewrite Hn. cbn.
    repeat split; auto. exists r, k. repeat split; auto.
  - cbn. repeat split; auto. exists r.
    split; [exact Hr|]. split; [reflexivity|]. split; [exact Hmatch|].
    intros k Hk Hkode.
    destruct (nonempty (kec_kode k)) eqn:N1; [|left; now apply nonempty_false].
    destruct (nonempty (kec_nama k)) eqn:N2; [|right; now apply nonempty_false].
    exfalso.
    destruct (dict_of_rows_is_Some
                (fun row => nonempty (kec_kode row) && nonempty (kec_nama row))
                kec_kode kec_nama kecs k Hk) as [v Hv].
    + now rewrite N1, N2.
    + unfold load_kecamatan_lookup in Ek. rewrite Hkode in Hv. congruence.
Qed.

(** X5.  Running the repair pass on a row it has repaired gives the same
    row: the file the script writes back is a fixed point of the script,
    whether the village was found by its normal form or by its fuzzy key. *)
Theorem repair_pass_idempotent
    (rows : list desa_row) (kecamatan_lookup : gmap string string)
    (row : faskes_row) :
  let pass := process_row (fst (load_desa_lookup rows))
                (snd (load_desa_lookup rows)) kecamatan_lookup in
  fst (pass (fst (pass row))) = fst (pass row).
Proof.
  cbv zeta. unfold process_row at 2 3.
  destruct (nonempty (strip (DESA row))) eqn:En; cbn [negb fst].
  2:{ unfold process_row. now rewrite En. }
  destruct (find_desa _ _ (strip (DESA row))) as [info|] eqn:Ef; cbn [fst].
  2:{ unfold process_row. now rewrite En, Ef. }
  apply find_desa_again in Ef.
  destruct (kecamatan_lookup !! info_id_kec info) as [kn|] eqn:Ek.
  - destruct (nonempty kn) eqn:Ekn; cbn [negb fst];
      unfold process_row; cbn [DESA];
      (destruct (nonempty (strip (info_nama info))); cbn [negb fst];
       [rewrite Ef, Ek, Ekn; reflexivity | reflexivity]).
  - cbn [fst]. unfold process_row. cbn [DESA].
    destruct (nonempty (strip (info_nama info))); cbn [negb fst];
      [rewrite Ef, Ek; reflexivity | reflexivity].
Qed.

Lemma repair_pass_result_witness :
  exists r k,
    In r (update_faskes_kecamatan_desa.desa_csv Examples.aceh_backbone)
    /\ In k (update_faskes_kecamatan_desa.kecamatan_csv Examples.aceh_backbone)
    /\ desa_nama r = "LAM ASAN" /\ kec_nama k = "KUTA BARO"
    /\ kec_kode k = desa_id_kec r.
Proof.
  pose proof (repair_pass_result
                (update_faskes_kecamatan_desa.desa_csv Examples.aceh_backbone)
                (update_faskes_kecamatan_desa.kecamatan_csv Examples.aceh_backbone)
                (Examples.faskes "" "" "" " Gampong Lamasan"))
    as (_ & _ & _ & _ & H).
  match type of H with
  | match snd ?o with _ => _ end =>
      assert (E : o = ({| JENIS_FASYANKES := "Puskesmas"; NAMA := "Kuta Baro";
                          PROVINSI := ""; KABUPATEN := "";
                          KECAMATAN := "KUTA BARO"; DESA := "LAM ASAN" |},
                       Looked_up))
        by (vm_compute; reflexivity);
      rewrite E in H
  end.
  cbn [fst snd DESA KECAMATAN] in H.
  destruct H as (r & k & Hr & Hk & Hd & Hkn & Hp & _).
  exists r, k. auto.
Defined.

(** ** Facility script: names, table of facilities, merge *)

Section KabName.
Import update_faskes_kecamatan_desa.

Lemma upper_idem s : upper (upper s) = upper s.
Proof. apply map_chars_compose, upper_upper_char. Qed.

Lemma upper_strip s : strip (upper s) = upper (strip s).
Proof. apply strip_map, is_space_upper_char. Qed.

Lemma map_chars_append f s t :
  map_chars f (String.append s t) = String.append (map_chars f s) (map_chars f t).
Proof. induction s as [|c s IH]; simpl; [reflexivity|]. now rewrite IH. Qed.

Lemma rstrip_append s t :
  t <> "" -> rstrip t = t -> rstrip (String.append s t) = String.append s t.
Proof.
  intros Hne Ht. induction s as [|c s IH]; [exact Ht|].
  change (String.append (String c s) t) with (String c (String.append s t)).
  cbn [rstrip]. rewrite IH.
  destruct (String.append s t) eqn:E; [|reflexivity].
  destruct s; [|discriminate E].
  change (String.append "" t) with t in E. congruence.
Qed.

Lemma after_literal_startswith p s rest :
  after_literal p s = Some rest -> startswith s p = true.
Proof. unfold startswith. now intros ->. Qed.

Lemma normalize_kab_name_fixed a :
  a <> "" -> upper a = a -> rstrip a = a -> head_not_space a = true ->
  let y := if negb (startswith a "KAB.") && negb (startswith a "KOTA")
           then String.append "KAB. " a else a in
  normalize_kab_name y = y
  /\ (startswith y "KAB." = true \/ startswith y "KOTA" = true).
Proof.
  intros Hne Hu Hr Hh.
  destruct (startswith a "KAB.") eqn:E1; cbn [negb andb].
  - split; [|now left]. unfold normalize_kab_name.
    rewrite Hu, (strip_fixed a Hr Hh), E1. reflexivity.
  - destruct (startswith a "KOTA") eqn:E2; cbn [negb andb].
    + split; [|now right]. unfold normalize_kab_name.
      rewrite Hu, (strip_fixed a Hr Hh), E1, E2. reflexivity.
    + split; [|now left]. unfold normalize_kab_name.
      assert (Hup : upper (String.append "KAB. " a) = String.append "KAB. " a).
      { unfold upper. rewrite map_chars_append. fold (upper a). now rewrite Hu. }
      rewrite Hup.
      assert (Hst : strip (String.append "KAB. " a) = String.append "KAB. " a).
      { apply strip_fixed; [now apply rstrip_append | reflexivity]. }
      rewrite Hst. reflexivity.
Qed.

End KabName.

(** X6.  For a regency name of ASCII characters that is not blank,
    [normalize_kab_name] gives a name that begins with "KAB." or with
    "KOTA", on which a second call changes nothing, and which does not
    depend on the case of the letters nor on the white space around the
    name.  For a blank name the second call does change the result. *)
Theorem normalize_kab_name_stable (nama : string) :
  ascii_only nama = true ->
  strip nama <> "" ->
  let y := update_faskes_kecamatan_desa.normalize_kab_name nama in
  (startswith y "KAB." = true \/ startswith y "KOTA" = true)
  /\ update_faskes_kecamatan_desa.normalize_kab_name y = y
  /\ update_faskes_kecamatan_desa.normalize_kab_name (lower nama) = y
  /\ update_faskes_kecamatan_desa.normalize_kab_name (strip nama) = y
  /\ update_faskes_kecamatan_desa.normalize_kab_name
       (update_faskes_kecamatan_desa.normalize_kab_name "")
     <> update_faskes_kecamatan_desa.normalize_kab_name "".
Proof.
  intros _ Hne y.
  set (a := strip (upper nama)).
  destruct (strip_shape (upper nama)) as [Hr Hh]. fold a in Hr, Hh.
  assert (Ha : a <> "").
  { unfold a. rewrite upper_strip. destruct (strip nama); [now destruct Hne|].
    discriminate. }
  assert (Hu : upper a = a).
  { unfold a. rewrite upper_strip. apply upper_idem. }
  destruct (normalize_kab_name_fixed a Ha Hu Hr Hh) as [Hfix Hpre].
  change y with (if negb (startswith a "KAB.") && negb (startswith a "KOTA")
                 then String.append "KAB. " a else a).
  split; [exact Hpre|]. split; [exact Hfix|]. split; [|split].
  - unfold update_faskes_kecamatan_desa.normalize_kab_name.
    assert (upper (lower nama) = upper nama) as ->; [|reflexivity].
    apply map_chars_compose, upper_lower_char.
  - unfold update_faskes_kecamatan_desa.normalize_kab_name.
    rewrite <- upper_strip, strip_idem. reflexivity.
  - vm_compute. discriminate.
Qed.

Lemma normalize_kab_name_stable_witness :
  ascii_only " aceh besar " = true
  /\ update_faskes_kecamatan_desa.normalize_kab_name " aceh besar "
     = "KAB. ACEH BESAR"
  /\ update_faskes_kecamatan_desa.normalize_kab_name "KAB. ACEH BESAR"
     = "KAB. ACEH BESAR".
Proof.
  split; [reflexivity|]. split; [reflexivity|].
  assert (H : strip " aceh besar " <> "") by (vm_compute; discriminate).
  exact (proj1 (proj2 (normalize_kab_name_stable " aceh besar " eq_refl H))).
Defined.

Section FaskesData.
Import update_faskes_kecamatan_desa.

Lemma faskes_name_puskesmas row :
  JENIS_FASYANKES row = "Puskesmas" ->
  startswith (faskes_name row) "Puskesmas" = true.
Proof.
  intros HJ. unfold faskes_name. rewrite HJ. cbn [String.eqb Ascii.eqb andb].
  change (String.eqb "Puskesmas" "Puskesmas") with true. cbn [andb].
  destruct (startswith (NAMA row) "Puskesmas") eqn:E; cbn [negb]; [exact E|].
  reflexivity.
Qed.

Lemma faskes_entry_fields lk row :
  faskes_entry lk row !! "nama_faskes" = Some (faskes_name row)
  /\ faskes_entry lk row !! "jenis_faskes" = Some (jenis_faskes_of row)
  /\ faskes_entry lk row !! "nama_kecamatan" = Some (strip (KECAMATAN row))
  /\ faskes_entry lk row !! "nama_desa" = Some (strip (DESA row))
  /\ faskes_entry lk row !! "nama_provinsi" = Some (strip (PROVINSI row))
  /\ faskes_entry lk row !! "nama_kota_kab" = Some (strip (KABUPATEN row))
  /\ faskes_entry lk row !! "id_desa" = Some (sel_desa (look_up_ids lk row)).
Proof.
  unfold faskes_entry. cbv zeta.
  repeat split;
    repeat (first [ apply lookup_insert_eq
                  | rewrite lookup_insert_ne by discriminate ]).
Qed.

Lemma faskes_entry_dom lk row :
  dom (faskes_entry lk row) = list_to_set fields_to_update.
Proof.
  unfold faskes_entry. cbv zeta. rewrite !dom_insert_L, dom_empty_L.
  reflexivity.
Qed.

End FaskesData.

(** X7.  The table of facilities has one entry per facility name, that of
    the last row of the file with that name; every entry holds exactly the
    seven fields the update loop reads, its [nama_faskes] is the key it is
    stored under, its [id_desa] is the village code resolved for the row,
    and the key of a row of type "Puskesmas" begins with that word. *)
Theorem faskes_table_entries
    (lk : update_faskes_kecamatan_desa.lookups) (rows : list faskes_row)
    (k : string) (info : gmap string string) :
  update_faskes_kecamatan_desa.load_faskes_data lk rows !! k = Some info ->
  (exists l1 row l2,
     rows = (l1 ++ row :: l2)%list
     /\ update_faskes_kecamatan_desa.faskes_name row = k
     /\ (forall row', In row' l2 ->
           update_faskes_kecamatan_desa.faskes_name row' <> k)
     /\ info !! "jenis_faskes"
        = Some (update_faskes_kecamatan_desa.jenis_faskes_of row)
     /\ info !! "id_desa"
        = Some (update_faskes_kecamatan_desa.sel_desa
                  (update_faskes_kecamatan_desa.look_up_ids lk row))
     /\ info !! "nama_desa" = Some (strip (DESA row))
     /\ info !! "nama_kecamatan" = Some (strip (KECAMATAN row))
     /\ (JENIS_FASYANKES row = "Puskesmas" -> startswith k "Puskesmas" = true))
  /\ info !! "nama_faskes" = Some k
  /\ dom info = list_to_set update_faskes_kecamatan_desa.fields_to_update.
Proof.
  intros Hl. unfold update_faskes_kecamatan_desa.load_faskes_data in Hl.
  apply dict_of_rows_last in Hl as (l1 & row & l2 & -> & _ & Hk & <- & Hno).
  destruct (faskes_entry_fields lk row) as (H1 & H2 & H3 & H4 & _ & _ & H7).
  split; [|split].
  - exists l1, row, l2. repeat split; auto.
    intros HJ. rewrite <- Hk. now apply faskes_name_puskesmas.
  - now rewrite H1, Hk.
  - apply faskes_entry_dom.
Qed.

Lemma faskes_table_entries_witness :
  exists info,
    update_faskes_kecamatan_desa.load_faskes_data Examples.aceh_lookups
      [Examples.row_other_province; Examples.row_without_province]
      !! "Puskesmas Kuta Baro" = Some info
    /\ info !! "nama_faskes" = Some "Puskesmas Kuta Baro"
    /\ dom info = list_to_set update_faskes_kecamatan_desa.fields_to_update.
Proof.
  eexists. split; [vm_compute; reflexivity|].
  refine (proj2 (faskes_table_entries Examples.aceh_lookups
            [Examples.row_other_province; Examples.row_without_province]
            "Puskesmas Kuta Baro" _ _)).
  vm_compute. reflexivity.
Defined.

Section Merge.
Import update_faskes_kecamatan_desa.

Lemma merge_fold_lookup (csv_info : gmap string string) fields
    (current_data : gmap string pyval) k :
  fold_left (fun update_data field =>
               let new_val := Py.get csv_info field "" in
               if nonempty new_val
               then <[field := PStr new_val]> update_data
               else update_data)
            fields current_data !! k
  = if bool_decide (k ∈ fields) && nonempty (Py.get csv_info k "")
    then Some (PStr (Py.get csv_info k ""))
    else current_data !! k.
Proof.
  revert current_data. induction fields as [|f fs IH]; intros cur; [reflexivity|].
  cbn [fold_left]. rewrite IH. cbv zeta.
  destruct (decide (k = f)) as [->|Hne].
  - rewrite (bool_decide_eq_true_2 (f ∈ f :: fs)) by (apply elem_of_cons; now left).
    destruct (nonempty (Py.get csv_info f "")) eqn:En.
    + rewrite andb_true_r, lookup_insert_eq. cbn [andb].
      now destruct (bool_decide (f ∈ fs)).
    + now rewrite !andb_false_r.
  - assert (bool_decide (k ∈ f :: fs) = bool_decide (k ∈ fs)) as ->.
    { apply bool_decide_ext. rewrite elem_of_cons. tauto. }
    destruct (bool_decide (k ∈ fs) && nonempty (Py.get csv_info k ""));
      [reflexivity|].
    destruct (nonempty (Py.get csv_info f "")); [|reflexivity].
    now apply lookup_insert_ne.
Qed.

Lemma merge_update_lookup csv_info current_data k :
  merge_update csv_info current_data !! k
  = if bool_decide (k ∈ fields_to_update) && nonempty (Py.get csv_info k "")
    then Some (PStr (Py.get csv_info k ""))
    else current_data !! k.
Proof. apply merge_fold_lookup. Qed.

Lemma py_eqb_str s v : Py.eqb (PStr s) v = true <-> v = PStr s.
Proof.
  destruct v; simpl; split; try discriminate.
  - intros H. apply String.eqb_eq in H. now subst.
  - intros [= ->]. apply String.eqb_refl.
Qed.

Lemma needs_update_false csv_info current_data :
  needs_update csv_info current_data = false <->
  forall field, field ∈ fields_to_update ->
    Py.get csv_info field "" <> "" ->
    current_data !! field = Some (PStr (Py.get csv_info field "")).
Proof.
  unfold needs_update. split.
  - intros Hn field Hf Hne.
    destruct (Py.eqb (PStr (Py.get csv_info field ""))
                (Py.get current_data field (PStr ""))) eqn:Eq.
    + apply py_eqb_str in Eq. unfold Py.get at 1 in Eq.
      destruct (current_data !! field) as [v|]; [now subst|].
      injection Eq as Eq. now destruct Hne.
    + exfalso. apply not_true_iff_false in Hn. apply Hn.
      apply existsb_exists. exists field. split; [now apply list_elem_of_In|].
      cbv zeta. rewrite Eq. apply nonempty_true in Hne. now rewrite Hne.
  - intros Hall.
    destruct (existsb _ fields_to_update) eqn:E; [|reflexivity].
    apply existsb_exists in E as (field & Hf & Hb). cbv zeta in Hb.
    apply andb_true_iff in Hb as [Hne Hb]. apply negb_true_iff in Hb.
    apply list_elem_of_In in Hf. apply nonempty_true in Hne.
    rewrite <- Hb. symmetry. apply py_eqb_str.
    unfold Py.get at 1. now rewrite (Hall field Hf Hne).
Qed.

End Merge.

(** X8.  The merge of the facility script keeps every property the entity
    already has: a key is never dropped, a key outside the seven fields
    keeps its value, and one of the seven fields is overwritten exactly
    when the facility file has a non-empty value for it, with that value. *)
Theorem merge_keeps_other_properties
    (csv_info : gmap string string) (current_data : gmap string pyval)
    (k : string) :
  (update_faskes_kecamatan_desa.merge_update csv_info current_data !! k
   = if bool_decide (k ∈ update_faskes_kecamatan_desa.fields_to_update)
        && nonempty (Py.get csv_info k "")
     then Some (PStr (Py.get csv_info k ""))
     else current_data !! k)
  /\ (k ∉ update_faskes_kecamatan_desa.fields_to_update ->
      update_faskes_kecamatan_desa.merge_update csv_info current_data !! k
      = current_data !! k)
  /\ (is_Some (current_data !! k) ->
      is_Some (update_faskes_kecamatan_desa.merge_update csv_info current_data
                 !! k))
  /\ (forall v,
        update_faskes_kecamatan_desa.merge_update csv_info current_data !! k
          = Some v ->
        current_data !! k = Some v
        \/ exists s, v = PStr s /\ s <> "" /\ csv_info !! k = Some s).
Proof.
  pose proof (merge_update_lookup csv_info current_data k) as Hl.
  split; [exact Hl|]. split; [|split].
  - intros Hk. rewrite Hl.
    now rewrite (bool_decide_eq_false_2 _ Hk).
  - intros Hs. rewrite Hl. destruct (_ && _); eauto.
  - intros v. rewrite Hl.
    destruct (bool_decide _ && nonempty (Py.get csv_info k "")) eqn:E; [|auto].
    apply andb_true_iff in E as [_ En]. intros [= <-]. right.
    exists (Py.get csv_info k ""). split; [reflexivity|].
    apply nonempty_true in En. split; [exact En|].
    unfold Py.get in *. destruct (csv_info !! k); [reflexivity|now destruct En].
Qed.

Lemma merge_keeps_other_properties_witness :
  update_faskes_kecamatan_desa.merge_update
    {[ "nama_desa" := "LAM ASAN"; "id_desa" := "" ]}
    {[ "geometry" := PStr "5.5 95.3 0 0"; "id_desa" := PStr "11.06.15.2001" ]}
    !! "geometry"
  = Some (PStr "5.5 95.3 0 0").
Proof.
  rewrite (proj1 (proj2 (merge_keeps_other_properties
             {[ "nama_desa" := "LAM ASAN"; "id_desa" := "" ]}
             {[ "geometry" := PStr "5.5 95.3 0 0";
                "id_desa" := PStr "11.06.15.2001" ]} "geometry"))).
  - reflexivity.
  - intros H. apply list_elem_of_In in H. simpl in H.
    intuition discriminate.
Defined.

(** X9.  The facility update is a fixed point: on the merged map no field
    needs an update any more, and where no field needs an update the merge
    changes nothing.  No update is needed exactly when every field the
    facility file fills is held by the entity with the same string. *)
Theorem merge_settles_needs_update
    (csv_info : gmap string string) (current_data : gmap string pyval) :
  update_faskes_kecamatan_desa.needs_update csv_info
    (update_faskes_kecamatan_desa.merge_update csv_info current_data) = false
  /\ (update_faskes_kecamatan_desa.needs_update csv_info current_data = false ->
      update_faskes_kecamatan_desa.merge_update csv_info current_data
      = current_data)
  /\ (update_faskes_kecamatan_desa.needs_update csv_info current_data = false <->
      forall field,
        field ∈ update_faskes_kecamatan_desa.fields_to_update ->
        Py.get csv_info field "" <> "" ->
        current_data !! field = Some (PStr (Py.get csv_info field ""))).
Proof.
  split; [|split].
  - apply needs_update_false. intros field Hf Hne.
    rewrite merge_update_lookup.
    rewrite (bool_decide_eq_true_2 _ Hf).
    apply nonempty_true in Hne. now rewrite Hne.
  - intros Hn. apply map_eq. intros k. rewrite merge_update_lookup.
    destruct (bool_decide (k ∈ update_faskes_kecamatan_desa.fields_to_update))
      eqn:Ek; [|reflexivity].
    apply bool_decide_eq_true in Ek.
    destruct (nonempty (Py.get csv_info k "")) eqn:En; [|reflexivity].
    cbn [andb]. symmetry.
    apply (proj1 (needs_update_false csv_info current_data) Hn k Ek).
    now apply nonempty_true.
  - apply needs_update_false.
Qed.

Lemma merge_settles_needs_update_witness :
  update_faskes_kecamatan_desa.merge_update
    {[ "nama_desa" := "LAM ASAN"; "id_desa" := "" ]}
    {[ "nama_desa" := PStr "LAM ASAN"; "id_desa" := PStr "11.06.15.2001" ]}
  = {[ "nama_desa" := PStr "LAM ASAN"; "id_desa" := PStr "11.06.15.2001" ]}.
Proof.
  apply (proj1 (proj2 (merge_settles_needs_update _ _))).
  vm_compute. reflexivity.
Defined.

(** ** Facility script: what is sent *)

Section FaskesRequest.
Import update_faskes_kecamatan_desa.
Local Open Scope list_scope.

(** Where an update of the facility script comes from. *)
Lemma patch_of_update_one P faskes_data srv e request :
  In (PATCH request) (snd (fst (update_one P faskes_data srv e))) ->
  exists csv_info,
    faskes_data
      !! match currentVersion e with
         | Some cv => default "" (cv_label cv)
         | None => ""
         end = Some csv_info
    /\ needs_update csv_info (default ∅ (data e)) = true
    /\ request
       = {| req_uuid := uuid e;
            req_label :=
              PStr match currentVersion e with
                   | Some cv => default "" (cv_label cv)
                   | None => ""
                   end;
            req_data :=
              merge_update csv_info
                (default ∅ (data (fst (get_entity P srv (uuid e)))));
            req_base_version :=
              match currentVersion (fst (get_entity P srv (uuid e))) with
              | Some cv => default 1%Z (cv_version cv)
              | None => 1%Z
              end |}.
Proof.
  unfold update_one.
  destruct (faskes_data !! _) as [csv_info|] eqn:Ef; [|now intros []].
  destruct (needs_update csv_info (default ∅ (data e))) eqn:En; cbn [negb];
    [|now intros []].
  destruct (get_entity P srv (uuid e)) as [detail srv1]. cbn [fst].
  destruct (http_patch P srv1 _) as [response srv2].
  destruct (update_entity_result response) as [[] error]; cbn [fst snd];
    (intros [Hin|[Hin|[]]]; [discriminate Hin|]; injection Hin as <-;
     exists csv_info; auto).
Qed.

Lemma get_entity_failed P srv entity_uuid :
  get_status (fst (http_get P srv entity_uuid)) <> 200%Z ->
  fst (get_entity P srv entity_uuid) = empty_entity.
Proof.
  intros Hs. unfold get_entity.
  destruct (http_get P srv entity_uuid) as [response srv1]. cbn [fst] in *.
  apply Z.eqb_neq in Hs. now rewrite Hs.
Qed.

Lemma get_entity_version_failed P srv entity_uuid :
  get_status (fst (http_get P srv entity_uuid)) <> 200%Z ->
  fst (update_odk_entities.get_entity_version P srv entity_uuid) = 1%Z.
Proof.
  intros Hs. unfold update_odk_entities.get_entity_version.
  destruct (http_get P srv entity_uuid) as [response srv1]. cbn [fst] in *.
  apply Z.eqb_neq in Hs. now rewrite Hs.
Qed.

End FaskesRequest.

(** X10.  An update of the facility script is sent for an entity whose
    label, the one of its [currentVersion] as the platform lists it (the
    empty string when there is none), is a facility of the file, and for
    which some field differs.  It carries that label unchanged, the version
    and the properties read just before from the platform, every property
    outside the seven fields as it was read, and on it no field needs an
    update any more. *)
Theorem facility_update_request
    (P : platform) (faskes_data : gmap string (gmap string string))
    (srv : server P) (e : entity) (request : patch_request) :
  In (PATCH request)
     (snd (fst (update_faskes_kecamatan_desa.update_one P faskes_data srv e))) ->
  let label := match currentVersion e with
               | Some cv => default "" (cv_label cv)
               | None => ""
               end in
  let detail := fst (update_faskes_kecamatan_desa.get_entity P srv (uuid e)) in
  exists csv_info,
    faskes_data !! label = Some csv_info
    /\ req_label request = PStr label
    /\ req_uuid request = uuid e
    /\ update_faskes_kecamatan_desa.needs_update csv_info (default ∅ (data e))
       = true
    /\ req_data request
       = update_faskes_kecamatan_desa.merge_update csv_info
           (default ∅ (data detail))
    /\ (forall k, k ∉ update_faskes_kecamatan_desa.fields_to_update ->
                  req_data request !! k = default ∅ (data detail) !! k)
    /\ update_faskes_kecamatan_desa.needs_update csv_info (req_data request)
       = false
    /\ req_base_version request
       = match currentVersion detail with
         | Some cv => default 1%Z (cv_version cv)
         | None => 1%Z
         end.
Proof.
  intros Hin label detail.
  apply patch_of_update_one in Hin as (csv_info & Hf & Hn & ->).
  exists csv_info. split; [exact Hf|].
  cbn [req_label req_uuid req_data req_base_version]. fold detail.
  repeat split; auto.
  - intros k Hk.
    now rewrite merge_update_lookup, (bool_decide_eq_false_2 _ Hk).
  - apply needs_update_false. intros field Hfield Hne.
    rewrite merge_update_lookup, (bool_decide_eq_true_2 _ Hfield).
    apply nonempty_true in Hne. now rewrite Hne.
Qed.

(** X11.  A read that fails does not stop the update.  When the answer to
    the read of an entity has another status than 200: the property script,
    for an entity that has a named row in the store and needs an update,
    makes the read and then sends the row of the store under its name with
    base version 1; the facility script, for an entity whose label is a
    facility of the file and for which some field differs, makes the read
    and then sends, under that label and with base version 1, a map that
    holds the non-empty fields of that facility, as the file gives them,
    and nothing else. *)
Theorem failed_read_still_updates
    (P : platform) (pg_data : gmap string (gmap string pyval))
    (faskes_data : gmap string (gmap string string))
    (srv : server P) (e : entity)
    (loc_data : gmap string pyval) (csv_info : gmap string string) :
  get_status (fst (http_get P srv (uuid e))) <> 200%Z ->
  (pg_data !! uuid e = Some loc_data ->
   Py.truthy (Py.get loc_data "nama_posko" (PStr "")) = true ->
   update_odk_entities.has_missing_field (default ∅ (data e)) loc_data = true
   \/ Py.eqb (update_odk_entities.label_value e)
             (Py.get loc_data "nama_posko" (PStr "")) = false ->
   snd (fst (update_odk_entities.sync_one P pg_data srv e))
   = [GET (uuid e);
      PATCH {| req_uuid := uuid e;
               req_label := Py.get loc_data "nama_posko" (PStr "");
               req_data := loc_data;
               req_base_version := 1 |}])
  /\ (let label := match currentVersion e with
                   | Some cv => default "" (cv_label cv)
                   | None => ""
                   end in
      faskes_data !! label = Some csv_info ->
      update_faskes_kecamatan_desa.needs_update csv_info (default ∅ (data e))
      = true ->
      snd (fst (update_faskes_kecamatan_desa.update_one P faskes_data srv e))
      = [GET (uuid e);
         PATCH {| req_uuid := uuid e;
                  req_label := PStr label;
                  req_data :=
                    update_faskes_kecamatan_desa.merge_update csv_info ∅;
                  req_base_version := 1 |}]
      /\ forall k,
           update_faskes_kecamatan_desa.merge_update csv_info ∅ !! k
           = if bool_decide (k ∈ update_faskes_kecamatan_desa.fields_to_update)
                && nonempty (Py.get csv_info k "")
             then Some (PStr (Py.get csv_info k ""))
             else None).
Proof.
  intros Hs. split.
  - intros Hpg Hname Htrig.
    destruct (sync_one_cases P pg_data srv e)
      as [[_ [E|(loc & E & Hn)]]
         |[(loc & E & _ & Hm & Hq & _)|(loc & E & _ & _ & Hcalls)]].
    + congruence.
    + rewrite Hpg in E. injection E as <-. congruence.
    + rewrite Hpg in E. injection E as <-.
      destruct Htrig; congruence.
    + rewrite Hpg in E. injection E as <-.
      cbv zeta in Hcalls. rewrite Hcalls. cbn [fst snd].
      now rewrite (get_entity_version_failed P srv (uuid e) Hs).
  - intros label Hf Hn. split.
    + unfold update_faskes_kecamatan_desa.update_one. fold label.
      rewrite Hf, Hn. cbn [negb].
      pose proof (get_entity_failed P srv (uuid e) Hs) as Hd.
      destruct (update_faskes_kecamatan_desa.get_entity P srv (uuid e))
        as [detail srv1].
      cbn [fst] in Hd. subst detail.
      cbn [currentVersion data update_faskes_kecamatan_desa.empty_entity
           default].
      destruct (http_patch P srv1 _) as [response srv2].
      destruct (update_entity_result response) as [[] error]; reflexivity.
    + intros k. rewrite merge_update_lookup.
      destruct (bool_decide _ && nonempty _); [reflexivity|].
      apply lookup_empty.
Qed.

Lemma failed_read_still_updates_witness :
  snd (fst (update_odk_entities.sync_one Examples.failing_platform
              Examples.posko_data tt Examples.posko_blang))
  = [GET "A1"; PATCH (Examples.posko_request 1)]
  /\ snd (fst (update_faskes_kecamatan_desa.update_one Examples.failing_platform
                 Examples.puskesmas_table tt Examples.puskesmas_entity))
     = [GET "F1";
        PATCH {| req_uuid := "F1";
                 req_label := PStr "Puskesmas Kuta Baro";
                 req_data :=
                   update_faskes_kecamatan_desa.merge_update
                     (default ∅ (Examples.puskesmas_table
                                   !! "Puskesmas Kuta Baro")) ∅;
                 req_base_version := 1 |}].
Proof.
  split.
  - refine (proj1 (failed_read_still_updates Examples.failing_platform
                     Examples.posko_data ∅ tt Examples.posko_blang
                     (req_data (Examples.posko_request 1)) ∅ _) _ _ _).
    + vm_compute. discriminate.
    + vm_compute. reflexivity.
    + reflexivity.
    + left. vm_compute. reflexivity.
  - refine (proj1 (proj2 (failed_read_still_updates Examples.failing_platform
                            ∅ Examples.puskesmas_table tt
                            Examples.puskesmas_entity ∅
                            (default ∅ (Examples.puskesmas_table
                                          !! "Puskesmas Kuta Baro")) _)
                     _ _)).
    + vm_compute. discriminate.
    + vm_compute. reflexivity.
    + vm_compute. reflexivity.
Defined.

Lemma facility_update_request_witness :
  exists request,
    In (PATCH request)
       (snd (fst (update_faskes_kecamatan_desa.update_one Examples.quiet_platform
                    Examples.puskesmas_table 7%Z Examples.puskesmas_entity)))
    /\ req_base_version request = 7%Z
    /\ req_label request = PStr "Puskesmas Kuta Baro"
    /\ req_data request !! "jumlah_kk" = Some (PStr "12").
Proof.
  assert (H : exists request,
             In (PATCH request)
               (snd (fst (update_faskes_kecamatan_desa.update_one
                            Examples.quiet_platform Examples.puskesmas_table
                            7%Z Examples.puskesmas_entity)))).
  { eexists. vm_compute. right. left. reflexivity. }
  destruct H as [request H]. exists request. split; [exact H|].
  destruct (facility_update_request _ _ _ _ _ H)
    as (csv_info & Hf & Hl & _ & _ & _ & Hframe & _ & Hbase).
  split; [rewrite Hbase; reflexivity|]. split.
  - exact Hl.
  - rewrite Hframe; [reflexivity|].
    intros Hin. apply list_elem_of_In in Hin. simpl in Hin.
    intuition discriminate.
Defined.

(** ** Reconciler: label map, counters, effect on the store *)

Section LabelMap.
Import sync_entity_uuids.
Local Open Scope list_scope.

Lemma build_odk_by_label_snoc es e :
  build_odk_by_label (es ++ [e])
  = if nonempty (default "" (label e))
    then <[default "" (label e) := uuid e]> (build_odk_by_label es)
    else build_odk_by_label es.
Proof. unfold build_odk_by_label. now rewrite fold_left_app. Qed.

Lemma label_default e l : l <> "" -> default "" (label e) = l <-> label e = Some l.
Proof.
  intros Hl. destruct (label e) as [s|]; simpl; split; congruence.
Qed.

End LabelMap.

(** X12.  The label map of the reconciler holds, under a label, the
    identifier of the last listed entity with that label; the empty label
    is never a key, and an entity without a label is under no key. *)
Theorem label_map_last_entity (odk_entities : list entity) (l u : string) :
  sync_entity_uuids.build_odk_by_label odk_entities !! l = Some u <->
  l <> ""
  /\ exists l1 e l2,
       odk_entities = (l1 ++ e :: l2)%list
       /\ label e = Some l /\ uuid e = u
       /\ forall e', In e' l2 -> label e' <> Some l.
Proof.
  split.
  - induction odk_entities as [|e es IH] using rev_ind.
    + unfold sync_entity_uuids.build_odk_by_label. simpl.
      now rewrite lookup_empty.
    + rewrite build_odk_by_label_snoc.
      assert (Hold :
        sync_entity_uuids.build_odk_by_label es !! l = Some u ->
        label e <> Some l ->
        l <> ""
        /\ exists l1 e0 l2,
             (es ++ [e])%list = (l1 ++ e0 :: l2)%list
             /\ label e0 = Some l /\ uuid e0 = u
             /\ forall e', In e' l2 -> label e' <> Some l).
      { intros Hl Hne. destruct (IH Hl) as (Hnl & l1 & e0 & l2 & -> & H1 & H2 & H3).
        split; [exact Hnl|]. exists l1, e0, (l2 ++ [e])%list.
        rewrite <- app_assoc. repeat split; auto.
        intros e' He'. apply in_app_iff in He' as [He'|[<-|[]]]; auto. }
      destruct (nonempty (default "" (label e))) eqn:En.
      * destruct (decide (default "" (label e) = l)) as [El|Nl].
        -- rewrite El, lookup_insert_eq. intros [= <-].
           apply nonempty_true in En. rewrite El in En. split; [exact En|].
           exists es, e, []. split; [reflexivity|].
           split; [now apply label_default|]. split; [reflexivity|].
           now intros e' [].
        -- rewrite lookup_insert_ne by exact Nl. intros Hl.
           apply Hold; [exact Hl|]. intros He. apply Nl. now rewrite He.
      * intros Hl. apply Hold; [exact Hl|]. intros He.
        rewrite He in En. cbn in En. apply nonempty_false in En.
        destruct (IH Hl) as [Hnl _]. congruence.
  - intros (Hnl & l1 & e & l2 & -> & Hlab & Hu & Hno).
    unfold sync_entity_uuids.build_odk_by_label. rewrite fold_left_app.
    cbn [fold_left]. cbv zeta. rewrite Hlab.
    change (default "" (Some l)) with l.
    apply nonempty_true in Hnl. rewrite Hnl.
    set (d := fold_left _ l1 ∅). clearbody d. clear Hlab.
    subst u. revert d Hno.
    induction l2 as [|e' l2 IH]; intros d Hno.
    + apply lookup_insert_eq.
    + cbn [fold_left]. cbv zeta.
      assert (Hne : label e' <> Some l) by (apply Hno; now left).
      assert (Hrest : forall e'', In e'' l2 -> label e'' <> Some l)
        by (intros e'' H''; apply Hno; now right).
      destruct (nonempty (default "" (label e'))) eqn:En.
      * destruct (decide (default "" (label e') = l)) as [El|Nl].
        { exfalso. apply Hne. apply label_default; [|exact El].
          now apply nonempty_true. }
        rewrite insert_insert_ne by congruence. now apply IH.
      * now apply IH.
Qed.

Lemma label_map_last_entity_witness :
  sync_entity_uuids.build_odk_by_label
    [ Examples.posko_blang;
      {| uuid := "Z9"; label := None; currentVersion := None; data := None |};
      {| uuid := "A2"; label := Some "Posko Blang"; currentVersion := None;
         data := None |} ]
    !! "Posko Blang"
  = Some "A2".
Proof.
  apply (proj2 (label_map_last_entity _ "Posko Blang" "A2")).
  split; [discriminate|].
  exists [ Examples.posko_blang;
           {| uuid := "Z9"; label := None; currentVersion := None;
              data := None |} ],
         {| uuid := "A2"; label := Some "Posko Blang"; currentVersion := None;
            data := None |},
         [].
  repeat split. now intros e' [].
Defined.

Section ReconcilerEffect.
Import sync_entity_uuids.
Local Open Scope list_scope.

Variable db : database.
Variable odk_by_label : gmap string string.

Lemma calls_done_S n :
  calls_done db (S n) = calls_done db n + (if raises db n then 0 else 1).
Proof.
  unfold calls_done. rewrite seq_S, List.filter_app, length_app. cbn.
  now destruct (raises db n).
Qed.

Lemma calls_done_failed n :
  calls_done db n + length (List.filter (raises db) (seq 0 n)) = n.
Proof.
  induction n as [|n IH]; [reflexivity|].
  rewrite calls_done_S, seq_S, List.filter_app, length_app. cbn.
  destruct (raises db n); cbn; lia.
Qed.

Lemma match_one_counts st x :
  let st' := match_one db odk_by_label st x in
  already_match st' + length (no_match st') + length (updates st')
  = S (already_match st + length (no_match st) + length (updates st))
  /\ (updated st = calls_done db (length (updates st)) ->
      updated st' = calls_done db (length (updates st'))).
Proof.
  unfold match_one. destruct (odk_by_label !! nama x) as [u|].
  - destruct (bool_decide _); [cbn; split; [lia|auto]|].
    destruct (raises db (length (updates st))) eqn:E;
      cbn [updates updated already_match no_match];
      rewrite length_app; cbn [length]; (split; [lia|]);
      intros ->; rewrite Nat.add_1_r, calls_done_S, E; lia.
  - cbn [updates updated already_match no_match].
    rewrite length_app. cbn [length]. split; [lia|auto].
Qed.

Lemma match_all_counts l st :
  let st' := match_all db odk_by_label l st in
  already_match st' + length (no_match st') + length (updates st')
  = length l + (already_match st + length (no_match st) + length (updates st))
  /\ (updated st = calls_done db (length (updates st)) ->
      updated st' = calls_done db (length (updates st'))).
Proof.
  revert st. induction l as [|x l IH]; intros st; [cbn; auto|].
  change (match_all db odk_by_label (x :: l) st)
    with (match_all db odk_by_label l (match_one db odk_by_label st x)).
  destruct (IH (match_one db odk_by_label st x)) as [H1 H2].
  destruct (match_one_counts st x) as [H3 H4].
  cbv zeta in *. split; [cbn [length]; lia | auto].
Qed.

Lemma keeps_columns_refl l : keeps_columns l l.
Proof. unfold keeps_columns. intuition. Qed.

Lemma keeps_columns_trans l1 l2 l3 :
  keeps_columns l1 l2 -> keeps_columns l2 l3 -> keeps_columns l1 l3.
Proof.
  unfold keeps_columns.
  intros (A1 & A2 & A3 & A4 & A5) (B1 & B2 & B3 & B4 & B5).
  repeat split; try congruence; try tauto.
  intros k Hk. now rewrite B5, A5.
Qed.

Lemma keeps_columns_set time u l : keeps_columns l (set_entity_id time u l).
Proof.
  unfold keeps_columns, set_entity_id. cbn.
  destruct (raw_data l) as [object|]; repeat split; try easy.
  intros k Hk. cbn. apply lookup_insert_ne. congruence.
Qed.

Lemma row_after_keeps n us l : keeps_columns l (row_after db n us l).
Proof.
  revert n l. induction us as [|[i v] us IH]; intros n l;
    [apply keeps_columns_refl|].
  cbn [row_after fst snd].
  destruct (raises db n); [apply IH|].
  destruct (String.eqb (loc_id l) i); [|apply IH].
  eapply keeps_columns_trans; [apply keeps_columns_set | apply IH].
Qed.

Lemma set_entity_id_twice t t' u l :
  set_entity_id t' u (set_entity_id t u l) = set_entity_id t' u l.
Proof.
  unfold set_entity_id. cbn. destruct (raw_data l) as [object|]; [|reflexivity].
  now rewrite insert_insert_eq.
Qed.

Lemma row_after_untouched n us l :
  (forall i v, In (i, v) us -> i <> loc_id l) -> row_after db n us l = l.
Proof.
  revert n. induction us as [|[i v] us IH]; intros n Hno; [reflexivity|].
  cbn [row_after fst snd].
  assert (Hrest : forall j w, In (j, w) us -> j <> loc_id l)
    by (intros j w Hin; apply (Hno j w); now right).
  destruct (raises db n); [now apply IH|].
  destruct (String.eqb (loc_id l) i) eqn:E.
  - apply String.eqb_eq in E. destruct (Hno i v); [now left|now symmetry].
  - now apply IH.
Qed.

Lemma row_after_set n us l u t :
  (forall i v, In (i, v) us -> i = loc_id l -> v = u) ->
  exists t',
    row_after db n us (set_entity_id t u l) = set_entity_id t' u l
    /\ (t' = t \/ exists m, t' = clock db m).
Proof.
  revert n t. induction us as [|[i v] us IH]; intros n t Hall; [eauto|].
  cbn [row_after fst snd].
  assert (Hrest : forall j w, In (j, w) us -> j = loc_id l -> w = u)
    by (intros j w Hin; apply (Hall j w); now right).
  destruct (raises db n); [now apply IH|].
  destruct (String.eqb (loc_id (set_entity_id t u l)) i) eqn:E; [|now apply IH].
  apply String.eqb_eq in E. cbn in E.
  assert (v = u) as -> by (apply (Hall i v); [now left|now symmetry]).
  rewrite set_entity_id_twice.
  destruct (IH (S n) (clock db n) Hrest) as (t' & Ht' & Hor).
  exists t'. split; [exact Ht'|]. right.
  destruct Hor as [->|Hm]; eauto.
Qed.

Lemma row_after_touched n us l u :
  (forall m, raises db m = false) ->
  (forall i v, In (i, v) us -> i = loc_id l -> v = u) ->
  In (loc_id l, u) us ->
  exists m, row_after db n us l = set_entity_id (clock db m) u l.
Proof.
  intros Hok. revert n.
  induction us as [|[i v] us IH]; intros n Hall Hin; [destruct Hin|].
  cbn [row_after fst snd]. rewrite Hok.
  assert (Hrest : forall j w, In (j, w) us -> j = loc_id l -> w = u)
    by (intros j w Hj; apply (Hall j w); now right).
  destruct (String.eqb (loc_id l) i) eqn:E.
  - apply String.eqb_eq in E.
    assert (v = u) as -> by (apply (Hall i v); [now left|now symmetry]).
    destruct (row_after_set (S n) us l u (clock db n) Hrest)
      as (t' & Ht' & [->|[m ->]]); eauto.
  - apply String.eqb_neq in E. apply IH; [exact Hrest|].
    destruct Hin as [[= H1 H2]|Hin]; [now destruct E|exact Hin].
Qed.

Lemma Forall2_map_in {A B : Type} (R : A -> B -> Prop) (f : A -> B) l :
  (forall x, In x l -> R x (f x)) -> Forall2 R l (map f l).
Proof.
  induction l as [|a l IH]; intros H; [constructor|].
  cbn [map]. constructor; [apply H; now left|].
  apply IH. intros x Hx. apply H. now right.
Qed.

End ReconcilerEffect.

(** X13.  Every row of the store that is not deleted is handled once by the
    reconciler: it is counted as already matching, or as unmatched, or one
    call to [update_pg_entity_id] is made for it.  The counter [updated] is
    the number of calls that did not raise, so that the rows counted as
    updated, already matching or unmatched and the calls that raised add up
    to the rows that are not deleted; and the run neither adds rows to the
    store nor removes any. *)
Theorem reconciler_counts
    (db : sync_entity_uuids.database)
    (odk_entities : list entity) (store : list sync_entity_uuids.location) :
  let st := sync_entity_uuids.main db odk_entities store in
  let rows := length (List.filter
                        (fun l => negb (sync_entity_uuids.deleted l)) store) in
  let calls := length (sync_entity_uuids.updates st) in
  (sync_entity_uuids.already_match st + length (sync_entity_uuids.no_match st)
   + calls = rows)%nat
  /\ sync_entity_uuids.updated st = sync_entity_uuids.calls_done db calls
  /\ (sync_entity_uuids.updated st + sync_entity_uuids.already_match st
      + length (sync_entity_uuids.no_match st)
      + length (List.filter (sync_entity_uuids.raises db) (seq 0 calls))
      = rows)%nat
  /\ length (sync_entity_uuids.store_now st) = length store.
Proof.
  intros st rows calls.
  destruct (match_all_counts db
              (sync_entity_uuids.build_odk_by_label odk_entities)
              (sync_entity_uuids.get_pg_locations db store)
              (sync_entity_uuids.initial_state store)) as [H1 H2].
  cbv zeta in H1, H2.
  change (sync_entity_uuids.match_all db _ _ _) with st in H1, H2.
  fold calls in H1, H2.
  assert (Hrows : length (sync_entity_uuids.get_pg_locations db store) = rows).
  { unfold sync_entity_uuids.get_pg_locations. rewrite length_map.
    apply Permutation_length, sync_entity_uuids.scan_permutation. }
  rewrite Hrows in H1. cbn in H1.
  specialize (H2 eq_refl).
  pose proof (calls_done_failed db calls) as H3.
  split; [lia|]. split; [exact H2|]. split; [lia|].
  unfold st. rewrite main_store. apply length_map.
Qed.

(** X14.  Whatever the keys of the store, the order in which it returns
    the rows and the calls that raise, a run changes in a row nothing but
    the member [_entity_id] of [raw_data] and the time stamp [updated_at]:
    every row of the store has, in the store after the run, a row with its
    key, name and deletion mark, with a NULL [raw_data] exactly when its
    own is NULL, and with every other member of [raw_data] as it was; and
    the store after the run has no other rows. *)
Theorem reconciler_frame
    (db : sync_entity_uuids.database)
    (odk_entities : list entity) (store : list sync_entity_uuids.location) :
  let after := sync_entity_uuids.store_now
                 (sync_entity_uuids.main db odk_entities store) in
  (forall l, In l store ->
     exists l', In l' after /\ sync_entity_uuids.keeps_columns l l')
  /\ (forall l', In l' after ->
        exists l, In l store /\ sync_entity_uuids.keeps_columns l l').
Proof.
  intros after. unfold after. rewrite main_store. split.
  - intros l Hl. eexists. split; [apply in_map, Hl|]. apply row_after_keeps.
  - intros l' Hl'. apply in_map_iff in Hl' as (l & <- & Hl).
    exists l. split; [exact Hl|]. apply row_after_keeps.
Qed.

Lemma reconciler_frame_witness :
  exists l',
    In l' (sync_entity_uuids.store_now
             (sync_entity_uuids.main Examples.steady_db [Examples.posko_blang]
                Examples.posko_store))
    /\ sync_entity_uuids.loc_id l' = "loc-1"
    /\ sync_entity_uuids.loc_nama l' = "Posko Blang".
Proof.
  destruct (reconciler_frame Examples.steady_db [Examples.posko_blang]
              Examples.posko_store) as [H _].
  destruct (H {| sync_entity_uuids.loc_id := "loc-1";
                 sync_entity_uuids.loc_nama := "Posko Blang";
                 sync_entity_uuids.raw_data := Some ∅;
                 sync_entity_uuids.deleted := false;
                 sync_entity_uuids.updated_at := 0 |})
    as (l' & Hl' & H1 & H2 & _).
  - left. reflexivity.
  - exists l'. auto.
Defined.

(** X15.  On a store whose rows have distinct keys, and when no call to
    [update_pg_entity_id] raises, a run is the row-wise update: a row that
    is not deleted, whose name is a label of an entity and which stores
    another identifier (or none) than the one found is the target of the
    UPDATE with that identifier, at a time of the run (its [_entity_id]
    becomes the identifier when [raw_data] is a JSON object, a NULL
    [raw_data] stays NULL, [updated_at] is set); every other row is left
    exactly as it was. *)
Theorem reconciler_effect
    (db : sync_entity_uuids.database)
    (odk_entities : list entity) (store : list sync_entity_uuids.location) :
  List.NoDup (map sync_entity_uuids.loc_id store) ->
  (forall n, sync_entity_uuids.raises db n = false) ->
  Forall2
    (fun l l' =>
       match sync_entity_uuids.build_odk_by_label odk_entities
               !! sync_entity_uuids.loc_nama l with
       | Some found =>
           if sync_entity_uuids.deleted l
              || bool_decide
                   (sync_entity_uuids.json_text
                      (sync_entity_uuids.raw_data l) "_entity_id"
                    = Some found)
           then l' = l
           else exists n,
                  l' = sync_entity_uuids.set_entity_id
                         (sync_entity_uuids.clock db n) found l
       | None => l' = l
       end)
    store
    (sync_entity_uuids.store_now (sync_entity_uuids.main db odk_entities store)).
Proof.
  intros Hnd Hok. rewrite main_store.
  set (odk := sync_entity_uuids.build_odk_by_label odk_entities).
  set (us := sync_entity_uuids.updates _).
  apply Forall2_map_in. intros l Hl.
  assert (Hsame : forall i v, In (i, v) us -> i = sync_entity_uuids.loc_id l ->
            sync_entity_uuids.deleted l = false
            /\ odk !! sync_entity_uuids.loc_nama l = Some v
            /\ sync_entity_uuids.json_text (sync_entity_uuids.raw_data l)
                 "_entity_id" <> Some v).
  { intros i v Hiv Hi.
    apply main_updates_elem in Hiv as (q & Hq & Hdq & Hid & Hv & Hc).
    assert (q = l) as ->; [|auto].
    apply (NoDup_map_eq sync_entity_uuids.loc_id store); auto. congruence. }
  destruct (odk !! sync_entity_uuids.loc_nama l) as [found|] eqn:Eo.
  - destruct (sync_entity_uuids.deleted l) eqn:Ed; cbn [orb].
    + apply row_after_untouched. intros i v Hiv Hi.
      destruct (Hsame i v Hiv Hi) as [H _]. discriminate.
    + destruct (bool_decide _) eqn:Eb.
      * apply bool_decide_eq_true in Eb.
        apply row_after_untouched. intros i v Hiv Hi.
        destruct (Hsame i v Hiv Hi) as (_ & Hv & Hc). congruence.
      * apply bool_decide_eq_false in Eb.
        apply row_after_touched; [exact Hok| |].
        -- intros i v Hiv Hi.
           destruct (Hsame i v Hiv Hi) as (_ & Hv & _). congruence.
        -- apply main_updates_elem. exists l. fold odk. auto.
  - apply row_after_untouched. intros i v Hiv Hi.
    destruct (Hsame i v Hiv Hi) as (_ & Hv & _). discriminate.
Qed.

Lemma reconciler_effect_witness :
  List.NoDup (map sync_entity_uuids.loc_id Examples.posko_store)
  /\ (forall n, sync_entity_uuids.raises Examples.steady_db n = false)
  /\ Forall2
       (fun l l' =>
          match sync_entity_uuids.build_odk_by_label [Examples.posko_blang]
                  !! sync_entity_uuids.loc_nama l with
          | Some found =>
              if sync_entity_uuids.deleted l
                 || bool_decide
                      (sync_entity_uuids.json_text
                         (sync_entity_uuids.raw_data l) "_entity_id"
                       = Some found)
              then l' = l
              else exists n,
                     l' = sync_entity_uuids.set_entity_id
                            (sync_entity_uuids.clock Examples.steady_db n)
                            found l
          | None => l' = l
          end)
       Examples.posko_store
       (sync_entity_uuids.store_now
          (sync_entity_uuids.main Examples.steady_db [Examples.posko_blang]
             Examples.posko_store))
  /\ sync_entity_uuids.store_now
       (sync_entity_uuids.main Examples.steady_db [Examples.posko_blang]
          Examples.posko_store)
     = [ {| sync_entity_uuids.loc_id := "loc-1";
            sync_entity_uuids.loc_nama := "Posko Blang";
            sync_entity_uuids.raw_data := Some {[ "_entity_id" := PStr "A1" ]};
            sync_entity_uuids.deleted := false;
            sync_entity_uuids.updated_at := 1000 |};
         {| sync_entity_uuids.loc_id := "loc-2";
            sync_entity_uuids.loc_nama := "Posko Lama";
            sync_entity_uuids.raw_data := Some {[ "_entity_id" := PStr "B7" ]};
            sync_entity_uuids.deleted := true;
            sync_entity_uuids.updated_at := 0 |};
         {| sync_entity_uuids.loc_id := "loc-3";
            sync_entity_uuids.loc_nama := "Posko Tanpa Entitas";
            sync_entity_uuids.raw_data := Some ∅;
            sync_entity_uuids.deleted := false;
            sync_entity_uuids.updated_at := 0 |} ].
Proof.
  assert (Hnd : List.NoDup (map sync_entity_uuids.loc_id Examples.posko_store)).
  { repeat (constructor; [simpl; intuition discriminate|]). constructor. }
  assert (Hok : forall n, sync_entity_uuids.raises Examples.steady_db n = false)
    by reflexivity.
  split; [exact Hnd|]. split; [exact Hok|]. split.
  - exact (reconciler_effect Examples.steady_db [Examples.posko_blang]
             Examples.posko_store Hnd Hok).
  - vm_compute. reflexivity.
Defined.

(** X20.  The reconciler is idempotent on a store it could bring up to
    date: when the rows have distinct keys, no call of the first run
    raises, and every row that is not deleted and whose name is a label of
    an entity holds a JSON object in [raw_data], a second run, on the store
    the first run left and with the same entities, makes no call to
    [update_pg_entity_id], whatever the order in which the store returns
    the rows. *)
Theorem reconcile_twice_settled
    (db db' : sync_entity_uuids.database)
    (odk_entities : list entity) (store : list sync_entity_uuids.location) :
  List.NoDup (map sync_entity_uuids.loc_id store) ->
  (forall n, sync_entity_uuids.raises db n = false) ->
  (forall l found,
     In l store -> sync_entity_uuids.deleted l = false ->
     sync_entity_uuids.build_odk_by_label odk_entities
       !! sync_entity_uuids.loc_nama l = Some found ->
     sync_entity_uuids.raw_data l <> None) ->
  sync_entity_uuids.updates
    (sync_entity_uuids.main db' odk_entities
       (sync_entity_uuids.store_now
          (sync_entity_uuids.main db odk_entities store)))
  = [].
Proof.
  intros Hnd Hok Hobj.
  set (odk := sync_entity_uuids.build_odk_by_label odk_entities) in *.
  rewrite main_store.
  set (us := sync_entity_uuids.updates
               (sync_entity_uuids.main db odk_entities store)).
  unfold sync_entity_uuids.main at 1. fold odk.
  rewrite match_all_settled; [reflexivity|].
  intros x found Hx Hfound.
  apply in_get_pg_locations in Hx as (r' & Hr' & Hdel & ->).
  apply in_map_iff in Hr' as (r & <- & Hr).
  cbn [sync_entity_uuids.nama sync_entity_uuids.select_row] in Hfound.
  destruct (row_after_columns db 0 us r) as (_ & Hnama & Hdeleted).
  rewrite Hnama in Hfound. rewrite Hdeleted in Hdel.
  cbn [sync_entity_uuids.current_entity_id sync_entity_uuids.select_row].
  apply row_after_settles; [exact Hok| |].
  - intros i v Hiv Hi.
    apply main_updates_elem in Hiv as (q & Hq & _ & Hid & Hv & _).
    assert (q = r).
    { apply (NoDup_map_eq sync_entity_uuids.loc_id store); auto. congruence. }
    subst q. fold odk in Hv. congruence.
  - destruct (decide (sync_entity_uuids.json_text
                        (sync_entity_uuids.raw_data r) "_entity_id"
                      = Some found)) as [E|N]; [now right|left].
    split; [|now apply (Hobj r found)].
    apply main_updates_elem. exists r. fold odk. auto.
Qed.

Lemma reconcile_twice_settled_witness :
  List.NoDup (map sync_entity_uuids.loc_id Examples.posko_store)
  /\ sync_entity_uuids.updates
       (sync_entity_uuids.main Examples.steady_db [Examples.posko_blang]
          Examples.posko_store)
     = [("loc-1", "A1")]
  /\ sync_entity_uuids.updates
       (sync_entity_uuids.main Examples.steady_db [Examples.posko_blang]
          (sync_entity_uuids.store_now
             (sync_entity_uuids.main Examples.steady_db [Examples.posko_blang]
                Examples.posko_store)))
     = [].
Proof.
  assert (Hnd : List.NoDup (map sync_entity_uuids.loc_id Examples.posko_store)).
  { repeat (constructor; [simpl; intuition discriminate|]). constructor. }
  split; [exact Hnd|]. split; [vm_compute; reflexivity|].
  apply (reconcile_twice_settled Examples.steady_db Examples.steady_db
           [Examples.posko_blang] Examples.posko_store Hnd).
  - reflexivity.
  - intros l found [<-|[<-|[<-|[]]]] _ _; discriminate.
Defined.

(** X21.  A row that is not deleted, whose name is a label of an entity
    and whose [raw_data] is NULL is never brought up to date: every run
    calls [update_pg_entity_id] for it, the one after a run included,
    whatever the order of the rows and the calls that raise. *)
Theorem null_raw_data_never_settles
    (db db' : sync_entity_uuids.database)
    (odk_entities : list entity) (store : list sync_entity_uuids.location)
    (l : sync_entity_uuids.location) (found : string) :
  In l store -> sync_entity_uuids.deleted l = false ->
  sync_entity_uuids.raw_data l = None ->
  sync_entity_uuids.build_odk_by_label odk_entities
    !! sync_entity_uuids.loc_nama l = Some found ->
  In (sync_entity_uuids.loc_id l, found)
     (sync_entity_uuids.updates (sync_entity_uuids.main db odk_entities store))
  /\ In (sync_entity_uuids.loc_id l, found)
        (sync_entity_uuids.updates
           (sync_entity_uuids.main db' odk_entities
              (sync_entity_uuids.store_now
                 (sync_entity_uuids.main db odk_entities store)))).
Proof.
  intros Hl Hdel Hnull Hfound. split.
  - apply main_updates_elem. exists l. rewrite Hnull.
    repeat split; auto; discriminate.
  - rewrite main_store.
    set (us := sync_entity_uuids.updates
                 (sync_entity_uuids.main db odk_entities store)).
    destruct (row_after_columns db 0 us l) as (Hid & Hnama & Hdeleted).
    apply main_updates_elem. exists (sync_entity_uuids.row_after db 0 us l).
    rewrite Hid, Hnama, Hdeleted, (row_after_null db 0 us l Hnull).
    split; [now apply in_map|]. repeat split; auto; discriminate.
Qed.

Lemma null_raw_data_never_settles_witness :
  In ("loc-1", "A1")
     (sync_entity_uuids.updates
        (sync_entity_uuids.main Examples.steady_db [Examples.posko_blang]
           (sync_entity_uuids.store_now
              (sync_entity_uuids.main Examples.steady_db [Examples.posko_blang]
                 Examples.posko_without_raw_data)))).
Proof.
  apply (null_raw_data_never_settles Examples.steady_db Examples.steady_db
           [Examples.posko_blang] Examples.posko_without_raw_data
           {| sync_entity_uuids.loc_id := "loc-1";
              sync_entity_uuids.loc_nama := "Posko Blang";
              sync_entity_uuids.raw_data := None;
              sync_entity_uuids.deleted := false;
              sync_entity_uuids.updated_at := 0 |} "A1").
  - left. reflexivity.
  - reflexivity.
  - reflexivity.
  - reflexivity.
Defined.

(** ** Property script: the rows of the store, the counters, the calls *)

Section PgRows.
Import update_odk_entities.
Local Open Scope list_scope.

Lemma get_pg_data_snoc rows row :
  get_pg_data_via_docker (rows ++ [row])
  = add_row (get_pg_data_via_docker rows) row.
Proof. unfold get_pg_data_via_docker. now rewrite fold_left_app. Qed.

Lemma add_row_lookup d row u :
  add_row d row !! u
  = if bool_decide (row !! "entity_id" = Some (PStr u) /\ u <> "")
    then Some (clean_value <$> delete "entity_id" row)
    else d !! u.
Proof.
  unfold add_row.
  destruct (row !! "entity_id") as [[| | |entity_id]|] eqn:Eid;
    try (rewrite bool_decide_eq_false_2 by (intros [? ?]; congruence);
         reflexivity).
  destruct (nonempty entity_id) eqn:En.
  - apply nonempty_true in En.
    destruct (decide (entity_id = u)) as [->|Hne].
    + rewrite bool_decide_eq_true_2 by auto. apply lookup_insert_eq.
    + rewrite bool_decide_eq_false_2 by (intros [? ?]; congruence).
      now apply lookup_insert_ne.
  - apply nonempty_false in En. subst entity_id.
    rewrite bool_decide_eq_false_2; [reflexivity|].
    intros [[= <-] H]. now destruct H.
Qed.

Lemma fold_add_row_later rows d u :
  (forall row, In row rows -> row !! "entity_id" <> Some (PStr u)) ->
  fold_left add_row rows d !! u = d !! u.
Proof.
  revert d. induction rows as [|row rows IH]; intros d Hno; [reflexivity|].
  cbn [fold_left]. rewrite IH by (intros r Hr; apply Hno; now right).
  rewrite add_row_lookup. rewrite bool_decide_eq_false_2; [reflexivity|].
  intros [H _]. apply (Hno row); [now left|exact H].
Qed.

End PgRows.

(** X16.  The data fetched from the store has one entry per entity
    identifier, made from the last line of the query's output with that
    identifier: the line without its [entity_id], every value cleaned.  The
    entry has the keys of the line but [entity_id], a null field being kept
    as an empty string; a line whose identifier is null, empty or missing
    gives no entry. *)
Theorem pg_data_entries
    (rows : list (gmap string pyval)) (u : string) (loc_data : gmap string pyval) :
  update_odk_entities.get_pg_data_via_docker rows !! u = Some loc_data <->
  u <> ""
  /\ exists l1 row l2,
       rows = (l1 ++ row :: l2)%list
       /\ row !! "entity_id" = Some (PStr u)
       /\ loc_data = update_odk_entities.clean_value <$> delete "entity_id" row
       /\ loc_data !! "entity_id" = None
       /\ dom loc_data = dom row ∖ {[ "entity_id" ]}
       /\ forall row', In row' l2 -> row' !! "entity_id" <> Some (PStr u).
Proof.
  split.
  - induction rows as [|row rows IH] using rev_ind.
    + unfold update_odk_entities.get_pg_data_via_docker. simpl.
      now rewrite lookup_empty.
    + rewrite get_pg_data_snoc, add_row_lookup.
      destruct (bool_decide _) eqn:Eb.
      * apply bool_decide_eq_true in Eb as [Hid Hu]. intros [= <-].
        split; [exact Hu|]. exists rows, row, []. split; [reflexivity|].
        split; [exact Hid|]. split; [reflexivity|].
        split; [now rewrite lookup_fmap, lookup_delete_eq|].
        split; [now rewrite dom_fmap_L, dom_delete_L|]. now intros r [].
      * apply bool_decide_eq_false in Eb. intros Hl.
        destruct (IH Hl) as (Hu & l1 & r & l2 & -> & H1 & H2 & H3 & H4 & H5).
        split; [exact Hu|]. exists l1, r, (l2 ++ [row])%list.
        rewrite <- app_assoc. repeat split; auto.
        intros r' Hr'. apply in_app_iff in Hr' as [Hr'|[<-|[]]]; auto.
  - intros (Hu & l1 & row & l2 & -> & Hid & -> & _ & _ & Hno).
    unfold update_odk_entities.get_pg_data_via_docker.
    rewrite fold_left_app. cbn [fold_left].
    rewrite fold_add_row_later by exact Hno.
    rewrite add_row_lookup. now rewrite bool_decide_eq_true_2.
Qed.

Lemma pg_data_entries_witness :
  exists loc_data,
    update_odk_entities.get_pg_data_via_docker Examples.posko_rows !! "A1"
      = Some loc_data
    /\ loc_data !! "entity_id" = None
    /\ loc_data !! "kk_perempuan" = Some (PStr "").
Proof.
  assert (H : exists loc_data,
             update_odk_entities.get_pg_data_via_docker Examples.posko_rows
               !! "A1" = Some loc_data)
    by (eexists; vm_compute; reflexivity).
  destruct H as [loc_data H]. exists loc_data. split; [exact H|].
  pose proof H as H'.
  apply pg_data_entries in H' as (_ & l1 & row & l2 & _ & _ & _ & Hnone & _).
  split; [exact Hnone|].
  vm_compute in H. injection H as <-. vm_compute. reflexivity.
Defined.

Section RunCounters.
Import update_odk_entities.
Local Open Scope list_scope.

Variable P : platform.
Variable pg_data : gmap string (gmap string pyval).

Lemma sync_one_shape srv e :
  exists r made srv',
    sync_one P pg_data srv e = (r, made, srv')
    /\ ((made = [] /\ (r = No_pg_data \/ r = Already_complete))
        \/ exists request,
             made = [GET (uuid e); PATCH request]
             /\ (r = Updated \/ exists error, r = Error error)).
Proof.
  destruct (sync_one_cases P pg_data srv e)
    as [[E _]|[(loc & _ & _ & _ & _ & E)|(loc & _ & _ & _ & E)]].
  - do 3 eexists. split; [exact E|]. left. auto.
  - do 3 eexists. split; [exact E|]. left. auto.
  - cbv zeta in E. do 3 eexists. split; [exact E|]. right. eexists.
    split; [reflexivity|].
    destruct (update_entity_result _) as [[] error]; eauto.
Qed.

Lemma step_counts st e :
  let st' := step P pg_data st e in
  n_updated st' + n_skipped st' + n_errors st' + n_no_pg_data st'
  = S (n_updated st + n_skipped st + n_errors st + n_no_pg_data st)
  /\ length (List.filter is_patch (calls st')) - length (List.filter is_patch (calls st))
     = (n_updated st' + n_errors st') - (n_updated st + n_errors st)
  /\ length (List.filter is_patch (calls st)) <= length (List.filter is_patch (calls st'))
  /\ n_updated st + n_errors st <= n_updated st' + n_errors st'
  /\ length (List.filter is_get (calls st')) - length (List.filter is_get (calls st))
     = length (List.filter is_patch (calls st'))
       - length (List.filter is_patch (calls st))
  /\ length (List.filter is_get (calls st)) <= length (List.filter is_get (calls st')).
Proof.
  unfold step.
  destruct (sync_one_shape (srv_now st) e)
    as (r & made & srv' & -> & [[-> Hr]|(request & -> & Hr)]); cbn.
  - rewrite app_nil_r. destruct Hr as [-> | ->]; repeat split; lia.
  - rewrite !List.filter_app, !length_app. cbn.
    destruct Hr as [-> | [error ->]]; repeat split; lia.
Qed.

Lemma run_counts es st :
  let st' := fold_left (step P pg_data) es st in
  n_updated st' + n_skipped st' + n_errors st' + n_no_pg_data st'
  = length es + (n_updated st + n_skipped st + n_errors st + n_no_pg_data st)
  /\ (length (List.filter is_patch (calls st)) = n_updated st + n_errors st ->
      length (List.filter is_patch (calls st')) = n_updated st' + n_errors st')
  /\ (length (List.filter is_get (calls st))
      = length (List.filter is_patch (calls st)) ->
      length (List.filter is_get (calls st'))
      = length (List.filter is_patch (calls st'))).
Proof.
  revert st. induction es as [|e es IH]; intros st; [cbn; auto|].
  cbn [fold_left]. destruct (IH (step P pg_data st e)) as (H1 & H2 & H3).
  destruct (step_counts st e) as (S1 & S2 & S3 & S4 & S5 & S6).
  cbv zeta in *. split; [cbn [length]; lia|]. split.
  - intros H0. apply H2. lia.
  - intros H0. apply H3. lia.
Qed.

End RunCounters.

(** X17.  A run of the property script against a platform that answers
    every call counts every listed entity once, as updated, already
    complete, without data or in error, so that an update the platform
    rejects (an answer with another status than 200 and 201) does not stop
    the run; it makes one update call per entity counted as updated or in
    error, and one read per update call.  (A call on which the transport
    fails raises out of the loop, which has no handler: such a run ends
    there and is not one of this statement.) *)
Theorem run_counts_every_entity
    (P : platform) (srv : server P) (odk_entities : list entity)
    (rows : list (gmap string pyval)) :
  let st := update_odk_entities.main P srv odk_entities rows in
  (update_odk_entities.n_updated st + update_odk_entities.n_skipped st
   + update_odk_entities.n_errors st + update_odk_entities.n_no_pg_data st
   = length odk_entities)%nat
  /\ (length (List.filter is_patch (update_odk_entities.calls st))
      = update_odk_entities.n_updated st + update_odk_entities.n_errors st)%nat
  /\ length (List.filter is_get (update_odk_entities.calls st))
     = length (List.filter is_patch (update_odk_entities.calls st)).
Proof.
  intros st. unfold st, update_odk_entities.main.
  destruct (run_counts P (update_odk_entities.get_pg_data_via_docker rows)
              odk_entities
              {| update_odk_entities.srv_now := srv;
                 update_odk_entities.n_updated := 0;
                 update_odk_entities.n_skipped := 0;
                 update_odk_entities.n_errors := 0;
                 update_odk_entities.n_no_pg_data := 0;
                 update_odk_entities.calls := [] |}) as (H1 & H2 & H3).
  cbv zeta in *. cbn in H1, H2, H3. split; [lia|]. split; auto.
Qed.

Section Cooperative.
Import update_odk_entities.
Local Open Scope list_scope.

Variable P : platform.
Variable pg_data : gmap string (gmap string pyval).

(** The platform accepts an update that names the version just read. *)
Hypothesis accepts_version_read :
  forall srv entity_uuid request,
    req_uuid request = entity_uuid ->
    req_base_version request = fst (get_entity_version P srv entity_uuid) ->
    status_code
      (fst (http_patch P (snd (get_entity_version P srv entity_uuid)) request))
    = 200%Z.

Lemma sync_one_no_error srv e error :
  fst (fst (sync_one P pg_data srv e)) <> Error error.
Proof.
  destruct (sync_one_cases P pg_data srv e)
    as [[E _]|[(loc & _ & _ & _ & _ & E)|(loc & _ & _ & _ & E)]].
  - now rewrite E.
  - now rewrite E.
  - cbv zeta in E. rewrite E. cbn [fst].
    rewrite update_entity_result_accepted; [discriminate|].
    left. now apply accepts_version_read.
Qed.

Lemma run_no_error es st :
  n_errors (fold_left (step P pg_data) es st) = n_errors st.
Proof.
  revert st. induction es as [|e es IH]; intros st; [reflexivity|].
  cbn [fold_left]. rewrite IH. unfold step.
  pose proof (sync_one_no_error (srv_now st) e) as Hne.
  destruct (sync_one P pg_data (srv_now st) e) as [[r made] srv'].
  cbn [fst] in Hne. destruct r; cbn; try reflexivity.
  now destruct (Hne error).
Qed.

End Cooperative.

(** X18.  Against a platform that accepts an update naming the version it
    has just reported for that entity (no other actor in between), the
    version read before each update is the right token: a run ends without
    any error, and every entity is counted as updated, already complete or
    without data. *)
Theorem run_without_conflict
    (P : platform) (srv : server P) (odk_entities : list entity)
    (rows : list (gmap string pyval)) :
  (forall srv entity_uuid request,
      req_uuid request = entity_uuid ->
      req_base_version request
      = fst (update_odk_entities.get_entity_version P srv entity_uuid) ->
      status_code
        (fst (http_patch P
                (snd (update_odk_entities.get_entity_version P srv entity_uuid))
                request))
      = 200%Z) ->
  let st := update_odk_entities.main P srv odk_entities rows in
  update_odk_entities.n_errors st = 0%nat
  /\ (update_odk_entities.n_updated st + update_odk_entities.n_skipped st
      + update_odk_entities.n_no_pg_data st
      = length odk_entities)%nat
  /\ length (List.filter is_patch (update_odk_entities.calls st))
     = update_odk_entities.n_updated st.
Proof.
  intros Hacc st.
  assert (He : update_odk_entities.n_errors st = 0%nat).
  { unfold st, update_odk_entities.main. now rewrite run_no_error. }
  destruct (run_counts P (update_odk_entities.get_pg_data_via_docker rows)
              odk_entities
              {| update_odk_entities.srv_now := srv;
                 update_odk_entities.n_updated := 0;
                 update_odk_entities.n_skipped := 0;
                 update_odk_entities.n_errors := 0;
                 update_odk_entities.n_no_pg_data := 0;
                 update_odk_entities.calls := [] |}) as (H1 & H2 & _).
  cbv zeta in H1, H2. cbn in H1, H2.
  fold (update_odk_entities.main P srv odk_entities rows) in H1, H2.
  fold st in H1, H2. specialize (H2 eq_refl).
  split; [exact He|]. split; lia.
Qed.

Lemma run_without_conflict_witness :
  update_odk_entities.n_errors
    (update_odk_entities.main Examples.quiet_platform 3%Z
       [Examples.posko_blang; Examples.posko_blang_complete] Examples.posko_rows)
  = 0%nat.
Proof.
  refine (proj1 (run_without_conflict Examples.quiet_platform 3%Z
                   [Examples.posko_blang; Examples.posko_blang_complete]
                   Examples.posko_rows _)).
  intros srv entity_uuid request _ Hbase.
  cbn in Hbase |- *. unfold Examples.answer. rewrite Hbase, Z.eqb_refl.
  reflexivity.
Defined.

(** X19.  An entity that the platform lists without a label is never
    counted as already complete: when the store has a named row for it, an
    update is sent, whatever properties the entity holds. *)
Theorem unlabelled_entity_is_updated
    (P : platform) (pg_data : gmap string (gmap string pyval))
    (srv : server P) (e : entity) (loc_data : gmap string pyval) :
  label e = None ->
  pg_data !! uuid e = Some loc_data ->
  Py.truthy (Py.get loc_data "nama_posko" (PStr "")) = true ->
  exists request,
    snd (fst (update_odk_entities.sync_one P pg_data srv e))
    = [GET (uuid e); PATCH request]
    /\ req_data request = loc_data
    /\ req_label request = Py.get loc_data "nama_posko" (PStr "").
Proof.
  intros Hl Hpg Ht.
  destruct (sync_one_cases P pg_data srv e)
    as [[_ [E|(loc & E & Hf)]]
       |[(loc & E & _ & _ & Heq & _)|(loc & E & _ & _ & Hs)]].
  - congruence.
  - rewrite Hpg in E. injection E as <-. congruence.
  - rewrite Hpg in E. injection E as <-.
    unfold update_odk_entities.label_value in Heq. rewrite Hl in Heq.
    destruct (Py.get loc_data "nama_posko" (PStr "")); discriminate.
  - rewrite Hpg in E. injection E as <-. cbv zeta in Hs.
    eexists. rewrite Hs. cbn [fst snd]. split; [reflexivity|].
    split; reflexivity.
Qed.

Lemma unlabelled_entity_is_updated_witness :
  exists request,
    snd (fst (update_odk_entities.sync_one Examples.quiet_platform
                Examples.posko_data 7%Z
                {| uuid := "A1"; label := None; currentVersion := None;
                   data := Some (req_data (Examples.posko_request 0)) |}))
    = [GET "A1"; PATCH request].
Proof.
  destruct (unlabelled_entity_is_updated Examples.quiet_platform
              Examples.posko_data 7%Z
              {| uuid := "A1"; label := None; currentVersion := None;
                 data := Some (req_data (Examples.posko_request 0)) |}
              (req_data (Examples.posko_request 0)))
    as (request & H & _).
  - reflexivity.
  - vm_compute. reflexivity.
  - reflexivity.
  - exists request. exact H.
Defined.
